(** * qtopology-mysql: the coordination storage of [src/mysql_storage.ts]

    A shallow embedding of the class [MySqlStorage].  The callback chains of
    the source become computations in a small state-and-error monad over a
    [world]: the relational store behind [this.pool], the clock read by
    [Date.now()], the statements given to [this.log], the faults the driver
    is going to report, and the instance field [next_refresh].

    Three choices bound the model.  One call of the interface sees one
    reading of the clock: time passes between calls.  One instance works on
    the store: the fan-out of [async.each], whose items touch different rows,
    runs in the order of the list.  A JSON text in a column is kept as the
    value it was written from. *)

From stdpp Require Import base strings list gmap sorting pretty.
From Stdlib Require Import ZArith Lia Ascii.

Local Open Scope string_scope.
Local Open Scope Z_scope.
Set Warnings "-register-all".

(** ** Constants of the [qtopology] package *)

(** Modelled from the spec: [qtopology.Consts] belongs to the [qtopology]
    package, not to the sources; the status vocabularies are those of the
    data model (section 3), of the leadership report (section 4.4) and of the
    mailbox commands (section 3, message). *)
Module Consts.
Module WorkerStatus.
Definition alive : string := "alive".
Definition dead : string := "dead".
Definition unloaded : string := "unloaded".
End WorkerStatus.
Module WorkerLStatus.
Definition leader : string := "leader".
Definition candidate : string := "candidate".
Definition normal : string := "normal".
End WorkerLStatus.
Module TopologyStatus.
Definition running : string := "running".
Definition waiting : string := "waiting".
Definition error : string := "error".
Definition unassigned : string := "unassigned".
End TopologyStatus.
Module LeadershipStatus.
Definition vacant : string := "vacant".
Definition pending : string := "pending".
Definition ok : string := "ok".
End LeadershipStatus.
Module LeaderMessages.
Definition stop_topology : string := "stop_topology".
Definition shutdown : string := "shutdown".
End LeaderMessages.
End Consts.

(** ** JavaScript values that cross the interface *)

(** The [any]-typed payloads ([config], message [content]): what
    [JSON.stringify] keeps of them.  Numbers are restricted to integers. *)
Inductive json :=
| JNull
| JBool (b : bool)
| JNum (z : Z)
| JStr (s : string)
| JArr (items : list json)
| JObj (fields : list (string * json)).

(** A JavaScript value is a [json] or [undefined] ([None]). *)
Definition js_value := option json.

Inductive js_error :=
| Error (msg : string)
| TypeError (msg : string).

(** [v.k]: reading a property of [undefined] or [null] throws; an object
    yields the field or [undefined]; the properties read by this program
    ([general], [worker_affinity], [weight]) are [undefined] on arrays and
    primitives. *)
Definition get_prop (v : js_value) (k : string) : js_error + js_value :=
  match v with
  | None => inl (TypeError ("Cannot read property '" +:+ k +:+ "' of undefined"))
  | Some JNull => inl (TypeError ("Cannot read property '" +:+ k +:+ "' of null"))
  | Some (JObj fields) => inr (snd <$> List.find (λ f, bool_decide (fst f = k)) fields)
  | Some _ => inr None
  end.

(** ToBoolean. *)
Definition truthy (v : js_value) : bool :=
  match v with
  | None | Some JNull => false
  | Some (JBool b) => b
  | Some (JNum z) => negb (z =? 0)
  | Some (JStr s) => negb (bool_decide (s = ""))
  | Some (JArr _) | Some (JObj _) => true
  end.

(** ToString, with the rule of [Array.prototype.join] that [null] elements
    print as the empty string. *)
Fixpoint js_to_string (v : json) : string :=
  match v with
  | JNull => "null"
  | JBool true => "true"
  | JBool false => "false"
  | JNum z => pretty z
  | JStr s => s
  | JArr items =>
      String.concat ","
        ((fix elems (l : list json) : list string :=
            match l with
            | [] => []
            | JNull :: r => "" :: elems r
            | x :: r => js_to_string x :: elems r
            end) items)
  | JObj _ => "[object Object]"
  end.

(** [v.join(",")]: only arrays have the method. *)
Definition js_join (v : js_value) : js_error + string :=
  match v with
  | Some (JArr items) => inr (js_to_string (JArr items))
  | _ => inl (TypeError "config.general.worker_affinity.join is not a function")
  end.

(** [s.split(",").filter(x => x.length > 0)]. *)
Fixpoint split_commas_aux (s : string) (cur : string) : list string :=
  match s with
  | EmptyString => [String.rev cur]
  | String c r =>
      if bool_decide (c = ","%char)
      then String.rev cur :: split_commas_aux r ""
      else split_commas_aux r (String c cur)
  end.
Definition split_commas (s : string) : list string :=
  List.filter (λ x, negb (bool_decide (x = ""))) (split_commas_aux s "").

(** [Date.prototype.getDate]: the day of the month of a time stamp given in
    milliseconds since the epoch, with UTC taken as the local time zone
    (days-to-civil conversion of the proleptic Gregorian calendar). *)
Definition getDate (ms : Z) : Z :=
  let z := ms `div` 86400000 + 719468 in
  let era := z `div` 146097 in
  let doe := z - era * 146097 in
  let yoe := (doe - doe `div` 1460 + doe `div` 36524 - doe `div` 146096) `div` 365 in
  let doy := doe - (365 * yoe + yoe `div` 4 - yoe `div` 100) in
  let mp := (5 * doy + 2) `div` 153 in
  doy - (153 * mp + 2) `div` 5 + 1.

(** ** The relational store *)

(** Modelled from the spec: the schema scripts are not part of the sources.
    The columns of a worker are those the class reads and writes; its [name],
    unique (section 3), is the key of the table.  [last_ping] may be NULL:
    the class substitutes the current date for it. *)
Record worker_row := WorkerRow {
  w_status : string;
  w_lstatus : string;
  w_last_ping : option Z
}.

(** Modelled from the spec: the columns of a topology, keyed by its [uuid].
    [config] holds the text [JSON.stringify] wrote, kept as the value
    [JSON.parse] reads back from it; [weight] holds the value submitted;
    [last_ping] is not NULL: the class dereferences it. *)
Record topology_row := TopologyRow {
  t_status : string;
  t_worker : option string;
  t_weight : json;
  t_worker_affinity : option string;
  t_error : option string;
  t_enabled : Z;
  t_config : json;
  t_last_ping : Z
}.

(** Modelled from the spec: the columns of a message, keyed by its
    auto-increment [id]; [content] as for [config] above. *)
Record message_row := MessageRow {
  m_worker : string;
  m_cmd : string;
  m_content : json;
  m_created : Z;
  m_valid_until : Z
}.

(** Modelled from the spec: the history tables hold copies of the rows,
    stamped with [ts] (section 3, history record). *)
Record worker_history_row := WorkerHistoryRow {
  wh_name : string;
  wh_status : string;
  wh_lstatus : string;
  wh_last_ping : option Z;
  wh_ts : Z
}.

Record topology_history_row := TopologyHistoryRow {
  th_uuid : string;
  th_status : string;
  th_worker : option string;
  th_weight : json;
  th_worker_affinity : option string;
  th_error : option string;
  th_enabled : Z;
  th_last_ping : Z;
  th_ts : Z
}.

Record db := Db {
  qtopology_worker : gmap string worker_row;
  qtopology_topology : gmap string topology_row;
  qtopology_message : gmap Z message_row;
  message_auto_increment : Z;
  qtopology_worker_history : list worker_history_row;
  qtopology_topology_history : list topology_history_row
}.

Definition set_workers (f : gmap string worker_row → gmap string worker_row) (d : db) : db :=
  Db (f (qtopology_worker d)) (qtopology_topology d) (qtopology_message d)
     (message_auto_increment d) (qtopology_worker_history d) (qtopology_topology_history d).
Definition set_topologies (f : gmap string topology_row → gmap string topology_row) (d : db) : db :=
  Db (qtopology_worker d) (f (qtopology_topology d)) (qtopology_message d)
     (message_auto_increment d) (qtopology_worker_history d) (qtopology_topology_history d).
Definition set_messages (f : gmap Z message_row → gmap Z message_row) (d : db) : db :=
  Db (qtopology_worker d) (qtopology_topology d) (f (qtopology_message d))
     (message_auto_increment d) (qtopology_worker_history d) (qtopology_topology_history d).
Definition set_auto_increment (n : Z) (d : db) : db :=
  Db (qtopology_worker d) (qtopology_topology d) (qtopology_message d)
     n (qtopology_worker_history d) (qtopology_topology_history d).
Definition add_worker_history (h : list worker_history_row) (d : db) : db :=
  Db (qtopology_worker d) (qtopology_topology d) (qtopology_message d)
     (message_auto_increment d) (qtopology_worker_history d ++ h) (qtopology_topology_history d).
Definition add_topology_history (h : list topology_history_row) (d : db) : db :=
  Db (qtopology_worker d) (qtopology_topology d) (qtopology_message d)
     (message_auto_increment d) (qtopology_worker_history d) (qtopology_topology_history d ++ h).

(** ** Statements *)

(** The statements built with the [query_helper] module ([qh]) and the calls
    of stored routines, kept as syntax: this is what [this.log] records. *)
Inductive sql_value :=
| VNull
| VNum (z : Z)
| VStr (s : string)
| VDate (ms : Z)
| VJson (j : json).

Inductive sql :=
| createSelect (cols : list string) (table : string)
    (filter : list (string * sql_value)) (order : list string) (limit : option nat)
| createUpdate (fields : list (string * sql_value)) (table : string)
    (filter : list (string * sql_value))
| createInsert (fields : list (string * sql_value)) (table : string)
| createDelete (table : string) (filter : list (string * sql_value))
| CALL (routine : string) (args : list sql_value)
| sql_append (s1 s2 : sql).

Module table_names.
Definition qtopology_message : string := "qtopology_message".
Definition qtopology_settings : string := "qtopology_settings".
Definition qtopology_topology : string := "qtopology_topology".
Definition qtopology_topology_history : string := "qtopology_topology_history".
Definition qtopology_worker : string := "qtopology_worker".
Definition qtopology_worker_history : string := "qtopology_worker_history".
End table_names.

(** ** The world of one storage instance *)

Record world := World {
  pool : db;                        (* the store behind [this.pool] *)
  next_refresh : Z;                 (* [this.next_refresh] *)
  now : Z;                          (* the reading of [Date.now()] *)
  faults : list (option js_error);  (* the outcome of the coming queries *)
  logged : list sql                 (* the statements given to [this.log] *)
}.

Definition set_pool (f : db → db) (w : world) : world :=
  World (f (pool w)) (next_refresh w) (now w) (faults w) (logged w).
Definition set_next_refresh (t : Z) (w : world) : world :=
  World (pool w) t (now w) (faults w) (logged w).
Definition set_faults (l : list (option js_error)) (w : world) : world :=
  World (pool w) (next_refresh w) (now w) l (logged w).
Definition add_logged (s : sql) (w : world) : world :=
  World (pool w) (next_refresh w) (now w) (faults w) (logged w ++ [s]).

(** Time passes, by [d] milliseconds, between two calls of the interface. *)
Definition tick (d : Z) (w : world) : world :=
  World (pool w) (next_refresh w) (now w + d) (faults w) (logged w).

(** [new MySqlStorage(options)] over an existing store. *)
Definition constructor (store : db) (t : Z) : world :=
  World store 0 t [] [].

(** ** Callbacks as a monad *)

(** What a computation hands to its callback: [callback(null, a)] (or
    [callback()] when [A] is [unit]), [callback(e)] and [callback(e, a)]; or
    an exception that escapes it, in which case the callback is not invoked.
    [OutOfFuel] is not an outcome of the program: it marks a run of the model
    whose bound on nested refreshes was too small. *)
Inductive reply (A : Type) :=
| Ok (a : A)
| Fail (e : js_error) (d : option A)
| Throw (e : js_error)
| OutOfFuel.
Arguments Ok {A} a.
Arguments Fail {A} e d.
Arguments Throw {A} e.
Arguments OutOfFuel {A}.

Definition M (A : Type) : Type := world → reply A * world.

Definition ret {A} (a : A) : M A := λ w, (Ok a, w).
Definition fail {A} (e : js_error) : M A := λ w, (Fail e None, w).
Definition throw {A} (e : js_error) : M A := λ w, (Throw e, w).

(** [m((err, a) => { if (err) return callback(err); k a })]. *)
Definition bind {A B} (m : M A) (k : A → M B) : M B :=
  λ w, match m w with
       | (Ok a, w') => k a w'
       | (Fail e _, w') => (Fail e None, w')
       | (Throw e, w') => (Throw e, w')
       | (OutOfFuel, w') => (OutOfFuel, w')
       end.

Notation "x <- m ;; k" := (bind m (λ x, k))
  (at level 100, m at next level, right associativity, only parsing).
Notation "m ;;; k" := (bind m (λ _, k))
  (at level 100, right associativity, only parsing).

(** An expression that may throw. *)
Definition eval {A} (r : js_error + A) : M A :=
  match r with inl e => throw e | inr a => ret a end.

(** [Date.now()], and [new Date()] as a time stamp. *)
Definition Date_now : M Z := λ w, (Ok (now w), w).

(** Reading and writing [self.next_refresh]. *)
Definition get_next_refresh : M Z := λ w, (Ok (next_refresh w), w).
Definition put_next_refresh (t : Z) : M unit := λ w, (Ok tt, set_next_refresh t w).

(** [this.query(sql, obj, callback)]: the statement is logged, then handed to
    the pool; the driver either reports an error, which reaches the callback
    and leaves the store as it was, or runs the statement.  [run] is the
    meaning of the statement on the store at server time [NOW()]. *)
Definition query {A} (text : sql) (run : Z → db → A * db) : M A :=
  λ w,
    let w := add_logged text w in
    match faults w with
    | Some e :: rest => (Fail e None, set_faults rest w)
    | None :: rest =>
        let '(a, d) := run (now w) (pool w) in
        (Ok a, set_faults rest (set_pool (λ _, d) w))
    | [] =>
        let '(a, d) := run (now w) (pool w) in
        (Ok a, set_pool (λ _, d) w)
    end.

(** [async.series(tasks, callback)]: the tasks run one after the other and
    the first error ends the series. *)
Fixpoint series (tasks : list (M unit)) : M unit :=
  match tasks with
  | [] => ret tt
  | t :: rest => t ;;; series rest
  end.

(** [async.each(items, iteratee, callback)]: the iteratee is started on every
    item, no item waits for another and none is cancelled; the callback gets
    the first error.  The items touch different rows, so the model runs them
    in the order of the list. *)
Definition first_error (r1 r2 : reply unit) : reply unit :=
  match r1 with
  | Ok _ => r2
  | _ => r1
  end.

Fixpoint each {A} (items : list A) (iteratee : A → M unit) : M unit :=
  match items with
  | [] => ret tt
  | x :: rest =>
      λ w, let '(r1, w1) := iteratee x w in
           let '(r2, w2) := each rest iteratee w1 in
           (first_error r1 r2, w2)
  end.

(** [m(err => callback(err, a))]: the data travels with the outcome. *)
Definition with_data {A} (a : A) (m : M unit) : M A :=
  λ w, match m w with
       | (Ok _, w') => (Ok a, w')
       | (Fail e _, w') => (Fail e (Some a), w')
       | (Throw e, w') => (Throw e, w')
       | (OutOfFuel, w') => (OutOfFuel, w')
       end.

(** ** The persistence collaborator *)

(** The SQL text built by [query_helper] and the routines of the schema
    scripts are not part of the sources.  The meaning of each statement on
    the store follows section 6 of the specification: select with filter,
    order and limit, update of the rows that match a filter, insert, delete,
    and the named routines. *)
Module Store.

(** Modelled from the spec: select of all the workers. *)
Definition select_workers : Z → db → list (string * worker_row) * db :=
  λ _ d, (map_to_list (qtopology_worker d), d).

(** The columns of the topology listing: [error] and [config] are not among
    the columns selected. *)
Record topology_listing := TopologyListing {
  tl_uuid : string;
  tl_status : string;
  tl_worker : option string;
  tl_weight : json;
  tl_worker_affinity : option string;
  tl_enabled : Z;
  tl_last_ping : Z
}.

Definition listing (p : string * topology_row) : topology_listing :=
  TopologyListing p.1 (t_status p.2) (t_worker p.2) (t_weight p.2)
    (t_worker_affinity p.2) (t_enabled p.2) (t_last_ping p.2).

(** Modelled from the spec: select of the topologies, all of them or those
    of one worker. *)
Definition select_topologies (worker : option string)
    : Z → db → list topology_listing * db :=
  λ _ d,
    (listing <$>
       List.filter
         (λ p, match worker with
               | None => true
               | Some n => bool_decide (t_worker p.2 = Some n)
               end)
         (map_to_list (qtopology_topology d)),
     d).

(** Modelled from the spec: select of one topology by its key. *)
Definition select_topology (uuid : string)
    : Z → db → list (string * topology_row) * db :=
  λ _ d,
    (match qtopology_topology d !! uuid with
     | Some r => [(uuid, r)]
     | None => []
     end, d).

(** Modelled from the spec: [qtopology_sp_add_worker_history(name)] and
    [qtopology_sp_add_topology_history(uuid)] copy the current row into the
    history, stamped with the server time. *)
Definition sp_add_worker_history (ts : Z) (name : string) (d : db) : db :=
  match qtopology_worker d !! name with
  | Some r =>
      add_worker_history
        [WorkerHistoryRow name (w_status r) (w_lstatus r) (w_last_ping r) ts] d
  | None => d
  end.

Definition sp_add_topology_history (ts : Z) (uuid : string) (d : db) : db :=
  match qtopology_topology d !! uuid with
  | Some r =>
      add_topology_history
        [TopologyHistoryRow uuid (t_status r) (t_worker r) (t_weight r)
           (t_worker_affinity r) (t_error r) (t_enabled r) (t_last_ping r) ts] d
  | None => d
  end.

(** Modelled from the spec: the update of the row with the given key,
    followed by the history routine, as one multi-statement query. *)
Definition update_worker (name : string) (f : worker_row → worker_row)
    : Z → db → unit * db :=
  λ ts d, (tt, sp_add_worker_history ts name (set_workers (alter f name) d)).

Definition update_topology (uuid : string) (f : topology_row → topology_row)
    : Z → db → unit * db :=
  λ ts d, (tt, sp_add_topology_history ts uuid (set_topologies (alter f uuid) d)).

(** Modelled from the spec: deletion of a topology by its key, and of a
    worker filtered on its name and status. *)
Definition delete_topology (uuid : string) : Z → db → unit * db :=
  λ _ d, (tt, set_topologies (delete uuid) d).

Definition delete_worker (name status : string) : Z → db → unit * db :=
  λ _ d,
    (tt, match qtopology_worker d !! name with
         | Some r =>
             if bool_decide (w_status r = status)
             then set_workers (delete name) d else d
         | None => d
         end).

(** Modelled from the spec: insertion of a message under the next id of the
    counter, and deletion of a message by its id. *)
Definition insert_message (m : message_row) : Z → db → unit * db :=
  λ _ d,
    let id := message_auto_increment d in
    (tt, set_auto_increment (id + 1) (set_messages (<[id := m]>) d)).

Definition delete_message (id : Z) : Z → db → unit * db :=
  λ _ d, (tt, set_messages (delete id) d).

Definition by_created : relation (Z * message_row) :=
  λ a b, m_created a.2 ≤ m_created b.2.
#[local] Instance by_created_dec : RelDecision by_created.
Proof. intros a b. unfold by_created. apply _. Defined.

(** Modelled from the spec: [qtopology_sp_messages_for_worker(name)] yields
    the messages queued for the worker that have not expired at server time,
    in creation order (section 4.6). *)
Definition sp_messages_for_worker (name : string)
    : Z → db → list (Z * message_row) * db :=
  λ ts d,
    (merge_sort by_created
       (List.filter
          (λ p, bool_decide (m_worker p.2 = name) && (ts <? m_valid_until p.2))
          (map_to_list (qtopology_message d))),
     d).

Record lstatus_count := LStatusCount { lstatus : string; cnt : Z }.

(** Modelled from the spec: [qtopology_sp_worker_statuses()] yields the number
    of workers for each leadership status present in the table (section 6,
    aggregate-worker-lstatus-counts). *)
Definition sp_worker_statuses : Z → db → list lstatus_count * db :=
  λ _ d,
    let rows := map_to_list (qtopology_worker d) in
    ((λ l, LStatusCount l
             (Z.of_nat (length (List.filter
                                  (λ p : string * worker_row,
                                     bool_decide (w_lstatus p.2 = l)) rows))))
       <$> remove_dups ((λ p, w_lstatus p.2) <$> rows),
     d).

(** Modelled from the spec:
    [qtopology_sp_register_topology(uuid, config, weight, affinity)] creates
    the topology, unassigned and enabled, or gives a known one its new
    definition (section 3, topology lifecycle). *)
Definition sp_register_topology (uuid : string) (config weight : json)
    (affinity : string) : Z → db → unit * db :=
  λ ts d,
    (tt,
     set_topologies
       (λ m, match m !! uuid with
             | Some r =>
                 <[uuid := TopologyRow (t_status r) (t_worker r) weight
                             (Some affinity) (t_error r) (t_enabled r) config ts]> m
             | None =>
                 <[uuid := TopologyRow Consts.TopologyStatus.unassigned None weight
                             (Some affinity) None 1 config ts]> m
             end) d).

Definition th_ts_desc : relation topology_history_row := λ a b, th_ts b ≤ th_ts a.
#[local] Instance th_ts_desc_dec : RelDecision th_ts_desc.
Proof. intros a b. unfold th_ts_desc. apply _. Defined.
Definition wh_ts_desc : relation worker_history_row := λ a b, wh_ts b ≤ wh_ts a.
#[local] Instance wh_ts_desc_dec : RelDecision wh_ts_desc.
Proof. intros a b. unfold wh_ts_desc. apply _. Defined.

(** Modelled from the spec: select of the history rows of a key, ordered by
    [ts] descending, at most [limit] of them. *)
Definition select_topology_history (uuid : string) (limit : nat)
    : Z → db → list topology_history_row * db :=
  λ _ d,
    (take limit
       (merge_sort th_ts_desc
          (List.filter (λ h, bool_decide (th_uuid h = uuid))
             (qtopology_topology_history d))),
     d).

Definition select_worker_history (name : string) (limit : nat)
    : Z → db → list worker_history_row * db :=
  λ _ d,
    (take limit
       (merge_sort wh_ts_desc
          (List.filter (λ h, bool_decide (wh_name h = name))
             (qtopology_worker_history d))),
     d).

End Store.

(** ** The class [MySqlStorage] *)

Module MySqlStorage.
Import Consts.

Record WorkerStatus := mkWorkerStatus {
  ws_name : string;
  ws_status : string;
  ws_lstatus : string;
  ws_last_ping : Z;
  ws_last_ping_d : Z
}.

Record TopologyStatus := mkTopologyStatus {
  ts_uuid : string;
  ts_status : string;
  ts_worker : option string;
  ts_weight : json;
  ts_enabled : bool;
  ts_error : option string;
  ts_last_ping : Z;
  ts_worker_affinity : list string
}.

Record TopologyInfoResponse := mkTopologyInfoResponse {
  ti_enabled : Z;
  ti_status : string;
  ti_uuid : string;
  ti_error : option string;
  ti_weight : json;
  ti_worker_affinity : option string;
  ti_worker : option string;
  ti_last_ping : Z;
  ti_last_ping_d : Z;
  ti_config : json
}.

Record StorageResultMessage := mkStorageResultMessage {
  msg_cmd : string;
  msg_content : json;
  msg_created : Z
}.

Record TopologyStatusHistory := mkTopologyStatusHistory {
  tsh_enabled : Z;
  tsh_error : option string;
  tsh_status : string;
  tsh_ts : Z;
  tsh_uuid : string;
  tsh_weight : json;
  tsh_worker : option string;
  tsh_last_ping : Z;
  tsh_last_ping_d : Z;
  tsh_worker_affinity : option string
}.

Record WorkerStatusHistory := mkWorkerStatusHistory {
  wsh_lstatus : string;
  wsh_name : string;
  wsh_status : string;
  wsh_ts : Z
}.

(** The fetched rows are deleted one by one; the final callback of
    [async.each] passes the list on together with its error argument. *)
Definition getMessages (name : string) : M (list StorageResultMessage) :=
  let sql := CALL "qtopology_sp_messages_for_worker" [VStr name] in
  data <- query sql (Store.sp_messages_for_worker name) ;;
  let res :=
    (λ rec : Z * message_row,
       mkStorageResultMessage (m_cmd rec.2) (m_content rec.2) (m_created rec.2))
      <$> data in
  let ids_to_delete := fst <$> data in
  with_data res
    (each ids_to_delete
       (λ item,
          let sql2 := createDelete table_names.qtopology_message [("id", VNum item)] in
          query sql2 (Store.delete_message item))).

(** [rec.last_ping || new Date()]: a NULL [last_ping] reads as the current
    time. *)
Definition getWorkerStatusInternal : M (list WorkerStatus) :=
  let sql :=
    createSelect ["name"; "status"; "lstatus"; "last_ping"]
      table_names.qtopology_worker [] [] None in
  data <- query sql Store.select_workers ;;
  today <- Date_now ;;
  ret ((λ rec : string * worker_row,
          let last_ping := default today (w_last_ping rec.2) in
          mkWorkerStatus rec.1 (w_status rec.2) (w_lstatus rec.2) last_ping last_ping)
         <$> data).

Definition setTopologyStatus (uuid status : string) (error : option string) : M unit :=
  today <- Date_now ;;
  let sql :=
    sql_append
      (createUpdate
         [("status", VStr status); ("last_ping", VDate today);
          ("error", from_option VStr VNull error)]
         table_names.qtopology_topology [("uuid", VStr uuid)])
      (CALL "qtopology_sp_add_topology_history" [VStr uuid]) in
  query sql
    (Store.update_topology uuid
       (λ r, TopologyRow status (t_worker r) (t_weight r) (t_worker_affinity r)
               error (t_enabled r) (t_config r) today)).

Definition setWorkerStatus (name status : string) : M unit :=
  today <- Date_now ;;
  let sql :=
    sql_append
      (createUpdate [("status", VStr status); ("last_ping", VDate today)]
         table_names.qtopology_worker [("name", VStr name)])
      (CALL "qtopology_sp_add_worker_history" [VStr name]) in
  query sql
    (Store.update_worker name (λ r, WorkerRow status (w_lstatus r) (Some today))).

Definition setWorkerLStatus (name lstatus : string) : M unit :=
  today <- Date_now ;;
  let sql :=
    sql_append
      (createUpdate [("lstatus", VStr lstatus); ("last_ping", VDate today)]
         table_names.qtopology_worker [("name", VStr name)])
      (CALL "qtopology_sp_add_worker_history" [VStr name]) in
  query sql
    (Store.update_worker name (λ r, WorkerRow (w_status r) lstatus (Some today))).

(** Both tasks of the series test the [worker] of the snapshot, which the
    updates of the store do not change. *)
Definition disableDefunctWorkerSingle (worker : WorkerStatus) : M unit :=
  t1 <- Date_now ;;
  let limit1 := t1 - 30 * 1000 in
  t2 <- Date_now ;;
  let limit2 := t2 - 10 * 1000 in
  series
    [ (* handle status *)
      (if negb (bool_decide (ws_status worker = WorkerStatus.alive)) then ret tt
       else if limit1 <=? ws_last_ping worker then ret tt
       else setWorkerStatus (ws_name worker) WorkerStatus.dead);
      (* handle lstatus *)
      (if negb (bool_decide (ws_lstatus worker = WorkerLStatus.normal))
          && negb (bool_decide (ws_status worker = WorkerStatus.alive))
       then setWorkerLStatus (ws_name worker) WorkerLStatus.normal
       else if negb (bool_decide (ws_lstatus worker = WorkerLStatus.normal))
               && (ws_last_ping worker <? limit2)
       then setWorkerLStatus (ws_name worker) WorkerLStatus.normal
       else ret tt) ].

Definition disableDefunctWorkers : M unit :=
  data <- getWorkerStatusInternal ;;
  each data (λ worker, disableDefunctWorkerSingle worker).

(** The methods below reach [refreshStatuses] through [self]; the parameter
    [self_refreshStatuses] stands for that call. *)
Section self.
Variable self_refreshStatuses : M unit.

Definition getWorkerStatus_ : M (list WorkerStatus) :=
  self_refreshStatuses ;;;
  getWorkerStatusInternal.

Definition getTopologyStatusInternal_ (sql : sql)
    (run : Z → db → list Store.topology_listing * db) : M (list TopologyStatus) :=
  self_refreshStatuses ;;;
  data <- query sql run ;;
  ret ((λ rec,
          mkTopologyStatus (Store.tl_uuid rec) (Store.tl_status rec) (Store.tl_worker rec)
            (Store.tl_weight rec) (negb (Store.tl_enabled rec =? 0))
            None (* the column [error] is not selected *)
            (Store.tl_last_ping rec)
            (split_commas (default "" (Store.tl_worker_affinity rec))))
         <$> data).

Definition getTopologyStatus_ : M (list TopologyStatus) :=
  let sql :=
    createSelect
      ["uuid"; "status"; "worker"; "weight"; "worker_affinity"; "enabled"; "last_ping"]
      table_names.qtopology_topology [] [] None in
  getTopologyStatusInternal_ sql (Store.select_topologies None).

Definition getTopologiesForWorker_ (name : string) : M (list TopologyStatus) :=
  let sql :=
    createSelect
      ["uuid"; "status"; "worker"; "weight"; "worker_affinity"; "enabled"; "last_ping"]
      table_names.qtopology_topology [("worker", VStr name)] [] None in
  getTopologyStatusInternal_ sql (Store.select_topologies (Some name)).

Definition getLeadershipStatus_ : M string :=
  self_refreshStatuses ;;;
  let sql := CALL "qtopology_sp_worker_statuses" [] in
  data <- query sql Store.sp_worker_statuses ;;
  let hits :=
    List.filter (λ x, bool_decide (Store.lstatus x = WorkerLStatus.leader)) data in
  if match hits with h :: _ => 0 <? Store.cnt h | [] => false end
  then ret LeadershipStatus.ok
  else
    let hits :=
      List.filter (λ x, bool_decide (Store.lstatus x = WorkerLStatus.candidate)) data in
    if match hits with h :: _ => 0 <? Store.cnt h | [] => false end
    then ret LeadershipStatus.pending
    else ret LeadershipStatus.vacant.

Definition unassignWaitingTopologies_ : M unit :=
  data_workers <- getWorkerStatusInternal ;;
  let dead_workers :=
    ws_name <$>
      List.filter
        (λ x, bool_decide (ws_status x = WorkerStatus.dead)
              || bool_decide (ws_status x = WorkerStatus.unloaded))
        data_workers in
  data <- getTopologyStatus_ ;;
  today <- Date_now ;;
  let limit := today - 30 * 1000 in
  each data
    (λ topology,
       if bool_decide (ts_status topology = TopologyStatus.waiting)
          && (ts_last_ping topology <? limit)
       then setTopologyStatus (ts_uuid topology) TopologyStatus.unassigned None
       else if bool_decide (ts_status topology = TopologyStatus.running)
               && match ts_worker topology with
                  | Some n => bool_decide (n ∈ dead_workers)
                  | None => false
                  end
       then setTopologyStatus (ts_uuid topology) TopologyStatus.unassigned None
       else ret tt).

Definition deleteWorker_ (name : string) : M unit :=
  data <- getWorkerStatus_ ;;
  let hits := List.filter (λ x, bool_decide (ws_name x = name)) data in
  match hits with
  | hit :: _ =>
      if bool_decide (ws_status hit = WorkerStatus.unloaded)
      then
        let sql :=
          createDelete table_names.qtopology_worker
            [("name", VStr name); ("status", VStr WorkerStatus.unloaded)] in
        query sql (Store.delete_worker name WorkerStatus.unloaded)
      else fail (Error "Specified worker is not unloaded and cannot be deleted.")
  | [] => fail (Error "Specified worker doesn't exist and thus cannot be deleted.")
  end.

End self.

(** [refreshStatuses] with a bound on the depth of the refreshes nested
    through [getTopologyStatus]. *)
Fixpoint refreshStatuses (fuel : nat) : M unit :=
  match fuel with
  | O => λ w, (OutOfFuel, w)
  | S fuel =>
      t <- Date_now ;;
      deadline <- get_next_refresh ;;
      if t <? deadline then ret tt
      else
        t' <- Date_now ;;
        put_next_refresh (t' + 1000) ;;;
        series
          [ disableDefunctWorkers;
            unassignWaitingTopologies_ (refreshStatuses fuel) ]
  end.

Definition unassignWaitingTopologies (fuel : nat) : M unit :=
  unassignWaitingTopologies_ (refreshStatuses fuel).
Definition getWorkerStatus (fuel : nat) : M (list WorkerStatus) :=
  getWorkerStatus_ (refreshStatuses fuel).
Definition getTopologyStatus (fuel : nat) : M (list TopologyStatus) :=
  getTopologyStatus_ (refreshStatuses fuel).
Definition getTopologiesForWorker (fuel : nat) (name : string) : M (list TopologyStatus) :=
  getTopologiesForWorker_ (refreshStatuses fuel) name.
Definition getLeadershipStatus (fuel : nat) : M string :=
  getLeadershipStatus_ (refreshStatuses fuel).
Definition deleteWorker (fuel : nat) (name : string) : M unit :=
  deleteWorker_ (refreshStatuses fuel) name.

(** The statement goes to [this.query] at once: [refreshStatuses] is not on
    this path.  [last_ping] is the day of the month, [getDate()]. *)
Definition getTopologyInfo (uuid : string) : M TopologyInfoResponse :=
  let sql :=
    createSelect
      ["uuid"; "status"; "worker"; "weight"; "enabled"; "worker_affinity"; "error";
       "config"; "last_ping"]
      table_names.qtopology_topology [("uuid", VStr uuid)] [] None in
  data <- query sql (Store.select_topology uuid) ;;
  match data with
  | [] => fail (Error ("Requested topology not found: " +:+ uuid))
  | hit :: _ =>
      let config := t_config hit.2 in
      ret (mkTopologyInfoResponse (t_enabled hit.2) (t_status hit.2) hit.1
             (t_error hit.2) (t_weight hit.2) (t_worker_affinity hit.2)
             (t_worker hit.2) (getDate (t_last_ping hit.2)) (t_last_ping hit.2) config)
  end.

Definition assignTopology (uuid name : string) : M unit :=
  today <- Date_now ;;
  let sql :=
    sql_append
      (createUpdate
         [("worker", VStr name); ("last_ping", VDate today);
          ("status", VStr TopologyStatus.waiting)]
         table_names.qtopology_topology [("uuid", VStr uuid)])
      (CALL "qtopology_sp_add_topology_history" [VStr uuid]) in
  query sql
    (Store.update_topology uuid
       (λ r, TopologyRow TopologyStatus.waiting (Some name) (t_weight r)
               (t_worker_affinity r) (t_error r) (t_enabled r) (t_config r) today)).

(** The property reads come before the call of [this.query], outside its
    [try]: what they throw escapes. *)
Definition registerTopology (uuid : string) (config : js_value) : M unit :=
  general <- eval (get_prop config "general") ;;
  worker_affinity <- eval (get_prop general "worker_affinity") ;;
  affinity <- (if truthy worker_affinity then eval (js_join worker_affinity) else ret "") ;;
  w <- eval (get_prop general "weight") ;;
  let weight := if truthy w then default JNull w else JNum 1 in
  let config := default JNull config in
  let sql :=
    CALL "qtopology_sp_register_topology"
      [VStr uuid; VJson config; VJson weight; VStr affinity] in
  query sql (Store.sp_register_topology uuid config weight affinity).

Definition set_enabled (e : Z) (r : topology_row) : topology_row :=
  TopologyRow (t_status r) (t_worker r) (t_weight r) (t_worker_affinity r)
    (t_error r) e (t_config r) (t_last_ping r).

Definition disableTopology (uuid : string) : M unit :=
  let sql :=
    sql_append
      (createUpdate [("enabled", VNum 0)] table_names.qtopology_topology
         [("uuid", VStr uuid)])
      (CALL "qtopology_sp_add_topology_history" [VStr uuid]) in
  query sql (Store.update_topology uuid (set_enabled 0)).

Definition enableTopology (uuid : string) : M unit :=
  let sql :=
    sql_append
      (createUpdate [("enabled", VNum 1)] table_names.qtopology_topology
         [("uuid", VStr uuid)])
      (CALL "qtopology_sp_add_topology_history" [VStr uuid]) in
  query sql (Store.update_topology uuid (set_enabled 1)).

Definition deleteTopology (uuid : string) : M unit :=
  let sql := createDelete table_names.qtopology_topology [("uuid", VStr uuid)] in
  query sql (Store.delete_topology uuid).

Definition sendMessageToWorker (worker cmd : string) (content : json) (valid_msec : Z)
    : M unit :=
  created <- Date_now ;;
  t <- Date_now ;;
  let sql :=
    createInsert
      [("worker", VStr worker); ("cmd", VStr cmd); ("content", VJson content);
       ("created", VDate created); ("valid_until", VDate (t + valid_msec))]
      table_names.qtopology_message in
  query sql
    (Store.insert_message (MessageRow worker cmd content created (t + valid_msec))).

(** [!data.worker]: no worker, or the empty name. *)
Definition stopTopology (uuid : string) : M unit :=
  data <- getTopologyInfo uuid ;;
  match ti_worker data with
  | None | Some "" => ret tt
  | Some worker =>
      disableTopology uuid ;;;
      sendMessageToWorker worker LeaderMessages.stop_topology
        (JObj [("uuid", JStr uuid)]) (30 * 1000)
  end.

Definition clearTopologyError (uuid : string) : M unit :=
  data <- getTopologyInfo uuid ;;
  let hit := data in
  if negb (bool_decide (ti_status hit = TopologyStatus.error))
  then fail (Error ("Specified topology is not marked as error: " +:+ uuid))
  else setTopologyStatus uuid TopologyStatus.unassigned None.

Definition shutDownWorker (name : string) : M unit :=
  sendMessageToWorker name LeaderMessages.shutdown (JObj []) (60 * 1000).

(** The array [res] is filled from the rows, and the callback is given
    [data]. *)
Definition getTopologyHistory (uuid : string) : M (list topology_history_row) :=
  let sql :=
    createSelect ["*"] table_names.qtopology_topology_history [("uuid", VStr uuid)]
      ["ts desc"] (Some 100%nat) in
  data <- query sql (Store.select_topology_history uuid 100) ;;
  let res :=
    (λ x, mkTopologyStatusHistory (th_enabled x) (th_error x) (th_status x) (th_ts x)
            (th_uuid x) (th_weight x) (th_worker x) (getDate (th_last_ping x))
            (th_last_ping x) (th_worker_affinity x))
      <$> data in
  ret data.

Definition getWorkerHistory (name : string) : M (list worker_history_row) :=
  let sql :=
    createSelect ["*"] table_names.qtopology_worker_history [("name", VStr name)]
      ["ts desc"] (Some 100%nat) in
  data <- query sql (Store.select_worker_history name 100) ;;
  let res :=
    (λ x, mkWorkerStatusHistory (wh_lstatus x) (wh_name x) (wh_status x) (wh_ts x))
      <$> data in
  ret data.

End MySqlStorage.

Import MySqlStorage.

(** * Vocabulary of the statements *)

(** ** Example stores *)

Definition empty_store : db := Db ∅ ∅ ∅ 1 [] [].

Definition example_T1 : topology_row :=
  TopologyRow "running" (Some "w1") (JNum 1) (Some "w1,w2") None 1
    (JObj [("general", JObj [])]) 1000.
Definition example_T2 : topology_row :=
  TopologyRow "error" None (JNum 1) (Some "") (Some "boom") 1
    (JObj [("general", JObj [])]) 39500.

(** At time 40000: worker [w1] sent its last heartbeat 39 seconds ago and
    still holds the leadership claim and the running topology [T1]; worker
    [w2] is fresh; topology [T2] is in error; one message waits for [w1]. *)
Definition example_store : db :=
  Db (<["w1" := WorkerRow "alive" "leader" (Some 1000)]>
        (<["w2" := WorkerRow "alive" "normal" (Some 39000)]> ∅))
     (<["T1" := example_T1]> (<["T2" := example_T2]> ∅))
     (<[1 := MessageRow "w1" "shutdown" (JObj []) 39000 99000]> ∅) 2 [] [].

Definition example_world : world := constructor example_store 40000.

(** The instance after a first refresh, 100 ms later. *)
Definition example_world_refreshed : world :=
  tick 100 (refreshStatuses 2 example_world).2.

(** The instance when the driver answers the next query and fails the one
    after it. *)
Definition example_world_faulty : world :=
  set_faults [None; Some (Error "ER_LOCK_DEADLOCK")] example_world.

(** The store of the scenarios of section 8 of the specification, 31 seconds
    after worker [w1] last heartbeated, and an instance built over it:
    topology [T1] was assigned to [w1] and never acknowledged, [T2] and [T3]
    run on [w1]. *)
Definition scenario_store : db :=
  Db (<["w1" := WorkerRow "alive" "normal" (Some 0)]> ∅)
     (<["T1" := TopologyRow "waiting" (Some "w1") (JNum 1) (Some "") None 1 (JObj []) 0]>
        (<["T2" := TopologyRow "running" (Some "w1") (JNum 1) (Some "") None 1
                     (JObj []) 30500]>
           (<["T3" := TopologyRow "running" (Some "w1") (JNum 1) (Some "") None 1
                        (JObj []) 30500]> ∅)))
     ∅ 1 [] [].

Definition scenario_world : world := constructor scenario_store 31000.

(** ** Frames *)

(** What a call leaves as it was, on a store without faults. *)
Definition same_instance (w w' : world) : Prop :=
  faults w' = [] ∧ now w' = now w ∧ next_refresh w' = next_refresh w.

(** A computation keeps the clock, keeps the deadline when the throttle is
    closed, and only adds to the log, faults or not. *)
Definition keeps {A} (m : M A) : Prop :=
  ∀ w, now (m w).2 = now w ∧
       (now w < next_refresh w → next_refresh (m w).2 = next_refresh w) ∧
       logged w `prefix_of` logged (m w).2.

(** A computation that issues at least one statement. *)
Definition grows {A} (m : M A) : Prop :=
  ∀ w, (length (logged w) < length (logged (m w).2))%nat.

(** ** The worker liveness sweep *)

(** The two conditions of the sweep, on a worker of the snapshot, at clock
    reading [t]. *)
Definition stale_alive (t : Z) (worker : WorkerStatus) : Prop :=
  ws_status worker = Consts.WorkerStatus.alive ∧ ws_last_ping worker < t - 30 * 1000.

Definition lost_claim (t : Z) (worker : WorkerStatus) : Prop :=
  ws_lstatus worker ≠ Consts.WorkerLStatus.normal ∧
  (ws_status worker ≠ Consts.WorkerStatus.alive ∨ ws_last_ping worker < t - 10 * 1000).

(** The row of a worker before and after the sweep. *)
Definition worker_swept (t : Z) (worker : WorkerStatus)
    (before after : option worker_row) : Prop :=
  (stale_alive t worker → is_Some before →
     w_status <$> after = Some Consts.WorkerStatus.dead) ∧
  (lost_claim t worker → is_Some before →
     w_lstatus <$> after = Some Consts.WorkerLStatus.normal) ∧
  (¬ stale_alive t worker → ¬ lost_claim t worker → after = before).

(** ** The topology reassignment sweep *)

(** The record [getTopologyStatusInternal] builds from a row. *)
Definition topology_status_of (uuid : string) (r : topology_row) : TopologyStatus :=
  mkTopologyStatus uuid (t_status r) (t_worker r) (t_weight r)
    (negb (t_enabled r =? 0)) None (t_last_ping r)
    (split_commas (default "" (t_worker_affinity r))).

(** The list [dead_workers] and the iteratee of [unassignWaitingTopologies],
    under names. *)
Definition dead_workers_of (data_workers : list WorkerStatus) : list string :=
  ws_name <$>
    List.filter
      (λ x, bool_decide (ws_status x = Consts.WorkerStatus.dead)
            || bool_decide (ws_status x = Consts.WorkerStatus.unloaded))
      data_workers.

Definition unassign_iteratee (dead_workers : list string) (limit : Z)
    (topology : TopologyStatus) : M unit :=
  if bool_decide (ts_status topology = Consts.TopologyStatus.waiting)
     && (ts_last_ping topology <? limit)
  then setTopologyStatus (ts_uuid topology) Consts.TopologyStatus.unassigned None
  else if bool_decide (ts_status topology = Consts.TopologyStatus.running)
          && match ts_worker topology with
             | Some n => bool_decide (n ∈ dead_workers)
             | None => false
             end
  then setTopologyStatus (ts_uuid topology) Consts.TopologyStatus.unassigned None
  else ret tt.

(** The two conditions of the sweep, on a topology of the snapshot, at clock
    reading [t]: for the second one, the worker of the topology is dead or
    unloaded in the worker view [data_workers], or in the worker table. *)
Definition stuck_waiting (t : Z) (topology : TopologyStatus) : Prop :=
  ts_status topology = Consts.TopologyStatus.waiting ∧
  ts_last_ping topology < t - 30 * 1000.

Definition orphaned (data_workers : list WorkerStatus) (topology : TopologyStatus) : Prop :=
  ts_status topology = Consts.TopologyStatus.running ∧
  ∃ x, x ∈ data_workers ∧ ts_worker topology = Some (ws_name x) ∧
       (ws_status x = Consts.WorkerStatus.dead ∨
        ws_status x = Consts.WorkerStatus.unloaded).

Definition worker_gone (workers : gmap string worker_row) (topology : TopologyStatus)
    : Prop :=
  ts_status topology = Consts.TopologyStatus.running ∧
  ∃ n r, ts_worker topology = Some n ∧ workers !! n = Some r ∧
         (w_status r = Consts.WorkerStatus.dead ∨
          w_status r = Consts.WorkerStatus.unloaded).

(** The row of a topology before and after the sweep. *)
Definition topology_swept (t : Z) (data_workers : list WorkerStatus)
    (topology : TopologyStatus) (before after : option topology_row) : Prop :=
  (stuck_waiting t topology ∨ orphaned data_workers topology → is_Some before →
     t_status <$> after = Some Consts.TopologyStatus.unassigned) ∧
  (¬ stuck_waiting t topology → ¬ orphaned data_workers topology → after = before).

(** ** The refresh throttle *)

(** The number of sweeps a call of [refreshStatuses] performs: one when it
    issues statements, none when it issues none. *)
Definition refresh_sweeps (fuel : nat) (w : world) : nat :=
  if (length (logged w) <? length (logged (refreshStatuses fuel w).2))%nat
  then 1%nat else 0%nat.

(** ** Leadership *)

(** Some worker of the table has leadership status [l]. *)
Definition has_lstatus (workers : gmap string worker_row) (l : string) : Prop :=
  ∃ n r, workers !! n = Some r ∧ w_lstatus r = l.

(** The test [hits.length > 0 && hits[0].cnt > 0] of [getLeadershipStatus]. *)
Definition hits_positive (l : string) (data : list Store.lstatus_count) : bool :=
  match List.filter (λ x, bool_decide (Store.lstatus x = l)) data with
  | h :: _ => 0 <? Store.cnt h
  | [] => false
  end.

(** ** Topology information and registration *)

(** The answer [getTopologyInfo] builds from a row, and its statement. *)
Definition topology_info_of (uuid : string) (r : topology_row) : TopologyInfoResponse :=
  mkTopologyInfoResponse (t_enabled r) (t_status r) uuid (t_error r) (t_weight r)
    (t_worker_affinity r) (t_worker r) (getDate (t_last_ping r)) (t_last_ping r)
    (t_config r).

Definition select_topology_info (uuid : string) : sql :=
  createSelect
    ["uuid"; "status"; "worker"; "weight"; "enabled"; "worker_affinity"; "error";
     "config"; "last_ping"]
    table_names.qtopology_topology [("uuid", VStr uuid)] [] None.

(** The configurations without a [general] section: [config] itself is
    [undefined] or [null], or its property [general] is. *)
Definition lacks_general (config : js_value) : Prop :=
  config = None ∨ config = Some JNull ∨
  get_prop config "general" = inr None ∨
  get_prop config "general" = inr (Some JNull).

(** The property [k] of a section that is there. *)
Definition prop_of (general : json) (k : string) : js_value :=
  match get_prop (Some general) k with
  | inr v => v
  | inl _ => None
  end.

(** A configuration with a [general] section whose weight is not a number. *)
Definition example_config_heavy : js_value :=
  Some (JObj [("general", JObj [("weight", JStr "heavy")])]).

(** ** The mailbox *)

(** The rows [getMessages] fetches for a worker, the message it answers for
    a row, and its deletion of a row. *)
Definition fetched (name : string) (w : world) : list (Z * message_row) :=
  (Store.sp_messages_for_worker name (now w) (pool w)).1.

Definition message_of (rec : Z * message_row) : StorageResultMessage :=
  mkStorageResultMessage (m_cmd rec.2) (m_content rec.2) (m_created rec.2).

Definition delete_fetched (item : Z) : M unit :=
  query (createDelete table_names.qtopology_message [("id", VNum item)])
    (Store.delete_message item).

(** The first fault among the outcomes of a run of queries. *)
Fixpoint first_fault (outcomes : list (option js_error)) : option js_error :=
  match outcomes with
  | [] => None
  | Some e :: _ => Some e
  | None :: rest => first_fault rest
  end.

(** Message ids come from the auto-increment counter. *)
Definition ids_bounded (d : db) : Prop :=
  ∀ id, is_Some (qtopology_message d !! id) → id < message_auto_increment d.

(** A later state of the message table: the counter has not gone back, and a
    message is one that was there or one with an id handed out since. *)
Definition later_store (d d' : db) : Prop :=
  message_auto_increment d ≤ message_auto_increment d' ∧
  ∀ id, is_Some (qtopology_message d' !! id) →
    is_Some (qtopology_message d !! id) ∨
    message_auto_increment d ≤ id < message_auto_increment d'.

Definition advances {A} (m : M A) : Prop :=
  ∀ w, later_store (pool w) (pool (m w).2).

(** ** Histories of an instance *)

(** What may happen to an instance: a call of one of the operations above,
    the passing of time, or the driver starting to report the faults [l]. *)
Inductive call :=
| Call_getMessages (name : string)
| Call_getWorkerStatus
| Call_getTopologyStatus
| Call_getTopologiesForWorker (name : string)
| Call_getTopologyInfo (uuid : string)
| Call_getLeadershipStatus
| Call_assignTopology (uuid name : string)
| Call_setTopologyStatus (uuid status : string) (error : option string)
| Call_setWorkerStatus (name status : string)
| Call_setWorkerLStatus (name lstatus : string)
| Call_registerTopology (uuid : string) (config : js_value)
| Call_disableTopology (uuid : string)
| Call_enableTopology (uuid : string)
| Call_deleteTopology (uuid : string)
| Call_sendMessageToWorker (worker cmd : string) (content : json) (valid_msec : Z)
| Call_stopTopology (uuid : string)
| Call_clearTopologyError (uuid : string)
| Call_deleteWorker (name : string)
| Call_shutDownWorker (name : string)
| Call_getTopologyHistory (uuid : string)
| Call_getWorkerHistory (name : string)
| Wait (d : Z)
| Outage (l : list (option js_error)).

Definition run_call (fuel : nat) (c : call) (w : world) : world :=
  match c with
  | Call_getMessages name => (getMessages name w).2
  | Call_getWorkerStatus => (getWorkerStatus fuel w).2
  | Call_getTopologyStatus => (getTopologyStatus fuel w).2
  | Call_getTopologiesForWorker name => (getTopologiesForWorker fuel name w).2
  | Call_getTopologyInfo uuid => (getTopologyInfo uuid w).2
  | Call_getLeadershipStatus => (getLeadershipStatus fuel w).2
  | Call_assignTopology uuid name => (assignTopology uuid name w).2
  | Call_setTopologyStatus uuid status error => (setTopologyStatus uuid status error w).2
  | Call_setWorkerStatus name status => (setWorkerStatus name status w).2
  | Call_setWorkerLStatus name lstatus => (setWorkerLStatus name lstatus w).2
  | Call_registerTopology uuid config => (registerTopology uuid config w).2
  | Call_disableTopology uuid => (disableTopology uuid w).2
  | Call_enableTopology uuid => (enableTopology uuid w).2
  | Call_deleteTopology uuid => (deleteTopology uuid w).2
  | Call_sendMessageToWorker worker cmd content valid_msec =>
      (sendMessageToWorker worker cmd content valid_msec w).2
  | Call_stopTopology uuid => (stopTopology uuid w).2
  | Call_clearTopologyError uuid => (clearTopologyError uuid w).2
  | Call_deleteWorker name => (deleteWorker fuel name w).2
  | Call_shutDownWorker name => (shutDownWorker name w).2
  | Call_getTopologyHistory uuid => (getTopologyHistory uuid w).2
  | Call_getWorkerHistory name => (getWorkerHistory name w).2
  | Wait d => tick d w
  | Outage l => set_faults l w
  end.

Definition run_calls (fuel : nat) (calls : list call) (w : world) : world :=
  foldl (λ w c, run_call fuel c w) w calls.

(** * The sweeps as functions on rows *)

(** What [disableDefunctWorkerSingle] does to the row of the worker, for the
    [worker] of the snapshot and the clock reading [t]. *)
Definition single_update (t : Z) (worker : WorkerStatus) (r : worker_row) : worker_row :=
  let r1 :=
    if bool_decide (ws_status worker = Consts.WorkerStatus.alive)
       && (ws_last_ping worker <? t - 30 * 1000)
    then WorkerRow Consts.WorkerStatus.dead (w_lstatus r) (Some t) else r in
  if negb (bool_decide (ws_lstatus worker = Consts.WorkerLStatus.normal))
     && (negb (bool_decide (ws_status worker = Consts.WorkerStatus.alive))
         || (ws_last_ping worker <? t - 10 * 1000))
  then WorkerRow (w_status r1) Consts.WorkerLStatus.normal (Some t) else r1.

(** The record [getWorkerStatusInternal] builds from a row at time [t]. *)
Definition worker_status_of (t : Z) (name : string) (r : worker_row) : WorkerStatus :=
  mkWorkerStatus name (w_status r) (w_lstatus r)
    (default t (w_last_ping r)) (default t (w_last_ping r)).

(** The liveness sweep on one row at time [t]. *)
Definition sweep_worker_row (t : Z) (r : worker_row) : worker_row :=
  single_update t (worker_status_of t "" r) r.

(** The worker [n] is dead or unloaded in the table. *)
Definition worker_dead (workers : gmap string worker_row) (n : string) : bool :=
  match workers !! n with
  | Some r =>
      bool_decide (w_status r = Consts.WorkerStatus.dead)
      || bool_decide (w_status r = Consts.WorkerStatus.unloaded)
  | None => false
  end.

(** The row [setTopologyStatus(uuid, unassigned, null)] leaves at time [t]. *)
Definition unassigned_row (t : Z) (r : topology_row) : topology_row :=
  TopologyRow Consts.TopologyStatus.unassigned (t_worker r) (t_weight r)
    (t_worker_affinity r) None (t_enabled r) (t_config r) t.

(** The reassignment sweep on one row at time [t], for a worker table. *)
Definition sweep_topology_row (t : Z) (workers : gmap string worker_row)
    (r : topology_row) : topology_row :=
  if (bool_decide (t_status r = Consts.TopologyStatus.waiting)
      && (t_last_ping r <? t - 30 * 1000))
     || (bool_decide (t_status r = Consts.TopologyStatus.running)
         && match t_worker r with
            | Some n => worker_dead workers n
            | None => false
            end)
  then unassigned_row t r else r.


(** What the iteratee of [unassignWaitingTopologies] does to the row of the
    topology, for the [topology] of the snapshot and the clock reading [t]. *)
Definition unassign_update (dead_workers : list string) (limit t : Z)
    (topology : TopologyStatus) (r : topology_row) : topology_row :=
  if (bool_decide (ts_status topology = Consts.TopologyStatus.waiting)
      && (ts_last_ping topology <? limit))
     || (bool_decide (ts_status topology = Consts.TopologyStatus.running)
         && match ts_worker topology with
            | Some n => bool_decide (n ∈ dead_workers)
            | None => false
            end)
  then unassigned_row t r else r.


(** The worker and topology tables a call of [refreshStatuses] leaves on a
    store that answers every query: as they were when the call is throttled,
    swept when it is due. *)
Definition refreshed_workers (w : world) : gmap string worker_row :=
  if now w <? next_refresh w then qtopology_worker (pool w)
  else sweep_worker_row (now w) <$> qtopology_worker (pool w).

Definition refreshed_topologies (w : world) : gmap string topology_row :=
  if now w <? next_refresh w then qtopology_topology (pool w)
  else sweep_topology_row (now w) (refreshed_workers w) <$> qtopology_topology (pool w).


(** ** The pace of the refresh *)

(** A computation keeps the clock and either keeps the deadline or sets it
    one second after the clock reading. *)
Definition paced {A} (m : M A) : Prop :=
  ∀ w, now (m w).2 = now w ∧
       (next_refresh (m w).2 = next_refresh w ∨ next_refresh (m w).2 = now w + 1000).

(** The clock does not go back between the calls of a history. *)
Definition time_moves_on (calls : list call) : Prop :=
  Forall (λ c, match c with Wait d => 0 ≤ d | _ => True end) calls.


(** ** Worker affinity *)

(** The string contains a comma. *)
Fixpoint has_comma (s : string) : bool :=
  match s with
  | EmptyString => false
  | String c r => bool_decide (c = ","%char) || has_comma r
  end.

(** A name that survives [join(",")] followed by [split(",")]: not empty and
    without a comma. *)
Definition plain_name (s : string) : Prop := s ≠ "" ∧ has_comma s = false.


(** ** The candidacy protocol *)

Section candidacy.

(** The routine [qtopology_sp_announce_leader_candidacy] is not part of the
    sources and its policy is left open: the method is modelled for any
    meaning of the routine on the store. *)
Variable sp_announce_leader_candidacy : string → Z → db → unit * db.

Definition announceLeaderCandidacy (name : string) : M unit :=
  disableDefunctWorkers ;;;
  let sql := CALL "qtopology_sp_announce_leader_candidacy" [VStr name] in
  query sql (sp_announce_leader_candidacy name).

End candidacy.

(** No worker of the table holds a claim (leader or candidate) without being
    alive and heard of within the last 10 seconds before [t]. *)
Definition no_stale_claim (t : Z) (workers : gmap string worker_row) : Prop :=
  ∀ n r, workers !! n = Some r → w_lstatus r ≠ Consts.WorkerLStatus.normal →
    w_status r = Consts.WorkerStatus.alive ∧ t - 10 * 1000 ≤ default t (w_last_ping r).


(** ** Runs that end *)

(** The computation hands an outcome to its caller: the bound on nested
    refreshes is not hit. *)
Definition returns {A} (m : M A) : Prop := ∀ w, (m w).1 ≠ OutOfFuel.

(** * Properties *)

(** ** Running the monad *)

Lemma query_healthy {A} (text : sql) (run : Z → db → A * db) (w : world) :
  faults w = [] →
  query text run w =
    (Ok (run (now w) (pool w)).1,
     World (run (now w) (pool w)).2 (next_refresh w) (now w) []
       (logged w ++ [text])).
Proof.
  intros Hf. unfold query. simpl. rewrite Hf.
  destruct (run (now w) (pool w)) as [a d].
  unfold set_pool, add_logged. simpl. by rewrite Hf.
Qed.

Lemma bind_Ok {A B} (m : M A) (k : A → M B) w a w' :
  m w = (Ok a, w') → bind m k w = k a w'.
Proof. intros H. unfold bind. rewrite H. reflexivity. Qed.

Lemma with_data_reply {A} (a : A) (m : M unit) w :
  (with_data a m w).1 =
    match (m w).1 with
    | Ok _ => Ok a
    | Fail e _ => Fail e (Some a)
    | Throw e => Throw e
    | OutOfFuel => OutOfFuel
    end.
Proof. unfold with_data. by destruct (m w) as [[?|? ?|?|] ?]. Qed.

Lemma query_reply {A} text (run : Z → db → A * db) w :
  query text run w =
    match faults w with
    | Some e :: rest => (Fail e None, set_faults rest (add_logged text w))
    | _ =>
        (Ok (run (now w) (pool w)).1,
         World (run (now w) (pool w)).2 (next_refresh w) (now w) (tail (faults w))
           (logged w ++ [text]))
    end.
Proof.
  unfold query. simpl.
  destruct (faults w) as [|[e|] rest] eqn:Ef; try done;
    destruct (run (now w) (pool w)); unfold set_pool, set_faults, add_logged; simpl;
    by rewrite ?Ef.
Qed.

Lemma same_instance_refl w : faults w = [] → same_instance w w.
Proof. by intros ?. Qed.

Lemma same_instance_trans w1 w2 w3 :
  same_instance w1 w2 → same_instance w2 w3 → same_instance w1 w3.
Proof. intros (?&?&?) (?&?&?). repeat split; congruence. Qed.

(** ** The two branches of [refreshStatuses] *)

Lemma refreshStatuses_throttled fuel w :
  now w < next_refresh w → refreshStatuses (S fuel) w = (Ok tt, w).
Proof.
  intros H. simpl. unfold bind, Date_now, get_next_refresh, ret.
  apply Z.ltb_lt in H. by rewrite H.
Qed.

Lemma refreshStatuses_due fuel w :
  ¬ now w < next_refresh w →
  refreshStatuses (S fuel) w =
    series [disableDefunctWorkers; unassignWaitingTopologies fuel]
      (set_next_refresh (now w + 1000) w).
Proof.
  intros H. simpl. unfold bind at 1 2 3 4, Date_now, get_next_refresh, put_next_refresh.
  apply Z.ltb_nlt in H. rewrite H. reflexivity.
Qed.

(** ** What every call keeps, faults or not *)

Create HintDb keeps.

Lemma keeps_ret {A} (a : A) : keeps (ret a).
Proof. intros w. by simpl. Qed.
Lemma keeps_fail {A} e : keeps (@fail A e).
Proof. intros w. by simpl. Qed.
Lemma keeps_throw {A} e : keeps (@throw A e).
Proof. intros w. by simpl. Qed.
Lemma keeps_Date_now : keeps Date_now.
Proof. intros w. by simpl. Qed.
Lemma keeps_get_next_refresh : keeps get_next_refresh.
Proof. intros w. by simpl. Qed.

Lemma keeps_bind {A B} (m : M A) (k : A → M B) :
  keeps m → (∀ a, keeps (k a)) → keeps (bind m k).
Proof.
  intros Hm Hk w. unfold bind. specialize (Hm w).
  destruct (m w) as [[a|e d|e|] w1]; simpl in *; try done.
  destruct Hm as (Hn & Hr & Hl). destruct (Hk a w1) as (Hn' & Hr' & Hl').
  split_and!.
  - congruence.
  - intros H. rewrite Hr' by (rewrite Hn, Hr; done). by apply Hr.
  - by etrans.
Qed.

Lemma keeps_query {A} text (run : Z → db → A * db) : keeps (query text run).
Proof.
  intros w. unfold query. simpl.
  destruct (faults w) as [|[e|] rest]; simpl;
    try destruct (run (now w) (pool w)); simpl;
    split_and!; try done; by apply prefix_app_r.
Qed.

Lemma keeps_each {A} (l : list A) (f : A → M unit) :
  (∀ x, keeps (f x)) → keeps (each l f).
Proof.
  intros Hf. induction l as [|x l IH]; intros w; simpl; [done|].
  specialize (Hf x w). destruct (f x w) as [r1 w1]. specialize (IH w1).
  destruct (each l f w1) as [r2 w2]. simpl in *.
  destruct Hf as (Hn & Hr & Hl), IH as (Hn' & Hr' & Hl'). split_and!.
  - congruence.
  - intros H. rewrite Hr' by (rewrite Hn, Hr; done). by apply Hr.
  - by etrans.
Qed.

Lemma keeps_series (l : list (M unit)) : Forall keeps l → keeps (series l).
Proof.
  induction 1; simpl; [apply keeps_ret|]. apply keeps_bind; auto.
Qed.

Lemma keeps_with_data {A} (a : A) m : keeps m → keeps (with_data a m).
Proof.
  intros Hm w. unfold with_data. specialize (Hm w).
  by destruct (m w) as [[?|? ?|?|] w1].
Qed.

Lemma keeps_eval {A} (r : js_error + A) : keeps (eval r).
Proof. destruct r; [apply keeps_throw|apply keeps_ret]. Qed.

Lemma keeps_if {A} (b : bool) (m1 m2 : M A) :
  keeps m1 → keeps m2 → keeps (if b then m1 else m2).
Proof. by destruct b. Qed.

#[global] Hint Resolve keeps_ret keeps_fail keeps_throw keeps_Date_now
  keeps_get_next_refresh keeps_query keeps_eval : keeps.

Ltac keeps_step :=
  match goal with
  | |- keeps (bind _ _) => apply keeps_bind; [|intros ?]
  | |- keeps (series _) =>
      apply keeps_series; repeat apply Forall_cons_2; try apply Forall_nil_2
  | |- keeps (each _ _) => apply keeps_each; intros ?
  | |- keeps (with_data _ _) => apply keeps_with_data
  | |- keeps (if _ then _ else _) => apply keeps_if
  | |- keeps (match ?x with _ => _ end) => destruct x
  | |- _ => solve [auto with keeps]
  end.
Ltac solve_keeps := intros; cbv zeta; repeat (keeps_step; cbv zeta).

Lemma keeps_setWorkerStatus n s : keeps (setWorkerStatus n s).
Proof. unfold setWorkerStatus. solve_keeps. Qed.
Lemma keeps_setWorkerLStatus n s : keeps (setWorkerLStatus n s).
Proof. unfold setWorkerLStatus. solve_keeps. Qed.
Lemma keeps_setTopologyStatus u s e : keeps (setTopologyStatus u s e).
Proof. unfold setTopologyStatus. solve_keeps. Qed.
#[global] Hint Resolve keeps_setWorkerStatus keeps_setWorkerLStatus
  keeps_setTopologyStatus : keeps.

Lemma keeps_getWorkerStatusInternal : keeps getWorkerStatusInternal.
Proof. unfold getWorkerStatusInternal. solve_keeps. Qed.
#[global] Hint Resolve keeps_getWorkerStatusInternal : keeps.

Lemma keeps_disableDefunctWorkerSingle x : keeps (disableDefunctWorkerSingle x).
Proof. unfold disableDefunctWorkerSingle. solve_keeps. Qed.
#[global] Hint Resolve keeps_disableDefunctWorkerSingle : keeps.

Lemma keeps_disableDefunctWorkers : keeps disableDefunctWorkers.
Proof. unfold disableDefunctWorkers. solve_keeps. Qed.
#[global] Hint Resolve keeps_disableDefunctWorkers : keeps.

Lemma keeps_getTopologyStatusInternal_ refresh sql run :
  keeps refresh → keeps (getTopologyStatusInternal_ refresh sql run).
Proof. intros. unfold getTopologyStatusInternal_. solve_keeps. Qed.
#[global] Hint Resolve keeps_getTopologyStatusInternal_ : keeps.

Lemma keeps_unassignWaitingTopologies_ refresh :
  keeps refresh → keeps (unassignWaitingTopologies_ refresh).
Proof.
  intros. unfold unassignWaitingTopologies_, getTopologyStatus_. solve_keeps.
Qed.
#[global] Hint Resolve keeps_unassignWaitingTopologies_ : keeps.

Lemma keeps_refreshStatuses fuel : keeps (refreshStatuses fuel).
Proof.
  induction fuel as [|fuel IH]; [by intros w|].
  intros w. destruct (decide (now w < next_refresh w)) as [H|H].
  - by rewrite refreshStatuses_throttled.
  - rewrite refreshStatuses_due by done.
    assert (K : keeps (series [disableDefunctWorkers; unassignWaitingTopologies fuel])).
    { unfold unassignWaitingTopologies. solve_keeps. }
    destruct (K (set_next_refresh (now w + 1000) w)) as (Hn & _ & Hl).
    split_and!; done.
Qed.
#[global] Hint Resolve keeps_refreshStatuses : keeps.

Lemma grows_query {A} text (run : Z → db → A * db) : grows (query text run).
Proof.
  intros w. unfold query. simpl.
  destruct (faults w) as [|[e|] rest]; simpl;
    try destruct (run (now w) (pool w)); simpl; rewrite length_app; simpl; lia.
Qed.

Lemma grows_bind_l {A B} (m : M A) (k : A → M B) :
  grows m → (∀ a, keeps (k a)) → grows (bind m k).
Proof.
  intros Hm Hk w. unfold bind. specialize (Hm w).
  destruct (m w) as [[a|e d|e|] w1]; simpl in *; try done.
  destruct (Hk a w1) as (_ & _ & Hl). apply prefix_length in Hl. lia.
Qed.

Lemma grows_disableDefunctWorkers : grows disableDefunctWorkers.
Proof.
  unfold disableDefunctWorkers, getWorkerStatusInternal.
  repeat (apply grows_bind_l; [|solve_keeps]). apply grows_query.
Qed.

(** ** The worker liveness sweep *)

Lemma setWorkerStatus_healthy name status w :
  faults w = [] →
  ∃ w', setWorkerStatus name status w = (Ok tt, w') ∧ same_instance w w' ∧
    qtopology_topology (pool w') = qtopology_topology (pool w) ∧
    qtopology_message (pool w') = qtopology_message (pool w) ∧
    qtopology_worker (pool w') =
      alter (λ r, WorkerRow status (w_lstatus r) (Some (now w))) name
        (qtopology_worker (pool w)).
Proof.
  intros Hf. unfold setWorkerStatus, bind, Date_now.
  rewrite query_healthy by done. eexists; split; [reflexivity|].
  unfold same_instance, Store.update_worker, Store.sp_add_worker_history; simpl.
  destruct (alter _ name _ !! name); simpl; done.
Qed.

Lemma setWorkerLStatus_healthy name lstatus w :
  faults w = [] →
  ∃ w', setWorkerLStatus name lstatus w = (Ok tt, w') ∧ same_instance w w' ∧
    qtopology_topology (pool w') = qtopology_topology (pool w) ∧
    qtopology_message (pool w') = qtopology_message (pool w) ∧
    qtopology_worker (pool w') =
      alter (λ r, WorkerRow (w_status r) lstatus (Some (now w))) name
        (qtopology_worker (pool w)).
Proof.
  intros Hf. unfold setWorkerLStatus, bind, Date_now.
  rewrite query_healthy by done. eexists; split; [reflexivity|].
  unfold same_instance, Store.update_worker, Store.sp_add_worker_history; simpl.
  destruct (alter _ name _ !! name); simpl; done.
Qed.

Lemma disableDefunctWorkerSingle_healthy worker w :
  faults w = [] →
  ∃ w', disableDefunctWorkerSingle worker w = (Ok tt, w') ∧ same_instance w w' ∧
    qtopology_topology (pool w') = qtopology_topology (pool w) ∧
    qtopology_message (pool w') = qtopology_message (pool w) ∧
    (∀ n, n ≠ ws_name worker →
       qtopology_worker (pool w') !! n = qtopology_worker (pool w) !! n) ∧
    worker_swept (now w) worker
      (qtopology_worker (pool w) !! ws_name worker)
      (qtopology_worker (pool w') !! ws_name worker).
Proof.
  intros Hf.
  unfold disableDefunctWorkerSingle, worker_swept, stale_alive, lost_claim.
  unfold bind at 1 2. unfold Date_now at 1 2. simpl series.
  (* first task *)
  assert (∃ w1, (if negb (bool_decide (ws_status worker = Consts.WorkerStatus.alive))
                 then ret tt
                 else if now w - 30 * 1000 <=? ws_last_ping worker then ret tt
                      else setWorkerStatus (ws_name worker) Consts.WorkerStatus.dead) w
                = (Ok tt, w1) ∧ same_instance w w1 ∧
                qtopology_topology (pool w1) = qtopology_topology (pool w) ∧
                qtopology_message (pool w1) = qtopology_message (pool w) ∧
                ((ws_status worker = Consts.WorkerStatus.alive ∧
                  ws_last_ping worker < now w - 30 * 1000) ∧
                 qtopology_worker (pool w1) =
                   alter (λ r, WorkerRow Consts.WorkerStatus.dead (w_lstatus r) (Some (now w)))
                     (ws_name worker) (qtopology_worker (pool w))
                 ∨ ¬ (ws_status worker = Consts.WorkerStatus.alive ∧
                      ws_last_ping worker < now w - 30 * 1000) ∧
                   qtopology_worker (pool w1) = qtopology_worker (pool w)))
    as (w1 & E1 & S1 & T1 & M1 & W1).
  { case_bool_decide as Ha; simpl.
    - destruct (Z.leb_spec (now w - 30 * 1000) (ws_last_ping worker)).
      + exists w. split_and!; try done. right. split; [lia|done].
      + destruct (setWorkerStatus_healthy (ws_name worker) Consts.WorkerStatus.dead w Hf)
          as (w1 & ? & ? & ? & ? & ?).
        exists w1. split_and!; try done. by left.
    - exists w. split_and!; try done. right. split; [tauto|done]. }
  rewrite (bind_Ok _ _ _ _ _ E1).
  assert (Hf1 : faults w1 = []) by apply S1.
  assert (Hn1 : now w1 = now w) by apply S1.
  (* second task *)
  assert (∃ w2, (if negb (bool_decide (ws_lstatus worker = Consts.WorkerLStatus.normal))
                    && negb (bool_decide (ws_status worker = Consts.WorkerStatus.alive))
                 then setWorkerLStatus (ws_name worker) Consts.WorkerLStatus.normal
                 else if negb (bool_decide (ws_lstatus worker = Consts.WorkerLStatus.normal))
                         && (ws_last_ping worker <? now w - 10 * 1000)
                      then setWorkerLStatus (ws_name worker) Consts.WorkerLStatus.normal
                      else ret tt) w1
                = (Ok tt, w2) ∧ same_instance w1 w2 ∧
                qtopology_topology (pool w2) = qtopology_topology (pool w1) ∧
                qtopology_message (pool w2) = qtopology_message (pool w1) ∧
                ((ws_lstatus worker ≠ Consts.WorkerLStatus.normal ∧
                  (ws_status worker ≠ Consts.WorkerStatus.alive ∨
                   ws_last_ping worker < now w - 10 * 1000)) ∧
                 qtopology_worker (pool w2) =
                   alter (λ r, WorkerRow (w_status r) Consts.WorkerLStatus.normal (Some (now w)))
                     (ws_name worker) (qtopology_worker (pool w1))
                 ∨ ¬ (ws_lstatus worker ≠ Consts.WorkerLStatus.normal ∧
                      (ws_status worker ≠ Consts.WorkerStatus.alive ∨
                       ws_last_ping worker < now w - 10 * 1000)) ∧
                   qtopology_worker (pool w2) = qtopology_worker (pool w1)))
    as (w2 & E2 & S2 & T2 & M2 & W2).
  { destruct (setWorkerLStatus_healthy (ws_name worker) Consts.WorkerLStatus.normal w1 Hf1)
      as (w2 & ? & ? & ? & ? & Hw2). rewrite Hn1 in Hw2.
    destruct (Z.ltb_spec (ws_last_ping worker) (now w - 10 * 1000));
      repeat case_bool_decide; simpl;
      first [ exists w2; split_and!; try done; left; split; [tauto|done]
            | exists w1; split_and!; try done; right; split; [|done];
              intros [? [?|?]]; first [done | lia] ]. }
  rewrite (bind_Ok _ _ _ _ _ E2). unfold ret.
  exists w2. split; [done|].
  split; [by eapply same_instance_trans|].
  split; [congruence|]. split; [congruence|].
  split.
  - intros n Hn.
    destruct W2 as [[_ ->]|[_ ->]], W1 as [[_ ->]|[_ ->]];
      rewrite ?lookup_alter_ne by done; done.
  - repeat split.
    + intros Hs [r Hr].
      destruct W1 as [[_ W1]|[? _]]; [|done].
      destruct W2 as [[_ ->]|[_ ->]]; rewrite W1, ?lookup_alter_eq, Hr; done.
    + intros Hl [r Hr].
      destruct W2 as [[_ ->]|[? _]]; [|done].
      rewrite lookup_alter_eq.
      destruct W1 as [[_ ->]|[_ ->]]; rewrite ?lookup_alter_eq, Hr; done.
    + intros Hs Hl.
      destruct W1 as [[? _]|[_ W1]]; [done|].
      destruct W2 as [[? _]|[_ ->]]; [done|]. by rewrite W1.
Qed.

Lemma each_disableDefunctWorkerSingle (l : list WorkerStatus) w :
  faults w = [] → NoDup (ws_name <$> l) →
  ∃ w', each l disableDefunctWorkerSingle w = (Ok tt, w') ∧ same_instance w w' ∧
    qtopology_topology (pool w') = qtopology_topology (pool w) ∧
    qtopology_message (pool w') = qtopology_message (pool w) ∧
    (∀ n, n ∉ ws_name <$> l →
       qtopology_worker (pool w') !! n = qtopology_worker (pool w) !! n) ∧
    (∀ worker, worker ∈ l →
       worker_swept (now w) worker
         (qtopology_worker (pool w) !! ws_name worker)
         (qtopology_worker (pool w') !! ws_name worker)).
Proof.
  revert w. induction l as [|x l IH]; intros w Hf Hnd.
  - exists w. simpl. split_and!; try done. intros ? H. by apply elem_of_nil in H.
  - rewrite fmap_cons in Hnd. apply NoDup_cons in Hnd as [Hx Hnd].
    destruct (disableDefunctWorkerSingle_healthy x w Hf)
      as (w1 & E1 & S1 & T1 & M1 & O1 & P1).
    destruct (IH w1 (proj1 S1) Hnd) as (w2 & E2 & S2 & T2 & M2 & O2 & P2).
    exists w2. simpl. rewrite E1, E2. simpl.
    split_and!; try done; try congruence.
    + by eapply same_instance_trans.
    + intros n Hn. apply not_elem_of_cons in Hn as [? ?].
      rewrite O2, O1; done.
    + intros worker Hin. apply elem_of_cons in Hin as [->|Hin].
      * rewrite O2 by done. done.
      * assert (ws_name worker ≠ ws_name x).
        { intros Heq. apply Hx. rewrite <- Heq. by apply list_elem_of_fmap_2. }
        specialize (P2 worker Hin). rewrite O1 in P2 by done.
        destruct S1 as (_ & Hn & _). by rewrite Hn in P2.
Qed.

Lemma getWorkerStatusInternal_healthy w :
  faults w = [] →
  ∃ snapshot w',
    getWorkerStatusInternal w = (Ok snapshot, w') ∧ same_instance w w' ∧
    pool w' = pool w ∧
    NoDup (ws_name <$> snapshot) ∧
    (∀ worker, worker ∈ snapshot ↔
       ∃ r, qtopology_worker (pool w) !! ws_name worker = Some r ∧
            worker = mkWorkerStatus (ws_name worker) (w_status r) (w_lstatus r)
                       (default (now w) (w_last_ping r))
                       (default (now w) (w_last_ping r))).
Proof.
  intros Hf. unfold getWorkerStatusInternal, bind.
  rewrite query_healthy by done. simpl.
  eexists _, _. split; [reflexivity|]. split_and!; try done.
  - rewrite <- list_fmap_compose.
    apply (NoDup_fst_map_to_list (qtopology_worker (pool w))).
  - intros worker. rewrite list_elem_of_fmap. split.
    + intros ([n r] & -> & Hin). apply elem_of_map_to_list in Hin. simpl. eauto.
    + intros (r & Hr & Heq). exists (ws_name worker, r). split; [done|].
      by apply elem_of_map_to_list.
Qed.



(** ** The topology reassignment sweep *)

Lemma setTopologyStatus_healthy uuid status error w :
  faults w = [] →
  ∃ w', setTopologyStatus uuid status error w = (Ok tt, w') ∧ same_instance w w' ∧
    qtopology_worker (pool w') = qtopology_worker (pool w) ∧
    qtopology_message (pool w') = qtopology_message (pool w) ∧
    qtopology_topology (pool w') =
      alter (λ r, TopologyRow status (t_worker r) (t_weight r) (t_worker_affinity r)
                    error (t_enabled r) (t_config r) (now w)) uuid
        (qtopology_topology (pool w)).
Proof.
  intros Hf. unfold setTopologyStatus, bind, Date_now.
  rewrite query_healthy by done. eexists; split; [reflexivity|].
  unfold same_instance, Store.update_topology, Store.sp_add_topology_history; simpl.
  destruct (alter _ uuid _ !! uuid); simpl; done.
Qed.

Lemma dead_workers_orphaned data_workers topology :
  orphaned data_workers topology ↔
  bool_decide (ts_status topology = Consts.TopologyStatus.running)
  && match ts_worker topology with
     | Some n => bool_decide (n ∈ dead_workers_of data_workers)
     | None => false
     end = true.
Proof.
  unfold orphaned, dead_workers_of.
  rewrite andb_true_iff, bool_decide_eq_true. apply and_iff_compat_l.
  destruct (ts_worker topology) as [n|].
  - rewrite bool_decide_eq_true, list_elem_of_fmap. split.
    + intros (x & Hx & [= ->] & Hs). exists x. split; [done|].
      apply list_elem_of_In, filter_In. split; [by apply list_elem_of_In|].
      apply orb_true_iff. rewrite !bool_decide_eq_true. done.
    + intros (x & -> & Hx). apply list_elem_of_In, filter_In in Hx as [Hx Hs].
      apply orb_true_iff in Hs. rewrite !bool_decide_eq_true in Hs.
      exists x. split; [by apply list_elem_of_In|done].
  - split; [by intros (? & ? & ? & ?)|done].
Qed.

Lemma unassign_iteratee_healthy t data_workers topology w :
  faults w = [] →
  ∃ w', unassign_iteratee (dead_workers_of data_workers) (t - 30 * 1000) topology w
          = (Ok tt, w') ∧ same_instance w w' ∧
    qtopology_worker (pool w') = qtopology_worker (pool w) ∧
    qtopology_message (pool w') = qtopology_message (pool w) ∧
    (∀ u, u ≠ ts_uuid topology →
       qtopology_topology (pool w') !! u = qtopology_topology (pool w) !! u) ∧
    topology_swept t data_workers topology
      (qtopology_topology (pool w) !! ts_uuid topology)
      (qtopology_topology (pool w') !! ts_uuid topology).
Proof.
  intros Hf. unfold unassign_iteratee, topology_swept.
  destruct (setTopologyStatus_healthy (ts_uuid topology)
              Consts.TopologyStatus.unassigned None w Hf)
    as (w' & E & S & W & Ms & T).
  pose proof (dead_workers_orphaned data_workers topology) as Ho.
  assert (Hs : stuck_waiting t topology ↔
               bool_decide (ts_status topology = Consts.TopologyStatus.waiting)
               && (ts_last_ping topology <? t - 30 * 1000) = true).
  { unfold stuck_waiting. rewrite andb_true_iff, bool_decide_eq_true, Z.ltb_lt. done. }
  destruct (bool_decide (ts_status topology = Consts.TopologyStatus.waiting)
            && (ts_last_ping topology <? t - 30 * 1000)) eqn:E1;
    [|destruct (bool_decide (ts_status topology = Consts.TopologyStatus.running)
                && match ts_worker topology with
                   | Some n => bool_decide (n ∈ dead_workers_of data_workers)
                   | None => false
                   end) eqn:E2].
  1,2: exists w'; split_and!; try done;
       [ intros u Hu; rewrite T, lookup_alter_ne; done
       | intros _ [r Hr]; rewrite T, lookup_alter_eq, Hr; done
       | intros H1 H2; exfalso; first [apply H1; by apply Hs | apply H2; by apply Ho] ].
  exists w. unfold ret. split_and!; try done.
  intros [H|H]; [apply Hs in H|apply Ho in H]; done.
Qed.

Lemma each_unassign_iteratee t data_workers (l : list TopologyStatus) w :
  faults w = [] → NoDup (ts_uuid <$> l) →
  ∃ w', each l (unassign_iteratee (dead_workers_of data_workers) (t - 30 * 1000)) w
          = (Ok tt, w') ∧ same_instance w w' ∧
    qtopology_worker (pool w') = qtopology_worker (pool w) ∧
    qtopology_message (pool w') = qtopology_message (pool w) ∧
    (∀ u, u ∉ ts_uuid <$> l →
       qtopology_topology (pool w') !! u = qtopology_topology (pool w) !! u) ∧
    (∀ topology, topology ∈ l →
       topology_swept t data_workers topology
         (qtopology_topology (pool w) !! ts_uuid topology)
         (qtopology_topology (pool w') !! ts_uuid topology)).
Proof.
  revert w. induction l as [|x l IH]; intros w Hf Hnd.
  - exists w. simpl. split_and!; try done. intros ? H. by apply elem_of_nil in H.
  - rewrite fmap_cons in Hnd. apply NoDup_cons in Hnd as [Hx Hnd].
    destruct (unassign_iteratee_healthy t data_workers x w Hf)
      as (w1 & E1 & S1 & W1 & M1 & O1 & P1).
    destruct (IH w1 (proj1 S1) Hnd) as (w2 & E2 & S2 & W2 & M2 & O2 & P2).
    exists w2. simpl. rewrite E1, E2. simpl.
    split_and!; try done; try congruence.
    + by eapply same_instance_trans.
    + intros u Hu. apply not_elem_of_cons in Hu as [? ?]. rewrite O2, O1; done.
    + intros topology Hin. apply elem_of_cons in Hin as [->|Hin].
      * rewrite O2 by done. done.
      * assert (ts_uuid topology ≠ ts_uuid x).
        { intros Heq. apply Hx. rewrite <- Heq. by apply list_elem_of_fmap_2. }
        specialize (P2 topology Hin). rewrite O1 in P2 by done. done.
Qed.

Lemma filter_true {A} (l : list A) : List.filter (λ _, true) l = l.
Proof. induction l; simpl; congruence. Qed.

Lemma getTopologyStatus__healthy (refresh : M unit) w w1 :
  refresh w = (Ok tt, w1) → faults w1 = [] →
  ∃ data w2,
    getTopologyStatus_ refresh w = (Ok data, w2) ∧ same_instance w1 w2 ∧
    pool w2 = pool w1 ∧
    NoDup (ts_uuid <$> data) ∧
    (∀ topology, topology ∈ data ↔
       ∃ r, qtopology_topology (pool w1) !! ts_uuid topology = Some r ∧
            topology = topology_status_of (ts_uuid topology) r).
Proof.
  intros E Hf. unfold getTopologyStatus_, getTopologyStatusInternal_.
  rewrite (bind_Ok _ _ _ _ _ E). unfold bind.
  rewrite query_healthy by done. simpl. rewrite filter_true.
  eexists _, _. split; [reflexivity|]. split_and!; try done.
  - rewrite <- !list_fmap_compose.
    apply (NoDup_fst_map_to_list (qtopology_topology (pool w1))).
  - intros topology. rewrite <- list_fmap_compose, list_elem_of_fmap. split.
    + intros ([u r] & -> & Hin). apply elem_of_map_to_list in Hin. simpl. eauto.
    + intros (r & Hr & Heq). exists (ts_uuid topology, r). split; [done|].
      by apply elem_of_map_to_list.
Qed.

(** The sweep for any [self.refreshStatuses] that returns on the state in
    which [getTopologyStatus] calls it. *)
Lemma unassignWaitingTopologies__healthy (refresh : M unit) w data_workers w1 w1' :
  faults w = [] →
  getWorkerStatusInternal w = (Ok data_workers, w1) →
  refresh w1 = (Ok tt, w1') → faults w1' = [] → now w1' = now w →
  ∃ data w2 w',
    getTopologyStatus_ refresh w1 = (Ok data, w2) ∧ pool w2 = pool w1' ∧
    unassignWaitingTopologies_ refresh w = (Ok tt, w') ∧
    same_instance w1' w' ∧
    qtopology_worker (pool w') = qtopology_worker (pool w1') ∧
    qtopology_message (pool w') = qtopology_message (pool w1') ∧
    ∀ topology, topology ∈ data →
      (∃ r, qtopology_topology (pool w2) !! ts_uuid topology = Some r ∧
            topology = topology_status_of (ts_uuid topology) r) ∧
      topology_swept (now w) data_workers topology
        (qtopology_topology (pool w2) !! ts_uuid topology)
        (qtopology_topology (pool w') !! ts_uuid topology).
Proof.
  intros Hf E0 E1 Hf1 Hn1.
  destruct (getTopologyStatus__healthy refresh w1 w1' E1 Hf1)
    as (data & w2 & E2 & S2 & P2 & Hnd & Hsnap).
  assert (Hn2 : now w2 = now w) by (destruct S2 as (_ & -> & _); done).
  destruct (each_unassign_iteratee (now w) data_workers data w2 (proj1 S2) Hnd)
    as (w' & E3 & S3 & W3 & M3 & O3 & P3).
  exists data, w2, w'. split_and!; try done.
  - unfold unassignWaitingTopologies_.
    rewrite (bind_Ok _ _ _ _ _ E0), (bind_Ok _ _ _ _ _ E2).
    unfold bind at 1, Date_now at 1. rewrite Hn2. exact E3.
  - by eapply same_instance_trans.
  - by rewrite W3, P2.
  - by rewrite M3, P2.
  - intros topology Hin. split; [|by apply P3].
    apply Hsnap in Hin. by rewrite P2.
Qed.

Lemma disableDefunctWorkers_healthy w :
  faults w = [] →
  ∃ w', disableDefunctWorkers w = (Ok tt, w') ∧ same_instance w w' ∧
    qtopology_topology (pool w') = qtopology_topology (pool w) ∧
    qtopology_message (pool w') = qtopology_message (pool w).
Proof.
  intros Hf.
  destruct (getWorkerStatusInternal_healthy w Hf) as (snapshot & w0 & E0 & S0 & P0 & Hnd & _).
  destruct (each_disableDefunctWorkerSingle snapshot w0 (proj1 S0) Hnd)
    as (w' & E & S & T & Ms & _ & _).
  exists w'. split_and!.
  - unfold disableDefunctWorkers. by rewrite (bind_Ok _ _ _ _ _ E0).
  - by eapply same_instance_trans.
  - by rewrite T, P0.
  - by rewrite Ms, P0.
Qed.

(** With fuel for one nested call, [refreshStatuses] returns on every store
    without faults: the refresh nested in [getTopologyStatus] finds the
    deadline already advanced. *)
Lemma refreshStatuses_healthy fuel w :
  faults w = [] →
  ∃ w', refreshStatuses (S (S fuel)) w = (Ok tt, w') ∧
    faults w' = [] ∧ now w' = now w ∧
    qtopology_message (pool w') = qtopology_message (pool w) ∧
    (now w < next_refresh w ∧ w' = w ∨
     ¬ now w < next_refresh w ∧ next_refresh w' = now w + 1000).
Proof.
  intros Hf. destruct (decide (now w < next_refresh w)) as [H|H].
  { exists w. rewrite refreshStatuses_throttled by done. split_and!; auto. }
  rewrite refreshStatuses_due by done. simpl series.
  set (wa := set_next_refresh (now w + 1000) w).
  destruct (disableDefunctWorkers_healthy wa Hf) as (wb & Eb & Sb & Tb & Mb).
  rewrite (bind_Ok _ _ _ _ _ Eb).
  destruct (getWorkerStatusInternal_healthy wb (proj1 Sb))
    as (data_workers & w1 & E1 & S1 & P1 & _ & _).
  assert (Hthr : now w1 < next_refresh w1).
  { destruct S1 as (_ & -> & ->), Sb as (_ & -> & ->). simpl. lia. }
  destruct (unassignWaitingTopologies__healthy (refreshStatuses (S fuel))
              wb data_workers w1 w1 (proj1 Sb) E1
              (refreshStatuses_throttled fuel w1 Hthr) (proj1 S1)
              (proj1 (proj2 S1)))
    as (data & w2 & w' & _ & _ & E' & S' & _ & M' & _).
  unfold unassignWaitingTopologies. rewrite (bind_Ok _ _ _ _ _ E'). unfold ret.
  exists w'. split_and!; try done.
  - apply S'.
  - destruct S' as (_ & -> & _), S1 as (_ & -> & _), Sb as (_ & -> & _). done.
  - by rewrite M', P1, Mb.
  - right. split; [done|].
    destruct S' as (_ & _ & ->), S1 as (_ & _ & ->), Sb as (_ & _ & ->). done.
Qed.

Lemma orphaned_worker_gone w data_workers w1 topology :
  faults w = [] →
  getWorkerStatusInternal w = (Ok data_workers, w1) →
  orphaned data_workers topology ↔ worker_gone (qtopology_worker (pool w)) topology.
Proof.
  intros Hf E.
  destruct (getWorkerStatusInternal_healthy w Hf) as (s & w0 & E0 & _ & _ & _ & Hsnap).
  rewrite E in E0. injection E0 as <- <-.
  unfold orphaned, worker_gone. apply and_iff_compat_l. split.
  - intros (x & Hx & Hw & Hs). apply Hsnap in Hx as (r & Hr & Hx).
    exists (ws_name x), r. split_and!; try done. rewrite Hx in Hs. done.
  - intros (n & r & Hw & Hr & Hs).
    exists (mkWorkerStatus n (w_status r) (w_lstatus r)
              (default (now w) (w_last_ping r)) (default (now w) (w_last_ping r))).
    split_and!; try done. apply Hsnap. simpl. eauto.
Qed.



(** ** The refresh throttle *)

Lemma refresh_sweeps_throttled fuel w :
  now w < next_refresh w → refresh_sweeps (S fuel) w = 0%nat.
Proof.
  intros H. unfold refresh_sweeps. rewrite refreshStatuses_throttled by done.
  simpl. by rewrite Nat.ltb_irrefl.
Qed.

Lemma refresh_sweeps_due fuel w :
  ¬ now w < next_refresh w → refresh_sweeps (S fuel) w = 1%nat.
Proof.
  intros H. unfold refresh_sweeps. rewrite refreshStatuses_due by done.
  assert (G : grows (series [disableDefunctWorkers; unassignWaitingTopologies fuel])).
  { simpl. apply grows_bind_l; [apply grows_disableDefunctWorkers|].
    unfold unassignWaitingTopologies. solve_keeps. }
  specialize (G (set_next_refresh (now w + 1000) w)). simpl in G.
  apply Nat.ltb_lt in G. simpl. by rewrite G.
Qed.

Lemma refreshStatuses_deadline fuel w :
  ¬ now w < next_refresh w →
  now (refreshStatuses (S fuel) w).2 = now w ∧
  next_refresh (refreshStatuses (S fuel) w).2 = now w + 1000.
Proof.
  intros H. rewrite refreshStatuses_due by done.
  assert (K : keeps (series [disableDefunctWorkers; unassignWaitingTopologies fuel])).
  { unfold unassignWaitingTopologies. solve_keeps. }
  destruct (K (set_next_refresh (now w + 1000) w)) as (Hn & Hr & _).
  simpl in *. split; [done|]. apply Hr. lia.
Qed.




(** ** Leadership *)

Lemma hits_positive_spec (d : db) (l : string) :
  hits_positive l (Store.sp_worker_statuses 0 d).1 = true ↔
  has_lstatus (qtopology_worker d) l.
Proof.
  unfold hits_positive, Store.sp_worker_statuses, has_lstatus. simpl.
  set (rows := map_to_list (qtopology_worker d)).
  set (count := λ l0 : string,
         Store.LStatusCount l0
           (Z.of_nat (length (List.filter
              (λ p : string * worker_row, bool_decide (w_lstatus p.2 = l0)) rows)))).
  set (data := count <$> remove_dups ((λ p : string * worker_row, w_lstatus p.2) <$> rows)).
  assert (Hrow : has_lstatus (qtopology_worker d) l ↔ ∃ p, p ∈ rows ∧ w_lstatus p.2 = l).
  { split.
    - intros (n & r & Hr & Hl). exists (n, r). split; [|done].
      by apply elem_of_map_to_list.
    - intros ([n r] & Hin & Hl). exists n, r. split; [|done].
      by apply elem_of_map_to_list. }
  unfold has_lstatus in Hrow. rewrite Hrow. clear Hrow.
  assert (Hdata : ∀ h, h ∈ data → h = count (Store.lstatus h)).
  { intros h Hh. apply list_elem_of_fmap in Hh as (l0 & -> & _). done. }
  assert (Hpos : ∀ p, p ∈ rows → 0 < Store.cnt (count (w_lstatus p.2))).
  { intros p Hp. simpl.
    assert (Hin : In p (List.filter
                          (λ q : string * worker_row,
                             bool_decide (w_lstatus q.2 = w_lstatus p.2)) rows)).
    { apply filter_In. split; [by apply list_elem_of_In|by apply bool_decide_eq_true]. }
    destruct (List.filter _ rows); [done|]. simpl. lia. }
  destruct (List.filter (λ x, bool_decide (Store.lstatus x = l)) data) as [|h hs] eqn:E.
  - split; [done|]. intros (p & Hp & Hl). exfalso.
    assert (Hin : In (count l) (List.filter (λ x, bool_decide (Store.lstatus x = l)) data)).
    { apply filter_In. split; [|by apply bool_decide_eq_true].
      apply list_elem_of_In, list_elem_of_fmap_2, elem_of_remove_dups.
      apply list_elem_of_fmap. by exists p. }
    by rewrite E in Hin.
  - assert (Hh : In h (List.filter (λ x, bool_decide (Store.lstatus x = l)) data)).
    { rewrite E. by left. }
    apply filter_In in Hh as [Hh Hl]. apply bool_decide_eq_true in Hl.
    apply list_elem_of_In in Hh. pose proof (Hdata h Hh) as Hc. rewrite Hl in Hc.
    apply list_elem_of_fmap in Hh as (l0 & Hl0 & Hin).
    apply elem_of_remove_dups, list_elem_of_fmap in Hin as (p & -> & Hp).
    assert (w_lstatus p.2 = l) by (rewrite Hl0 in Hl; done).
    split; [by exists p|]. intros _. rewrite Hc, <- H. apply Z.ltb_lt. by apply Hpos.
Qed.

(** C4. On a store that answers every query, [getLeadershipStatus] runs the
    throttled refresh first and classifies the workers of the state the
    refresh left: ok when one has [lstatus] leader, else pending when one has
    [lstatus] candidate, else vacant; so ok exactly when there is a leader
    and vacant exactly when there is neither a leader nor a candidate. *)
Theorem getLeadershipStatus_report (fuel : nat) (w : world) :
  faults w = [] →
  ∃ w1 report w',
    refreshStatuses (S (S fuel)) w = (Ok tt, w1) ∧
    getLeadershipStatus (S (S fuel)) w = (Ok report, w') ∧
    pool w' = pool w1 ∧
    let leader := has_lstatus (qtopology_worker (pool w1)) Consts.WorkerLStatus.leader in
    let candidate :=
      has_lstatus (qtopology_worker (pool w1)) Consts.WorkerLStatus.candidate in
    (leader → report = Consts.LeadershipStatus.ok) ∧
    (¬ leader → candidate → report = Consts.LeadershipStatus.pending) ∧
    (¬ leader → ¬ candidate → report = Consts.LeadershipStatus.vacant) ∧
    (report = Consts.LeadershipStatus.ok ↔ leader) ∧
    (report = Consts.LeadershipStatus.vacant ↔ ¬ leader ∧ ¬ candidate).
Proof.
  intros Hf.
  destruct (refreshStatuses_healthy fuel w Hf) as (w1 & E1 & Hf1 & _).
  pose proof (hits_positive_spec (pool w1) Consts.WorkerLStatus.leader) as Hl.
  pose proof (hits_positive_spec (pool w1) Consts.WorkerLStatus.candidate) as Hc.
  unfold getLeadershipStatus, getLeadershipStatus_.
  rewrite (bind_Ok _ _ _ _ _ E1). unfold bind. rewrite query_healthy by done.
  fold (hits_positive Consts.WorkerLStatus.leader
          (Store.sp_worker_statuses (now w1) (pool w1)).1).
  fold (hits_positive Consts.WorkerLStatus.candidate
          (Store.sp_worker_statuses (now w1) (pool w1)).1).
  change (Store.sp_worker_statuses (now w1) (pool w1))
    with (Store.sp_worker_statuses 0 (pool w1)).
  set (leader := has_lstatus (qtopology_worker (pool w1)) Consts.WorkerLStatus.leader) in *.
  set (candidate :=
         has_lstatus (qtopology_worker (pool w1)) Consts.WorkerLStatus.candidate) in *.
  unfold Consts.LeadershipStatus.ok, Consts.LeadershipStatus.pending,
    Consts.LeadershipStatus.vacant.
  destruct (hits_positive Consts.WorkerLStatus.leader _).
  { assert (leader) by (by apply Hl).
    unfold ret; eexists w1, _, _. split_and!; try done; try tauto.
    all: try (split; [discriminate|tauto]). }
  assert (¬ leader) by (intros ?%Hl; done).
  destruct (hits_positive Consts.WorkerLStatus.candidate _).
  { assert (candidate) by (by apply Hc).
    unfold ret; eexists w1, _, _. split_and!; try done; try tauto.
    all: try (split; [discriminate|tauto]). }
  assert (¬ candidate) by (intros ?%Hc; done).
  unfold ret; eexists w1, _, _. split_and!; try done; try tauto.
  all: try (split; [discriminate|tauto]).
Qed.

Lemma getLeadershipStatus_report_witness :
  let fuel := 0%nat in
  let w := example_world in
  faults w = [] ∧
  ∃ w1 report w',
    refreshStatuses (S (S fuel)) w = (Ok tt, w1) ∧
    getLeadershipStatus (S (S fuel)) w = (Ok report, w') ∧
    pool w' = pool w1 ∧
    let leader := has_lstatus (qtopology_worker (pool w1)) Consts.WorkerLStatus.leader in
    let candidate :=
      has_lstatus (qtopology_worker (pool w1)) Consts.WorkerLStatus.candidate in
    (leader → report = Consts.LeadershipStatus.ok) ∧
    (¬ leader → candidate → report = Consts.LeadershipStatus.pending) ∧
    (¬ leader → ¬ candidate → report = Consts.LeadershipStatus.vacant) ∧
    (report = Consts.LeadershipStatus.ok ↔ leader) ∧
    (report = Consts.LeadershipStatus.vacant ↔ ¬ leader ∧ ¬ candidate).
Proof.
  intros fuel w. split; [reflexivity|].
  apply (getLeadershipStatus_report fuel w). reflexivity.
Defined.

(** ** The status readers *)

Lemma getTopologyInfo_healthy uuid w :
  faults w = [] →
  getTopologyInfo uuid w =
    (match qtopology_topology (pool w) !! uuid with
     | Some r => Ok (topology_info_of uuid r)
     | None => Fail (Error ("Requested topology not found: " +:+ uuid)) None
     end,
     World (pool w) (next_refresh w) (now w) [] (logged w ++ [select_topology_info uuid])).
Proof.
  intros Hf. unfold getTopologyInfo, bind. rewrite query_healthy by done.
  unfold Store.select_topology. simpl.
  destruct (qtopology_topology (pool w) !! uuid); reflexivity.
Qed.

Lemma getTopologyInfo_no_refresh uuid w :
  pool (getTopologyInfo uuid w).2 = pool w ∧
  next_refresh (getTopologyInfo uuid w).2 = next_refresh w ∧
  logged (getTopologyInfo uuid w).2 = (logged w ++ [select_topology_info uuid])%list.
Proof.
  unfold getTopologyInfo, bind, query, Store.select_topology. simpl.
  destruct (faults w) as [|[e|] rest]; simpl; try done;
    destruct (qtopology_topology (pool w) !! uuid); done.
Qed.

Lemma getTopologiesForWorker__healthy (refresh : M unit) name w w1 :
  refresh w = (Ok tt, w1) → faults w1 = [] →
  ∃ data w2,
    getTopologiesForWorker_ refresh name w = (Ok data, w2) ∧
    pool w2 = pool w1 ∧
    (∀ topology, topology ∈ data ↔
       ∃ r, qtopology_topology (pool w1) !! ts_uuid topology = Some r ∧
            t_worker r = Some name ∧
            topology = topology_status_of (ts_uuid topology) r).
Proof.
  intros E Hf. unfold getTopologiesForWorker_, getTopologyStatusInternal_.
  rewrite (bind_Ok _ _ _ _ _ E). unfold bind.
  rewrite query_healthy by done. simpl.
  eexists _, _. split; [reflexivity|]. split; [done|].
  intros topology. rewrite <- list_fmap_compose, list_elem_of_fmap. split.
  - intros ([u r] & -> & Hin). apply list_elem_of_In, filter_In in Hin as [Hin Hw].
    apply list_elem_of_In, elem_of_map_to_list in Hin.
    apply bool_decide_eq_true in Hw. simpl in *. eauto.
  - intros (r & Hr & Hw & Heq). exists (ts_uuid topology, r). split; [done|].
    apply list_elem_of_In, filter_In. split.
    + by apply list_elem_of_In, elem_of_map_to_list.
    + by apply bool_decide_eq_true.
Qed.

(** C5, as stated, fails for [getTopologyInfo]: with a refresh due and the
    worker of a running topology silent for 39 seconds, it answers "running"
    from the stored row and runs no sweep, although the refresh would have
    unassigned the topology. *)
Lemma getTopologyInfo_reads_stale_row :
  let w := example_world in
  ¬ now w < next_refresh w ∧
  (∃ info w',
     getTopologyInfo "T1" w = (Ok info, w') ∧
     ti_status info = Consts.TopologyStatus.running ∧
     pool w' = pool w ∧ next_refresh w' = next_refresh w ∧
     logged w' = [select_topology_info "T1"]) ∧
  t_status <$> qtopology_topology (pool (refreshStatuses 2 w).2) !! "T1"
    = Some Consts.TopologyStatus.unassigned.
Proof.
  split_and!.
  - vm_compute. discriminate.
  - eexists _, _. split; [vm_compute; reflexivity|]. by vm_compute.
  - by vm_compute.
Qed.

(** C5, amended.  On a store that answers every query, [getWorkerStatus],
    [getTopologyStatus], [getTopologiesForWorker] and [getLeadershipStatus]
    run the throttled refresh first and answer from the state it left;
    [getTopologyInfo] runs no refresh: it reads the row as stored and leaves
    the store and the deadline as they were. *)
Theorem status_readers_refresh_first (fuel : nat) (w : world) :
  faults w = [] →
  ∃ w1,
    refreshStatuses (S (S fuel)) w = (Ok tt, w1) ∧
    (getWorkerStatus (S (S fuel)) w = getWorkerStatusInternal w1 ∧
     ∃ data w', getWorkerStatus (S (S fuel)) w = (Ok data, w') ∧ pool w' = pool w1 ∧
       ∀ worker, worker ∈ data ↔
         ∃ r, qtopology_worker (pool w1) !! ws_name worker = Some r ∧
              worker = mkWorkerStatus (ws_name worker) (w_status r) (w_lstatus r)
                         (default (now w) (w_last_ping r))
                         (default (now w) (w_last_ping r))) ∧
    (getTopologyStatus (S (S fuel)) w = getTopologyStatus_ (ret tt) w1 ∧
     ∃ data w', getTopologyStatus (S (S fuel)) w = (Ok data, w') ∧ pool w' = pool w1 ∧
       ∀ topology, topology ∈ data ↔
         ∃ r, qtopology_topology (pool w1) !! ts_uuid topology = Some r ∧
              topology = topology_status_of (ts_uuid topology) r) ∧
    (∀ name,
       getTopologiesForWorker (S (S fuel)) name w
         = getTopologiesForWorker_ (ret tt) name w1 ∧
       ∃ data w', getTopologiesForWorker (S (S fuel)) name w = (Ok data, w') ∧
         pool w' = pool w1 ∧
         ∀ topology, topology ∈ data ↔
           ∃ r, qtopology_topology (pool w1) !! ts_uuid topology = Some r ∧
                t_worker r = Some name ∧
                topology = topology_status_of (ts_uuid topology) r) ∧
    (getLeadershipStatus (S (S fuel)) w = getLeadershipStatus_ (ret tt) w1 ∧
     ∃ report w', getLeadershipStatus (S (S fuel)) w = (Ok report, w') ∧
       pool w' = pool w1 ∧
       (report = Consts.LeadershipStatus.ok ↔
        has_lstatus (qtopology_worker (pool w1)) Consts.WorkerLStatus.leader)) ∧
    (∀ uuid,
       pool (getTopologyInfo uuid w).2 = pool w ∧
       next_refresh (getTopologyInfo uuid w).2 = next_refresh w ∧
       logged (getTopologyInfo uuid w).2 = (logged w ++ [select_topology_info uuid])%list ∧
       (getTopologyInfo uuid w).1 =
         match qtopology_topology (pool w) !! uuid with
         | Some r => Ok (topology_info_of uuid r)
         | None => Fail (Error ("Requested topology not found: " +:+ uuid)) None
         end).
Proof.
  intros Hf.
  destruct (refreshStatuses_healthy fuel w Hf) as (w1 & E1 & Hf1 & Hn1 & _).
  exists w1. split; [done|]. split_and!.
  - unfold getWorkerStatus, getWorkerStatus_. by rewrite (bind_Ok _ _ _ _ _ E1).
  - destruct (getWorkerStatusInternal_healthy w1 Hf1) as (data & w' & E & _ & P & _ & Hs).
    exists data, w'. split_and!; try done.
    + unfold getWorkerStatus, getWorkerStatus_. by rewrite (bind_Ok _ _ _ _ _ E1).
    + intros worker. rewrite Hs, Hn1. done.
  - unfold getTopologyStatus, getTopologyStatus_, getTopologyStatusInternal_.
    by rewrite (bind_Ok _ _ _ _ _ E1).
  - destruct (getTopologyStatus__healthy _ w w1 E1 Hf1) as (data & w' & E & _ & P & _ & Hs).
    by exists data, w'.
  - intros name. split.
    + unfold getTopologiesForWorker, getTopologiesForWorker_, getTopologyStatusInternal_.
      by rewrite (bind_Ok _ _ _ _ _ E1).
    + destruct (getTopologiesForWorker__healthy _ name w w1 E1 Hf1) as (data & w' & E & P & Hs).
      by exists data, w'.
  - unfold getLeadershipStatus, getLeadershipStatus_. by rewrite (bind_Ok _ _ _ _ _ E1).
  - pose proof (hits_positive_spec (pool w1) Consts.WorkerLStatus.leader) as Hl.
    unfold getLeadershipStatus, getLeadershipStatus_.
    rewrite (bind_Ok _ _ _ _ _ E1). unfold bind. rewrite query_healthy by done.
    fold (hits_positive Consts.WorkerLStatus.leader
            (Store.sp_worker_statuses (now w1) (pool w1)).1).
    fold (hits_positive Consts.WorkerLStatus.candidate
            (Store.sp_worker_statuses (now w1) (pool w1)).1).
    change (Store.sp_worker_statuses (now w1) (pool w1))
      with (Store.sp_worker_statuses 0 (pool w1)).
    unfold Consts.LeadershipStatus.ok, Consts.LeadershipStatus.pending,
      Consts.LeadershipStatus.vacant.
    destruct (hits_positive Consts.WorkerLStatus.leader _);
      [|destruct (hits_positive Consts.WorkerLStatus.candidate _)];
      unfold ret; eexists _, _; (split; [reflexivity|]); (split; [done|]);
      rewrite <- Hl; split; done.
  - intros uuid. destruct (getTopologyInfo_no_refresh uuid w) as (? & ? & ?).
    split_and!; try done. by rewrite getTopologyInfo_healthy.
Qed.

Lemma status_readers_refresh_first_witness :
  let w := example_world in
  faults w = [] ∧
  ∃ w1,
    refreshStatuses 2 w = (Ok tt, w1) ∧
    getWorkerStatus 2 w = getWorkerStatusInternal w1 ∧
    getTopologyStatus 2 w = getTopologyStatus_ (ret tt) w1 ∧
    getTopologiesForWorker 2 "w1" w = getTopologiesForWorker_ (ret tt) "w1" w1 ∧
    getLeadershipStatus 2 w = getLeadershipStatus_ (ret tt) w1 ∧
    pool (getTopologyInfo "T1" w).2 = pool w ∧
    next_refresh (getTopologyInfo "T1" w).2 = next_refresh w.
Proof.
  intros w. split; [reflexivity|].
  destruct (status_readers_refresh_first 0 w eq_refl)
    as (w1 & E & (Hw & _) & (Ht & _) & Hf & (Hl & _) & Hi).
  exists w1. split; [exact E|]. split; [exact Hw|]. split; [exact Ht|].
  split; [exact (proj1 (Hf "w1"))|]. split; [exact Hl|].
  split; [exact (proj1 (Hi "T1"))|exact (proj1 (proj2 (Hi "T1")))].
Defined.

(** ** Clearing the error of a topology *)

(** C6. On a store that answers every query and for a topology [uuid] of the
    table: when its status is not error, [clearTopologyError] hands the error
    "Specified topology is not marked as error" to the callback and the store
    is as before; when its status is error, the call returns without error
    and the row has status unassigned and no error message, its other columns
    but [last_ping] being as before. *)
Theorem clearTopologyError_transition (uuid : string) (w : world) (r : topology_row) :
  faults w = [] →
  qtopology_topology (pool w) !! uuid = Some r →
  (t_status r ≠ Consts.TopologyStatus.error →
     ∃ w', clearTopologyError uuid w =
             (Fail (Error ("Specified topology is not marked as error: " +:+ uuid)) None,
              w') ∧
           pool w' = pool w) ∧
  (t_status r = Consts.TopologyStatus.error →
     ∃ w', clearTopologyError uuid w = (Ok tt, w') ∧
           qtopology_topology (pool w') !! uuid =
             Some (TopologyRow Consts.TopologyStatus.unassigned (t_worker r) (t_weight r)
                     (t_worker_affinity r) None (t_enabled r) (t_config r) (now w)) ∧
           ∀ u, u ≠ uuid →
             qtopology_topology (pool w') !! u = qtopology_topology (pool w) !! u).
Proof.
  intros Hf Hr. unfold clearTopologyError, bind.
  rewrite getTopologyInfo_healthy, Hr by done. simpl. split.
  - intros Hs. rewrite bool_decide_eq_false_2 by done. simpl.
    eexists. split; reflexivity.
  - intros Hs. rewrite bool_decide_eq_true_2 by done. simpl.
    set (w1 := World _ _ _ _ _).
    destruct (setTopologyStatus_healthy uuid Consts.TopologyStatus.unassigned None w1
                eq_refl) as (w' & E & _ & _ & _ & T).
    exists w'. split; [done|]. rewrite T. simpl. split.
    + by rewrite lookup_alter_eq, Hr.
    + intros u Hu. by rewrite lookup_alter_ne.
Qed.

Lemma clearTopologyError_transition_witness :
  (faults example_world = [] ∧
   qtopology_topology (pool example_world) !! "T1" = Some example_T1 ∧
   t_status example_T1 ≠ Consts.TopologyStatus.error ∧
   ∃ w', clearTopologyError "T1" example_world =
           (Fail (Error ("Specified topology is not marked as error: " +:+ "T1")) None, w') ∧
         pool w' = pool example_world) ∧
  (qtopology_topology (pool example_world) !! "T2" = Some example_T2 ∧
   t_status example_T2 = Consts.TopologyStatus.error ∧
   ∃ w', clearTopologyError "T2" example_world = (Ok tt, w') ∧
         qtopology_topology (pool w') !! "T2" =
           Some (TopologyRow Consts.TopologyStatus.unassigned None (JNum 1) (Some "") None 1
                   (JObj [("general", JObj [])]) 40000) ∧
         ∀ u, u ≠ "T2" →
           qtopology_topology (pool w') !! u
             = qtopology_topology (pool example_world) !! u).
Proof.
  assert (H1 : qtopology_topology (pool example_world) !! "T1" = Some example_T1)
    by (vm_compute; reflexivity).
  assert (H2 : qtopology_topology (pool example_world) !! "T2" = Some example_T2)
    by (vm_compute; reflexivity).
  assert (N1 : t_status example_T1 ≠ Consts.TopologyStatus.error) by discriminate.
  split.
  - split; [reflexivity|]. split; [exact H1|]. split; [exact N1|].
    exact (proj1 (clearTopologyError_transition "T1" example_world example_T1
                    eq_refl H1) N1).
  - split; [exact H2|]. split; [reflexivity|].
    exact (proj2 (clearTopologyError_transition "T2" example_world example_T2
                    eq_refl H2) eq_refl).
Defined.

(** ** Registering a topology *)




(** ** History *)

#[local] Instance th_ts_desc_total : Total Store.th_ts_desc.
Proof. intros a b. unfold Store.th_ts_desc. lia. Qed.
#[local] Instance th_ts_desc_trans : Transitive Store.th_ts_desc.
Proof. intros a b c. unfold Store.th_ts_desc. lia. Qed.
#[local] Instance wh_ts_desc_total : Total Store.wh_ts_desc.
Proof. intros a b. unfold Store.wh_ts_desc. lia. Qed.
#[local] Instance wh_ts_desc_trans : Transitive Store.wh_ts_desc.
Proof. intros a b c. unfold Store.wh_ts_desc. lia. Qed.

Lemma StronglySorted_take {A} (R : relation A) n (l : list A) :
  StronglySorted R l → StronglySorted R (take n l).
Proof.
  intros H. rewrite <- (take_drop n l) in H. by apply StronglySorted_app_1_l in H.
Qed.

Lemma elem_of_take_sort_filter {A} (R : relation A) `{!RelDecision R}
    (P : A → bool) n (l : list A) x :
  x ∈ take n (merge_sort R (List.filter P l)) → x ∈ l ∧ P x = true.
Proof.
  intros H. apply subseteq_take in H. rewrite merge_sort_Permutation in H.
  by apply list_elem_of_In, filter_In in H as [?%list_elem_of_In ?].
Qed.



(** ** The mailbox *)

Lemma getMessages_unfold name w :
  getMessages name w =
    bind (query (CALL "qtopology_sp_messages_for_worker" [VStr name])
            (Store.sp_messages_for_worker name))
      (λ data, with_data (message_of <$> data) (each (fst <$> data) delete_fetched)) w.
Proof. reflexivity. Qed.

Lemma elem_of_fetched name w id m :
  (id, m) ∈ fetched name w ↔
  qtopology_message (pool w) !! id = Some m ∧
  m_worker m = name ∧ now w < m_valid_until m.
Proof.
  unfold fetched, Store.sp_messages_for_worker. simpl.
  rewrite merge_sort_Permutation, list_elem_of_In, filter_In, <- list_elem_of_In.
  rewrite elem_of_map_to_list, andb_true_iff, bool_decide_eq_true, Z.ltb_lt. done.
Qed.

Lemma each_delete_fetched_healthy (ids : list Z) w :
  faults w = [] →
  ∃ w', each ids delete_fetched w = (Ok tt, w') ∧ same_instance w w' ∧
    message_auto_increment (pool w') = message_auto_increment (pool w) ∧
    (∀ id, id ∈ ids → qtopology_message (pool w') !! id = None) ∧
    (∀ id, id ∉ ids →
       qtopology_message (pool w') !! id = qtopology_message (pool w) !! id).
Proof.
  revert w. induction ids as [|x ids IH]; intros w Hf.
  - exists w. simpl. split_and!; try done. intros ? H. by apply elem_of_nil in H.
  - simpl. unfold delete_fetched at 1. rewrite query_healthy by done. simpl.
    set (w1 := World _ _ _ _ _).
    destruct (IH w1 eq_refl) as (w2 & E2 & S2 & A2 & D2 & O2).
    exists w2. rewrite E2. simpl. split_and!; try done.
    + intros id Hin. destruct (decide (id ∈ ids)) as [?|Hn]; [by apply D2|].
      apply elem_of_cons in Hin as [->|?]; [|done].
      rewrite O2 by done. simpl. apply lookup_delete_eq.
    + intros id Hn. apply not_elem_of_cons in Hn as [? ?].
      rewrite O2 by done. simpl. by rewrite lookup_delete_ne.
Qed.

Lemma later_store_refl d : later_store d d.
Proof. split; [lia|]. intros; by left. Qed.

Lemma later_store_trans d1 d2 d3 :
  later_store d1 d2 → later_store d2 d3 → later_store d1 d3.
Proof.
  intros [H1 H1'] [H2 H2']. split; [lia|]. intros id H.
  destruct (H2' id H) as [H'|H']; [|right; lia].
  destruct (H1' id H') as [?|?]; [by left|right; lia].
Qed.

Lemma later_store_same d d' :
  qtopology_message d' = qtopology_message d →
  message_auto_increment d' = message_auto_increment d →
  later_store d d'.
Proof. intros Hm Ha. split; [lia|]. intros id H. left. by rewrite <- Hm. Qed.

Lemma later_store_bounded d d' : ids_bounded d → later_store d d' → ids_bounded d'.
Proof.
  intros Hb [Ha Hl] id H. destruct (Hl id H) as [H'|H']; [|lia].
  apply Hb in H'. lia.
Qed.

Lemma advances_ret {A} (a : A) : advances (ret a).
Proof. intros w. apply later_store_refl. Qed.
Lemma advances_fail {A} e : advances (@fail A e).
Proof. intros w. apply later_store_refl. Qed.
Lemma advances_throw {A} e : advances (@throw A e).
Proof. intros w. apply later_store_refl. Qed.
Lemma advances_Date_now : advances Date_now.
Proof. intros w. apply later_store_refl. Qed.
Lemma advances_get_next_refresh : advances get_next_refresh.
Proof. intros w. apply later_store_refl. Qed.
Lemma advances_put_next_refresh t : advances (put_next_refresh t).
Proof. intros w. apply later_store_refl. Qed.
Lemma advances_eval {A} (r : js_error + A) : advances (eval r).
Proof. destruct r; [apply advances_throw|apply advances_ret]. Qed.

Lemma advances_bind {A B} (m : M A) (k : A → M B) :
  advances m → (∀ a, advances (k a)) → advances (bind m k).
Proof.
  intros Hm Hk w. unfold bind. specialize (Hm w).
  destruct (m w) as [[a|e d|e|] w1]; simpl in *; try done.
  eapply later_store_trans; [done|apply Hk].
Qed.

Lemma advances_query {A} text (run : Z → db → A * db) :
  (∀ ts d, later_store d (run ts d).2) → advances (query text run).
Proof.
  intros Hrun w. unfold query. simpl.
  destruct (faults w) as [|[e|] rest]; simpl; try apply later_store_refl;
    specialize (Hrun (now w) (pool w)); by destruct (run (now w) (pool w)).
Qed.

Lemma advances_each {A} (l : list A) (f : A → M unit) :
  (∀ x, advances (f x)) → advances (each l f).
Proof.
  intros Hf. induction l as [|x l IH]; intros w; simpl; [apply later_store_refl|].
  specialize (Hf x w). destruct (f x w) as [r1 w1]. specialize (IH w1).
  destruct (each l f w1) as [r2 w2]. simpl in *. by eapply later_store_trans.
Qed.

Lemma advances_series (l : list (M unit)) : Forall advances l → advances (series l).
Proof. induction 1; simpl; [apply advances_ret|]. apply advances_bind; auto. Qed.

Lemma advances_with_data {A} (a : A) m : advances m → advances (with_data a m).
Proof.
  intros Hm w. unfold with_data. specialize (Hm w).
  by destruct (m w) as [[?|? ?|?|] w1].
Qed.

Lemma advances_if {A} (b : bool) (m1 m2 : M A) :
  advances m1 → advances m2 → advances (if b then m1 else m2).
Proof. by destruct b. Qed.

(** The statements of the store, one by one. *)
Lemma later_update_worker n f ts d : later_store d (Store.update_worker n f ts d).2.
Proof.
  apply later_store_same; unfold Store.update_worker, Store.sp_add_worker_history;
    simpl; by destruct (alter f n (qtopology_worker d) !! n).
Qed.
Lemma later_update_topology u f ts d : later_store d (Store.update_topology u f ts d).2.
Proof.
  apply later_store_same; unfold Store.update_topology, Store.sp_add_topology_history;
    simpl; by destruct (alter f u (qtopology_topology d) !! u).
Qed.
Lemma later_delete_worker n s ts d : later_store d (Store.delete_worker n s ts d).2.
Proof.
  apply later_store_same; unfold Store.delete_worker; simpl;
    destruct (qtopology_worker d !! n); try done; by case_bool_decide.
Qed.
Lemma later_insert_message m ts d : later_store d (Store.insert_message m ts d).2.
Proof.
  unfold Store.insert_message. simpl. split; simpl; [lia|].
  intros id H. destruct (decide (id = message_auto_increment d)) as [->|Hne].
  - right. lia.
  - left. by rewrite lookup_insert_ne in H.
Qed.
Lemma later_delete_message id ts d : later_store d (Store.delete_message id ts d).2.
Proof.
  unfold Store.delete_message. simpl. split; simpl; [lia|].
  intros id' H. left. apply lookup_delete_is_Some in H. tauto.
Qed.
Lemma later_delete_topology u ts d : later_store d (Store.delete_topology u ts d).2.
Proof. by apply later_store_same. Qed.
Lemma later_sp_register_topology u c wt a ts d :
  later_store d (Store.sp_register_topology u c wt a ts d).2.
Proof. by apply later_store_same. Qed.

Create HintDb advances.
#[global] Hint Resolve advances_ret advances_fail advances_throw advances_Date_now
  advances_get_next_refresh advances_put_next_refresh advances_eval
  later_store_refl later_update_worker later_update_topology later_delete_worker
  later_insert_message later_delete_message later_delete_topology
  later_sp_register_topology : advances.

Ltac advances_step :=
  match goal with
  | |- advances (bind _ _) => apply advances_bind; [|intros ?]
  | |- advances (series _) =>
      apply advances_series; repeat apply Forall_cons_2; try apply Forall_nil_2
  | |- advances (each _ _) => apply advances_each; intros ?
  | |- advances (with_data _ _) => apply advances_with_data
  | |- advances (query _ _) => apply advances_query; intros ? ?
  | |- advances (if _ then _ else _) => apply advances_if
  | |- advances (match ?x with _ => _ end) => destruct x
  | |- _ => solve [auto with advances]
  end.
Ltac solve_advances := intros; cbv zeta; repeat (advances_step; cbv zeta).

Lemma advances_refreshStatuses fuel : advances (refreshStatuses fuel).
Proof.
  induction fuel as [|fuel IH]; [intros w; apply later_store_refl|].
  simpl. unfold disableDefunctWorkers, getWorkerStatusInternal,
    disableDefunctWorkerSingle, setWorkerStatus, setWorkerLStatus,
    unassignWaitingTopologies_, getTopologyStatus_, getTopologyStatusInternal_,
    getWorkerStatusInternal, setTopologyStatus.
  solve_advances.
Qed.
#[global] Hint Resolve advances_refreshStatuses : advances.

Lemma run_call_later fuel c w : later_store (pool w) (pool (run_call fuel c w)).
Proof.
  destruct c; simpl; try apply later_store_refl;
    match goal with |- later_store _ (pool (?m w).2) => revert w; change (advances m) end;
    unfold getMessages, getWorkerStatus, getWorkerStatus_, getTopologyStatus,
      getTopologyStatus_, getTopologiesForWorker, getTopologiesForWorker_,
      getTopologyStatusInternal_, getTopologyInfo, getLeadershipStatus,
      getLeadershipStatus_, assignTopology, setTopologyStatus, setWorkerStatus,
      setWorkerLStatus, registerTopology, disableTopology, enableTopology,
      deleteTopology, stopTopology, clearTopologyError, deleteWorker, deleteWorker_,
      getWorkerStatus_, shutDownWorker, sendMessageToWorker, getTopologyHistory,
      getWorkerHistory, getTopologyInfo, disableTopology, setTopologyStatus,
      getWorkerStatusInternal;
    solve_advances.
Qed.

Lemma run_calls_later fuel calls w : later_store (pool w) (pool (run_calls fuel calls w)).
Proof.
  revert w. induction calls as [|c calls IH]; intros w; simpl.
  - apply later_store_refl.
  - eapply later_store_trans; [apply run_call_later|apply IH].
Qed.

(** On an instance built over an empty store, the ids of the messages stay
    below the counter, whatever happens to it. *)
Lemma ids_bounded_reachable fuel calls t :
  ids_bounded (pool (run_calls fuel calls (constructor empty_store t))).
Proof.
  eapply later_store_bounded; [|apply run_calls_later].
  intros id [m H]. simpl in H. by rewrite lookup_empty in H.
Qed.

(** C7. On a store that answers every query, [getMessages] returns the
    messages it fetched, every fetched row is deleted by the call and the
    other rows are kept; a second call right after it returns the empty list;
    and, message ids coming from the auto-increment counter, whatever happens
    to the instance afterwards (calls of the operations above, waiting,
    faults of the driver), no later fetch for the worker returns one of these
    rows again. *)
Theorem getMessages_no_redelivery (name : string) (w : world) :
  faults w = [] →
  ∃ w',
    getMessages name w = (Ok (message_of <$> fetched name w), w') ∧
    (∀ id m, (id, m) ∈ fetched name w → qtopology_message (pool w') !! id = None) ∧
    (∀ id, id ∉ (fetched name w).*1 →
       qtopology_message (pool w') !! id = qtopology_message (pool w) !! id) ∧
    getMessages name w' =
      (Ok [], add_logged (CALL "qtopology_sp_messages_for_worker" [VStr name]) w') ∧
    (ids_bounded (pool w) →
     ∀ fuel calls id m m',
       (id, m) ∈ fetched name w →
       (id, m') ∉ fetched name (run_calls fuel calls w')).
Proof.
  intros Hf. rewrite getMessages_unfold. unfold bind.
  rewrite query_healthy by done. fold (fetched name w).
  set (w1 := World _ _ _ _ _).
  destruct (each_delete_fetched_healthy ((fetched name w).*1) w1 eq_refl)
    as (w' & E & S & A & D & O).
  assert (Hdel : ∀ id m, (id, m) ∈ fetched name w →
                         qtopology_message (pool w') !! id = None).
  { intros id m Hin. apply D. by apply (list_elem_of_fmap_2 fst) in Hin. }
  assert (Hempty : fetched name w' = []).
  { destruct (fetched name w') as [|[id m] l] eqn:Eq; [done|]. exfalso.
    assert (Hin : (id, m) ∈ fetched name w') by (rewrite Eq; left).
    apply elem_of_fetched in Hin as (Hm & Hw & Hv).
    destruct (decide (id ∈ (fetched name w).*1)) as [Hi|Hi].
    - rewrite D in Hm by done. done.
    - rewrite O in Hm by done. apply Hi.
      apply (list_elem_of_fmap_2' fst _ (id, m)); [|done].
      apply elem_of_fetched. destruct S as (_ & Hn & _).
      unfold w1 in Hn, Hm. simpl in Hn, Hm. split_and!; try done. lia. }
  exists w'. unfold with_data. rewrite E. split_and!; try done.
  - rewrite getMessages_unfold. unfold bind.
    rewrite query_healthy by apply S. fold (fetched name w'). rewrite Hempty.
    simpl. unfold add_logged. by destruct S as (-> & _).
  - intros Hb fuel calls id m m' Hin Hin'.
    apply elem_of_fetched in Hin' as (Hm' & _).
    pose proof (run_calls_later fuel calls w') as [_ Hl].
    assert (Hid : id < message_auto_increment (pool w')).
    { rewrite A. apply Hb. apply elem_of_fetched in Hin as (-> & _). done. }
    destruct (Hl id (mk_is_Some _ _ Hm')) as [[x Hx]|Hr]; [|lia].
    rewrite (Hdel id m Hin) in Hx. done.
Qed.

Lemma example_ids_bounded : ids_bounded (pool example_world).
Proof.
  intros id [m H]. simpl in *.
  destruct (decide (id = 1)) as [->|Hne]; [lia|].
  rewrite lookup_insert_ne, lookup_empty in H by done. done.
Defined.

Lemma getMessages_no_redelivery_witness :
  let name := "w1" in
  let w := example_world in
  faults w = [] ∧ ids_bounded (pool w) ∧
  ∃ w',
    getMessages name w = (Ok (message_of <$> fetched name w), w') ∧
    (∀ id m, (id, m) ∈ fetched name w → qtopology_message (pool w') !! id = None) ∧
    getMessages name w' =
      (Ok [], add_logged (CALL "qtopology_sp_messages_for_worker" [VStr name]) w') ∧
    ∀ fuel calls id m m',
      (id, m) ∈ fetched name w →
      (id, m') ∉ fetched name (run_calls fuel calls w').
Proof.
  intros name w. split; [reflexivity|]. split; [exact example_ids_bounded|].
  destruct (getMessages_no_redelivery name w eq_refl) as (w' & E & D & _ & E' & L).
  exists w'. split; [exact E|]. split; [exact D|]. split; [exact E'|].
  exact (L example_ids_bounded).
Defined.

Lemma each_delete_fetched_reply (ids : list Z) w :
  (each ids delete_fetched w).1 =
    match first_fault (take (length ids) (faults w)) with
    | Some e => Fail e None
    | None => Ok tt
    end.
Proof.
  revert w. induction ids as [|x ids IH]; intros w; [done|].
  simpl. unfold delete_fetched at 1, query. simpl.
  destruct (faults w) as [|[e|] rest] eqn:Ef; simpl.
  - match goal with |- context [each ids delete_fetched ?w1] =>
      specialize (IH w1); destruct (each ids delete_fetched w1) as [r2 w2] end.
    simpl in *. rewrite Ef, take_nil in IH. done.
  - match goal with |- context [each ids delete_fetched ?w1] =>
      destruct (each ids delete_fetched w1) as [r2 w2] end.
    done.
  - match goal with |- context [each ids delete_fetched ?w1] =>
      specialize (IH w1); destruct (each ids delete_fetched w1) as [r2 w2] end.
    simpl in *. done.
Qed.

(** C9. When the fetch of [getMessages] succeeds, the callback always gets
    the full list of the fetched messages: alone when every deletion
    succeeds, and together with the error, in the same invocation, when a
    deletion fails. *)
Theorem getMessages_list_with_error (name : string) (w : world) :
  (∀ e, head (faults w) ≠ Some (Some e)) →
  let res := message_of <$> fetched name w in
  let outcomes := take (length (fetched name w)) (tail (faults w)) in
  (getMessages name w).1 =
    match first_fault outcomes with
    | Some e => Fail e (Some res)
    | None => Ok res
    end.
Proof.
  intros Hfetch. cbv zeta. rewrite getMessages_unfold. unfold bind.
  rewrite query_reply. fold (fetched name w).
  destruct (faults w) as [|[e|] rest] eqn:Ef; [|by destruct (Hfetch e)|];
    cbn [tail]; rewrite with_data_reply, each_delete_fetched_reply;
    cbn [faults]; rewrite length_fmap; by destruct (first_fault _).
Qed.

Lemma getMessages_list_with_error_witness :
  let name := "w1" in
  let w := example_world_faulty in
  (∀ e, head (faults w) ≠ Some (Some e)) ∧
  let res := message_of <$> fetched name w in
  let outcomes := take (length (fetched name w)) (tail (faults w)) in
  (getMessages name w).1 =
    match first_fault outcomes with
    | Some e => Fail e (Some res)
    | None => Ok res
    end.
Proof.
  intros name w.
  assert (H : ∀ e, head (faults w) ≠ Some (Some e)) by (intros e; discriminate).
  split; [exact H|]. exact (getMessages_list_with_error name w H).
Defined.

(** ** The scenarios of the specification *)

(** Scenarios 1 to 3: at 31 seconds the refresh marks [w1] dead, with one
    history row, and unassigns the topology that waited on it and those that
    ran on it. *)
Example scenario_refresh :
  let w' := (refreshStatuses 2 scenario_world).2 in
  (refreshStatuses 2 scenario_world).1 = Ok tt ∧
  w_status <$> qtopology_worker (pool w') !! "w1" = Some "dead" ∧
  length (qtopology_worker_history (pool w')) = 1%nat ∧
  t_status <$> qtopology_topology (pool w') !! "T1" = Some "unassigned" ∧
  t_status <$> qtopology_topology (pool w') !! "T2" = Some "unassigned".
Proof. by vm_compute. Qed.

(** Scenario 4: a message sent to [w1] is returned by the next
    [getMessages], and not by the one after it. *)
Example scenario_mailbox :
  let w1 := (sendMessageToWorker "w1" "shutdown" (JObj []) 60000 scenario_world).2 in
  let w2 := (getMessages "w1" w1).2 in
  (getMessages "w1" w1).1 = Ok [mkStorageResultMessage "shutdown" (JObj []) 31000] ∧
  (getMessages "w1" w2).1 = Ok [].
Proof. by vm_compute. Qed.

(** Scenario 5: clearing the error of a running topology fails and changes
    nothing. *)
Example scenario_clear_error :
  (clearTopologyError "T3" scenario_world).1 =
    Fail (Error "Specified topology is not marked as error: T3") None ∧
  pool (clearTopologyError "T3" scenario_world).2 = pool scenario_world.
Proof. by vm_compute. Qed.

(** Section 4.6: when the deletion of a fetched row fails, the callback gets
    the error with the list, and the next call delivers the message again. *)
Example scenario_redelivery :
  let shutdown := mkStorageResultMessage "shutdown" (JObj []) 39000 in
  let w' := (getMessages "w1" example_world_faulty).2 in
  (getMessages "w1" example_world_faulty).1 =
    Fail (Error "ER_LOCK_DEADLOCK") (Some [shutdown]) ∧
  (getMessages "w1" w').1 = Ok [shutdown].
Proof. by vm_compute. Qed.

(** * Further properties *)

(** ** The liveness sweep, row by row *)

Lemma disableDefunctWorkerSingle_exact worker w :
  faults w = [] →
  ∃ w', disableDefunctWorkerSingle worker w = (Ok tt, w') ∧ same_instance w w' ∧
    qtopology_topology (pool w') = qtopology_topology (pool w) ∧
    qtopology_message (pool w') = qtopology_message (pool w) ∧
    (∀ n, n ≠ ws_name worker →
       qtopology_worker (pool w') !! n = qtopology_worker (pool w) !! n) ∧
    qtopology_worker (pool w') !! ws_name worker =
      single_update (now w) worker <$> qtopology_worker (pool w) !! ws_name worker.
Proof.
  intros Hf. unfold disableDefunctWorkerSingle, single_update.
  unfold bind at 1 2. unfold Date_now at 1 2. simpl series.
  destruct (setWorkerStatus_healthy (ws_name worker) Consts.WorkerStatus.dead w Hf)
    as (wa & Ea & Sa & Ta & Ma & Wa).
  set (c1 := bool_decide (ws_status worker = Consts.WorkerStatus.alive)
             && (ws_last_ping worker <? now w - 30 * 1000)).
  set (w1 := if c1 then wa else w).
  assert (E1 : (if negb (bool_decide (ws_status worker = Consts.WorkerStatus.alive))
                then ret tt
                else if now w - 30 * 1000 <=? ws_last_ping worker then ret tt
                     else setWorkerStatus (ws_name worker) Consts.WorkerStatus.dead) w
               = (Ok tt, w1)).
  { unfold w1, c1. rewrite Z.ltb_antisym.
    destruct (bool_decide _); simpl; [|done]. by destruct (_ <=? _). }
  rewrite (bind_Ok _ _ _ _ _ E1).
  assert (S1 : same_instance w w1) by (unfold w1; by destruct c1).
  destruct (setWorkerLStatus_healthy (ws_name worker) Consts.WorkerLStatus.normal w1
              (proj1 S1)) as (wb & Eb & Sb & Tb & Mb & Wb).
  set (c2 := negb (bool_decide (ws_lstatus worker = Consts.WorkerLStatus.normal))
             && (negb (bool_decide (ws_status worker = Consts.WorkerStatus.alive))
                 || (ws_last_ping worker <? now w - 10 * 1000))).
  set (w2 := if c2 then wb else w1).
  assert (E2 : (if negb (bool_decide (ws_lstatus worker = Consts.WorkerLStatus.normal))
                   && negb (bool_decide (ws_status worker = Consts.WorkerStatus.alive))
                then setWorkerLStatus (ws_name worker) Consts.WorkerLStatus.normal
                else if negb (bool_decide (ws_lstatus worker = Consts.WorkerLStatus.normal))
                        && (ws_last_ping worker <? now w - 10 * 1000)
                     then setWorkerLStatus (ws_name worker) Consts.WorkerLStatus.normal
                     else ret tt) w1
               = (Ok tt, w2)).
  { unfold w2, c2.
    destruct (bool_decide (ws_lstatus worker = _)),
             (bool_decide (ws_status worker = _)),
             (ws_last_ping worker <? now w - 10 * 1000); simpl; done. }
  rewrite (bind_Ok _ _ _ _ _ E2). unfold ret.
  assert (Hn1 : now w1 = now w) by apply S1.
  exists w2. unfold w2, w1 in *. clear E1 E2.
  destruct c1, c2; split_and!; try done;
    try (by eapply same_instance_trans); try congruence;
    try (intros n Hn; rewrite ?Wb, ?Wa, ?lookup_alter_ne by done; done);
    rewrite ?Wb, ?Hn1, ?Wa, ?lookup_alter_eq;
    by destruct (qtopology_worker (pool w) !! ws_name worker).
Qed.

Lemma each_disableDefunctWorkerSingle_exact (l : list WorkerStatus) w :
  faults w = [] → NoDup (ws_name <$> l) →
  ∃ w', each l disableDefunctWorkerSingle w = (Ok tt, w') ∧ same_instance w w' ∧
    qtopology_topology (pool w') = qtopology_topology (pool w) ∧
    qtopology_message (pool w') = qtopology_message (pool w) ∧
    (∀ n, n ∉ ws_name <$> l →
       qtopology_worker (pool w') !! n = qtopology_worker (pool w) !! n) ∧
    (∀ worker, worker ∈ l →
       qtopology_worker (pool w') !! ws_name worker =
         single_update (now w) worker <$> qtopology_worker (pool w) !! ws_name worker).
Proof.
  revert w. induction l as [|x l IH]; intros w Hf Hnd.
  - exists w. simpl. split_and!; try done. intros ? H. by apply elem_of_nil in H.
  - rewrite fmap_cons in Hnd. apply NoDup_cons in Hnd as [Hx Hnd].
    destruct (disableDefunctWorkerSingle_exact x w Hf)
      as (w1 & E1 & S1 & T1 & M1 & O1 & P1).
    destruct (IH w1 (proj1 S1) Hnd) as (w2 & E2 & S2 & T2 & M2 & O2 & P2).
    exists w2. simpl. rewrite E1, E2. simpl.
    split_and!; try done; try congruence.
    + by eapply same_instance_trans.
    + intros n Hn. apply not_elem_of_cons in Hn as [? ?]. rewrite O2, O1; done.
    + intros worker Hin. apply elem_of_cons in Hin as [->|Hin].
      * rewrite O2 by done. done.
      * assert (ws_name worker ≠ ws_name x).
        { intros Heq. apply Hx. rewrite <- Heq. by apply list_elem_of_fmap_2. }
        rewrite (P2 worker Hin), O1 by done.
        destruct S1 as (_ & -> & _). done.
Qed.

Lemma single_update_name t worker n r :
  single_update t (mkWorkerStatus n (ws_status worker) (ws_lstatus worker)
                     (ws_last_ping worker) (ws_last_ping_d worker)) r
  = single_update t worker r.
Proof. reflexivity. Qed.

Lemma disableDefunctWorkers_exact (w : world) :
  faults w = [] →
  ∃ w', disableDefunctWorkers w = (Ok tt, w') ∧ same_instance w w' ∧
    qtopology_worker (pool w') = sweep_worker_row (now w) <$> qtopology_worker (pool w) ∧
    qtopology_topology (pool w') = qtopology_topology (pool w) ∧
    qtopology_message (pool w') = qtopology_message (pool w).
Proof.
  intros Hf.
  destruct (getWorkerStatusInternal_healthy w Hf)
    as (snapshot & w0 & E0 & S0 & P0 & Hnd & Hsnap).
  destruct (each_disableDefunctWorkerSingle_exact snapshot w0 (proj1 S0) Hnd)
    as (w' & E & S & T & Ms & O & P).
  assert (Hn0 : now w0 = now w) by apply S0.
  exists w'. split_and!.
  - unfold disableDefunctWorkers. by rewrite (bind_Ok _ _ _ _ _ E0).
  - by eapply same_instance_trans.
  - apply map_eq. intros n. rewrite lookup_fmap.
    destruct (qtopology_worker (pool w) !! n) as [r|] eqn:Hr.
    + set (worker := worker_status_of (now w) n r).
      assert (Hin : worker ∈ snapshot) by (apply Hsnap; exists r; done).
      specialize (P worker Hin). simpl in P. rewrite P, P0, Hr, Hn0. done.
    + rewrite O, P0; [by rewrite Hr|].
      intros Hin. apply list_elem_of_fmap in Hin as (worker & -> & Hin).
      apply Hsnap in Hin as (r & Hr' & _). congruence.
  - by rewrite T, P0.
  - by rewrite Ms, P0.
Qed.

(** X1. On a store that answers every query, the worker liveness sweep is
    the function [sweep_worker_row] applied to every row of the worker table
    at the clock reading of the call: no worker is added or removed, and the
    topologies, the messages, the clock and the deadline are as before. *)
Theorem disableDefunctWorkers_rows (w : world) :
  faults w = [] →
  ∃ w', disableDefunctWorkers w = (Ok tt, w') ∧
    qtopology_worker (pool w') = sweep_worker_row (now w) <$> qtopology_worker (pool w) ∧
    qtopology_topology (pool w') = qtopology_topology (pool w) ∧
    qtopology_message (pool w') = qtopology_message (pool w) ∧
    faults w' = [] ∧ now w' = now w ∧ next_refresh w' = next_refresh w.
Proof.
  intros Hf.
  destruct (disableDefunctWorkers_exact w Hf) as (w' & E & (F & N & D) & W & T & Ms).
  exists w'. done.
Qed.

Lemma disableDefunctWorkers_rows_witness :
  let w := example_world in
  faults w = [] ∧
  ∃ w', disableDefunctWorkers w = (Ok tt, w') ∧
    qtopology_worker (pool w') = sweep_worker_row (now w) <$> qtopology_worker (pool w) ∧
    qtopology_topology (pool w') = qtopology_topology (pool w) ∧
    qtopology_message (pool w') = qtopology_message (pool w) ∧
    faults w' = [] ∧ now w' = now w ∧ next_refresh w' = next_refresh w.
Proof.
  split; [reflexivity|]. apply (disableDefunctWorkers_rows example_world). reflexivity.
Defined.

(** ** The reassignment sweep, row by row *)

Lemma unassign_iteratee_exact dead_workers limit topology w :
  faults w = [] →
  ∃ w', unassign_iteratee dead_workers limit topology w = (Ok tt, w') ∧
    same_instance w w' ∧
    qtopology_worker (pool w') = qtopology_worker (pool w) ∧
    qtopology_message (pool w') = qtopology_message (pool w) ∧
    (∀ u, u ≠ ts_uuid topology →
       qtopology_topology (pool w') !! u = qtopology_topology (pool w) !! u) ∧
    qtopology_topology (pool w') !! ts_uuid topology =
      unassign_update dead_workers limit (now w) topology
        <$> qtopology_topology (pool w) !! ts_uuid topology.
Proof.
  intros Hf. unfold unassign_iteratee, unassign_update.
  destruct (setTopologyStatus_healthy (ts_uuid topology)
              Consts.TopologyStatus.unassigned None w Hf)
    as (w' & E & S & W & Ms & T).
  destruct (bool_decide (ts_status topology = Consts.TopologyStatus.waiting)
            && (ts_last_ping topology <? limit)) eqn:E1;
    [|destruct (bool_decide (ts_status topology = Consts.TopologyStatus.running)
                && match ts_worker topology with
                   | Some n => bool_decide (n ∈ dead_workers)
                   | None => false
                   end) eqn:E2]; simpl.
  1,2: exists w'; split_and!; try done;
    [ intros u Hu; by rewrite T, lookup_alter_ne
    | rewrite T, lookup_alter_eq;
      by destruct (qtopology_topology (pool w) !! ts_uuid topology) ].
  exists w. split_and!; try done.
  by destruct (qtopology_topology (pool w) !! ts_uuid topology).
Qed.

Lemma each_unassign_iteratee_exact dead_workers limit (l : list TopologyStatus) w :
  faults w = [] → NoDup (ts_uuid <$> l) →
  ∃ w', each l (unassign_iteratee dead_workers limit) w = (Ok tt, w') ∧
    same_instance w w' ∧
    qtopology_worker (pool w') = qtopology_worker (pool w) ∧
    qtopology_message (pool w') = qtopology_message (pool w) ∧
    (∀ u, u ∉ ts_uuid <$> l →
       qtopology_topology (pool w') !! u = qtopology_topology (pool w) !! u) ∧
    (∀ topology, topology ∈ l →
       qtopology_topology (pool w') !! ts_uuid topology =
         unassign_update dead_workers limit (now w) topology
           <$> qtopology_topology (pool w) !! ts_uuid topology).
Proof.
  revert w. induction l as [|x l IH]; intros w Hf Hnd.
  - exists w. simpl. split_and!; try done. intros ? H. by apply elem_of_nil in H.
  - rewrite fmap_cons in Hnd. apply NoDup_cons in Hnd as [Hx Hnd].
    destruct (unassign_iteratee_exact dead_workers limit x w Hf)
      as (w1 & E1 & S1 & W1 & M1 & O1 & P1).
    destruct (IH w1 (proj1 S1) Hnd) as (w2 & E2 & S2 & W2 & M2 & O2 & P2).
    exists w2. simpl. rewrite E1, E2. simpl.
    split_and!; try done; try congruence.
    + by eapply same_instance_trans.
    + intros u Hu. apply not_elem_of_cons in Hu as [? ?]. rewrite O2, O1; done.
    + intros topology Hin. apply elem_of_cons in Hin as [->|Hin].
      * rewrite O2 by done. done.
      * assert (ts_uuid topology ≠ ts_uuid x).
        { intros Heq. apply Hx. rewrite <- Heq. by apply list_elem_of_fmap_2. }
        rewrite (P2 topology Hin), O1 by done.
        destruct S1 as (_ & -> & _). done.
Qed.

(** The list [dead_workers] built from a snapshot of the worker table lists
    the workers that are dead or unloaded in the table. *)
Lemma dead_workers_of_snapshot t (workers : gmap string worker_row) snapshot n :
  (∀ worker, worker ∈ snapshot ↔
     ∃ r, workers !! ws_name worker = Some r ∧
          worker = mkWorkerStatus (ws_name worker) (w_status r) (w_lstatus r)
                     (default t (w_last_ping r)) (default t (w_last_ping r))) →
  bool_decide (n ∈ dead_workers_of snapshot) = worker_dead workers n.
Proof.
  intros Hsnap. apply eq_true_iff_eq. rewrite bool_decide_eq_true.
  unfold dead_workers_of, worker_dead. rewrite list_elem_of_fmap. split.
  - intros (x & -> & Hx). apply list_elem_of_In, filter_In in Hx as [Hx Hs].
    apply list_elem_of_In, Hsnap in Hx as (r & -> & Heq).
    rewrite Heq in Hs. done.
  - destruct (workers !! n) as [r|] eqn:Hr; [|done]. intros Hs.
    exists (mkWorkerStatus n (w_status r) (w_lstatus r)
              (default t (w_last_ping r)) (default t (w_last_ping r))).
    split; [done|]. apply list_elem_of_In, filter_In. split; [|done].
    apply list_elem_of_In, Hsnap. exists r. done.
Qed.

(** The sweep for any [self.refreshStatuses] that returns on the state in
    which [getTopologyStatus] calls it and leaves the store as it is. *)
Lemma unassignWaitingTopologies__rows (refresh : M unit) w :
  faults w = [] →
  (∀ w1, same_instance w w1 → pool w1 = pool w →
     ∃ w1', refresh w1 = (Ok tt, w1') ∧ same_instance w1 w1' ∧ pool w1' = pool w1) →
  ∃ w', unassignWaitingTopologies_ refresh w = (Ok tt, w') ∧
    same_instance w w' ∧
    qtopology_worker (pool w') = qtopology_worker (pool w) ∧
    qtopology_message (pool w') = qtopology_message (pool w) ∧
    qtopology_topology (pool w') =
      sweep_topology_row (now w) (qtopology_worker (pool w))
        <$> qtopology_topology (pool w).
Proof.
  intros Hf Hrefresh.
  destruct (getWorkerStatusInternal_healthy w Hf)
    as (data_workers & w1 & E1 & S1 & P1 & _ & Hsnapw).
  destruct (Hrefresh w1 S1 P1) as (w1' & Er & Sr & Pr).
  destruct (getTopologyStatus__healthy refresh w1 w1' Er (proj1 Sr))
    as (data & w2 & E2 & S2 & P2 & Hnd & Hsnap).
  assert (Hn2 : now w2 = now w).
  { destruct S2 as (_ & -> & _), Sr as (_ & -> & _). apply S1. }
  assert (Hp2 : pool w2 = pool w) by congruence.
  destruct (each_unassign_iteratee_exact (dead_workers_of data_workers)
              (now w - 30 * 1000) data w2 (proj1 S2) Hnd)
    as (w' & E3 & S3 & W3 & M3 & O3 & P3).
  exists w'. split_and!.
  - unfold unassignWaitingTopologies_.
    rewrite (bind_Ok _ _ _ _ _ E1), (bind_Ok _ _ _ _ _ E2).
    unfold bind at 1, Date_now at 1. rewrite Hn2. exact E3.
  - eapply same_instance_trans; [|exact S3].
    eapply same_instance_trans; [|exact S2].
    by eapply same_instance_trans.
  - by rewrite W3, Hp2.
  - by rewrite M3, Hp2.
  - apply map_eq. intros u. rewrite lookup_fmap.
    destruct (qtopology_topology (pool w) !! u) as [r|] eqn:Hr.
    + set (topology := topology_status_of u r).
      assert (Hin : topology ∈ data).
      { apply Hsnap. exists r. rewrite Pr, P1. done. }
      specialize (P3 topology Hin). simpl in P3.
      rewrite P3, Hp2, Hr, Hn2. simpl. f_equal.
      unfold unassign_update, sweep_topology_row. simpl.
      destruct (t_worker r) as [n|]; [|done].
      by rewrite (dead_workers_of_snapshot (now w) (qtopology_worker (pool w))).
    + rewrite O3, Hp2; [by rewrite Hr|].
      intros Hin. apply list_elem_of_fmap in Hin as (topology & -> & Hin).
      apply Hsnap in Hin as (r & Hr' & _). rewrite Pr, P1 in Hr'. congruence.
Qed.



(** ** The tables a refresh leaves *)

Lemma refreshStatuses_tables (fuel : nat) (w : world) :
  faults w = [] →
  ∃ w', refreshStatuses (S (S fuel)) w = (Ok tt, w') ∧
    faults w' = [] ∧ now w' = now w ∧
    next_refresh w' = (if now w <? next_refresh w then next_refresh w else now w + 1000) ∧
    qtopology_worker (pool w') = refreshed_workers w ∧
    qtopology_topology (pool w') = refreshed_topologies w ∧
    qtopology_message (pool w') = qtopology_message (pool w).
Proof.
  intros Hf. unfold refreshed_topologies, refreshed_workers.
  destruct (Z.ltb_spec (now w) (next_refresh w)) as [H|H].
  { exists w. rewrite refreshStatuses_throttled by done. done. }
  rewrite refreshStatuses_due by lia. simpl series.
  set (wa := set_next_refresh (now w + 1000) w).
  destruct (disableDefunctWorkers_exact wa Hf) as (wb & Eb & Sb & Wb & Tb & Mb).
  rewrite (bind_Ok _ _ _ _ _ Eb).
  assert (Hnb : now wb = now w) by (destruct Sb as (_ & -> & _); done).
  assert (Hdb : next_refresh wb = now w + 1000) by (destruct Sb as (_ & _ & ->); done).
  destruct (unassignWaitingTopologies__rows (refreshStatuses (S fuel)) wb (proj1 Sb))
    as (w' & E' & (F' & N' & D') & W' & M' & T').
  { intros w1 (Hf1 & Hn1 & Hd1) Hp1. exists w1. split_and!; try done.
    apply refreshStatuses_throttled. lia. }
  unfold unassignWaitingTopologies. rewrite (bind_Ok _ _ _ _ _ E'). unfold ret.
  exists w'. split_and!; try done; try congruence.
  - by rewrite W', Wb.
  - by rewrite T', Tb, Wb, Hnb.
  - by rewrite M', Mb.
Qed.

Lemma refreshStatuses_swept (fuel : nat) (w : world) :
  faults w = [] → next_refresh w ≤ now w →
  ∃ w', refreshStatuses (S (S fuel)) w = (Ok tt, w') ∧
    faults w' = [] ∧ now w' = now w ∧ next_refresh w' = now w + 1000 ∧
    qtopology_worker (pool w') = sweep_worker_row (now w) <$> qtopology_worker (pool w) ∧
    qtopology_topology (pool w') =
      sweep_topology_row (now w) (qtopology_worker (pool w'))
        <$> qtopology_topology (pool w) ∧
    qtopology_message (pool w') = qtopology_message (pool w).
Proof.
  intros Hf Hdue.
  destruct (refreshStatuses_tables fuel w Hf) as (w' & E & F & N & D & W & T & Ms).
  unfold refreshed_topologies, refreshed_workers in *.
  destruct (Z.ltb_spec (now w) (next_refresh w)); [lia|].
  exists w'. split_and!; try done. by rewrite T, W.
Qed.

Lemma filter_key_none {A} (f : A → string) (n : string) (l : list A) :
  (∀ y, y ∈ l → f y ≠ n) → List.filter (λ y, bool_decide (f y = n)) l = [].
Proof.
  induction l as [|a l IH]; intros H; [done|]. simpl.
  rewrite bool_decide_eq_false_2 by (apply H; left).
  apply IH. intros y Hy. apply H. by right.
Qed.

Lemma filter_key_NoDup {A} (f : A → string) (n : string) (l : list A) (x : A) :
  NoDup (f <$> l) → x ∈ l → f x = n →
  List.filter (λ y, bool_decide (f y = n)) l = [x].
Proof.
  induction l as [|a l IH]; intros Hnd Hx Hn; [by apply elem_of_nil in Hx|].
  rewrite fmap_cons in Hnd. apply NoDup_cons in Hnd as [Ha Hnd]. simpl.
  apply elem_of_cons in Hx as [<-|Hx].
  - rewrite bool_decide_eq_true_2 by done. f_equal.
    apply filter_key_none. intros y Hy Heq. apply Ha.
    rewrite Hn, <- Heq. by apply list_elem_of_fmap_2.
  - rewrite bool_decide_eq_false_2; [by apply IH|].
    intros Heq. apply Ha. rewrite Heq, <- Hn. by apply list_elem_of_fmap_2.
Qed.

Lemma sweep_worker_row_unloaded t r :
  bool_decide (w_status (sweep_worker_row t r) = Consts.WorkerStatus.unloaded)
  = bool_decide (w_status r = Consts.WorkerStatus.unloaded).
Proof.
  unfold sweep_worker_row, single_update, worker_status_of. simpl.
  destruct (bool_decide (w_status r = Consts.WorkerStatus.alive)) eqn:Ea; simpl;
    [|by destruct (_ && _)].
  apply bool_decide_eq_true in Ea.
  destruct (_ <? t - 30 * 1000), (_ && _); simpl; rewrite ?Ea; done.
Qed.

Lemma refreshed_workers_lookup w name :
  refreshed_workers w !! name =
    (if now w <? next_refresh w then id else sweep_worker_row (now w))
      <$> qtopology_worker (pool w) !! name.
Proof.
  unfold refreshed_workers. destruct (_ <? _).
  - by destruct (_ !! name).
  - by rewrite lookup_fmap.
Qed.

(** ** Deleting a worker *)

(** X3. [deleteWorker] first forces the throttled refresh and then deletes
    the worker exactly when the stored row of that name has status
    unloaded.  A name that is not in the table gets the error "doesn't
    exist", a worker in any other status the error "not unloaded", and in
    both cases nothing but the refresh has touched the store. *)
Theorem deleteWorker_only_unloaded (fuel : nat) (name : string) (w : world) :
  faults w = [] →
  let reply := (deleteWorker (S (S fuel)) name w).1 in
  let w' := (deleteWorker (S (S fuel)) name w).2 in
  match qtopology_worker (pool w) !! name with
  | None =>
      reply = Fail (Error "Specified worker doesn't exist and thus cannot be deleted.") None
      ∧ qtopology_worker (pool w') = refreshed_workers w
  | Some r =>
      if bool_decide (w_status r = Consts.WorkerStatus.unloaded)
      then reply = Ok tt ∧
           qtopology_worker (pool w') = delete name (refreshed_workers w)
      else reply = Fail (Error "Specified worker is not unloaded and cannot be deleted.") None
           ∧ qtopology_worker (pool w') = refreshed_workers w
  end ∧
  qtopology_topology (pool w') = refreshed_topologies w ∧
  qtopology_message (pool w') = qtopology_message (pool w).
Proof.
  intros Hf.
  destruct (refreshStatuses_tables fuel w Hf) as (w1 & E1 & F1 & N1 & D1 & W1 & T1 & M1).
  destruct (getWorkerStatusInternal_healthy w1 F1)
    as (snapshot & w2 & E2 & S2 & P2 & Hnd & Hsnap).
  remember (deleteWorker (S (S fuel)) name w) as res eqn:E.
  unfold deleteWorker, deleteWorker_, getWorkerStatus_ in E.
  unfold bind at 1 in E. unfold bind at 1 in E. rewrite E1, E2 in E.
  pose proof (refreshed_workers_lookup w name) as Hl. rewrite <- W1 in Hl.
  rewrite <- W1, <- T1, <- M1, <- P2.
  destruct (qtopology_worker (pool w) !! name) as [r|] eqn:Hr; simpl in Hl.
  - set (r1 := (if now w <? next_refresh w then id else sweep_worker_row (now w)) r) in *.
    set (hit := mkWorkerStatus name (w_status r1) (w_lstatus r1)
                  (default (now w1) (w_last_ping r1)) (default (now w1) (w_last_ping r1))).
    assert (Hin : hit ∈ snapshot) by (apply Hsnap; exists r1; done).
    rewrite (filter_key_NoDup ws_name name snapshot hit Hnd Hin eq_refl) in E.
    assert (Hu : bool_decide (w_status r1 = Consts.WorkerStatus.unloaded)
                 = bool_decide (w_status r = Consts.WorkerStatus.unloaded)).
    { unfold r1. destruct (_ <? _); [done|apply sweep_worker_row_unloaded]. }
    cbn [ws_status hit] in E. rewrite Hu in E.
    destruct (bool_decide (w_status r = Consts.WorkerStatus.unloaded)) eqn:Eu.
    + rewrite query_healthy in E by apply S2. simpl in E.
      rewrite <- P2 in Hl. rewrite Hl in E.
      unfold Consts.WorkerStatus.unloaded in *.
      rewrite Hu in E. subst res. done.
    + subst res. done.
  - rewrite filter_key_none in E.
    + subst res. done.
    + intros y Hy Hn. apply Hsnap in Hy as (r' & Hr' & _). congruence.
Qed.

Lemma deleteWorker_only_unloaded_witness :
  let w := example_world in
  faults w = [] ∧
  let reply := (deleteWorker 2 "w1" w).1 in
  let w' := (deleteWorker 2 "w1" w).2 in
  match qtopology_worker (pool w) !! "w1" with
  | None =>
      reply = Fail (Error "Specified worker doesn't exist and thus cannot be deleted.") None
      ∧ qtopology_worker (pool w') = refreshed_workers w
  | Some r =>
      if bool_decide (w_status r = Consts.WorkerStatus.unloaded)
      then reply = Ok tt ∧
           qtopology_worker (pool w') = delete "w1" (refreshed_workers w)
      else reply = Fail (Error "Specified worker is not unloaded and cannot be deleted.") None
           ∧ qtopology_worker (pool w') = refreshed_workers w
  end ∧
  qtopology_topology (pool w') = refreshed_topologies w ∧
  qtopology_message (pool w') = qtopology_message (pool w).
Proof.
  split; [reflexivity|]. apply (deleteWorker_only_unloaded 0 "w1" example_world).
  reflexivity.
Defined.

(** ** Stopping a topology *)

(** X4. [stopTopology] on a store that answers every query: an unknown uuid
    gets the error "Requested topology not found" and a topology without a
    worker (NULL or the empty name) gets success, both with the store left
    exactly as it was, so a topology without a worker is not even disabled;
    a topology with a worker is disabled (only its [enabled] column changes)
    and one message [stop_topology] with content [{uuid}] is queued for that
    worker under the next message id, valid for 30 seconds. *)
Theorem stopTopology_cases (uuid : string) (w : world) :
  faults w = [] →
  let reply := (stopTopology uuid w).1 in
  let d' := pool (stopTopology uuid w).2 in
  match qtopology_topology (pool w) !! uuid with
  | None =>
      reply = Fail (Error ("Requested topology not found: " +:+ uuid)) None ∧
      d' = pool w
  | Some r =>
      match t_worker r with
      | None | Some "" => reply = Ok tt ∧ d' = pool w
      | Some worker =>
          reply = Ok tt ∧
          qtopology_worker d' = qtopology_worker (pool w) ∧
          qtopology_topology d' = <[uuid := set_enabled 0 r]> (qtopology_topology (pool w)) ∧
          qtopology_message d' =
            <[message_auto_increment (pool w) :=
                MessageRow worker Consts.LeaderMessages.stop_topology
                  (JObj [("uuid", JStr uuid)]) (now w) (now w + 30 * 1000)]>
              (qtopology_message (pool w)) ∧
          message_auto_increment d' = message_auto_increment (pool w) + 1
      end
  end.
Proof.
  intros Hf. remember (stopTopology uuid w) as res eqn:E.
  unfold stopTopology in E. unfold bind at 1 in E.
  rewrite (getTopologyInfo_healthy uuid w Hf) in E.
  destruct (qtopology_topology (pool w) !! uuid) as [r|] eqn:Hr; [|by subst res].
  unfold topology_info_of in E. cbn [ti_worker] in E.
  destruct (t_worker r) as [[|c s]|]; [by subst res| |by subst res].
  unfold disableTopology, sendMessageToWorker, bind, query, Date_now in E. simpl in E.
  unfold Store.sp_add_topology_history in E. simpl in E.
  rewrite lookup_alter_eq, Hr in E. simpl in E. subst res. simpl.
  split_and!; try done.
  apply map_eq. intros u. destruct (decide (u = uuid)) as [->|Hu].
  - by rewrite lookup_alter_eq, lookup_insert_eq, Hr.
  - by rewrite lookup_alter_ne, lookup_insert_ne.
Qed.

Lemma stopTopology_cases_witness :
  let w := example_world in
  let uuid := "T1" in
  faults w = [] ∧
  let reply := (stopTopology uuid w).1 in
  let d' := pool (stopTopology uuid w).2 in
  match qtopology_topology (pool w) !! uuid with
  | None =>
      reply = Fail (Error ("Requested topology not found: " +:+ uuid)) None ∧
      d' = pool w
  | Some r =>
      match t_worker r with
      | None | Some "" => reply = Ok tt ∧ d' = pool w
      | Some worker =>
          reply = Ok tt ∧
          qtopology_worker d' = qtopology_worker (pool w) ∧
          qtopology_topology d' = <[uuid := set_enabled 0 r]> (qtopology_topology (pool w)) ∧
          qtopology_message d' =
            <[message_auto_increment (pool w) :=
                MessageRow worker Consts.LeaderMessages.stop_topology
                  (JObj [("uuid", JStr uuid)]) (now w) (now w + 30 * 1000)]>
              (qtopology_message (pool w)) ∧
          message_auto_increment d' = message_auto_increment (pool w) + 1
      end
  end.
Proof.
  split; [reflexivity|]. apply (stopTopology_cases "T1" example_world). reflexivity.
Defined.

(** X5. [stopTopology] is not undone half-way: when the driver answers the
    select and the update and fails the insert of the message, the caller
    gets that error, the topology stays disabled and no message is queued
    for the worker. *)
Theorem stopTopology_insert_fails (uuid worker : string) (r : topology_row)
    (e : js_error) (rest : list (option js_error)) (w : world) :
  faults w = None :: None :: Some e :: rest →
  qtopology_topology (pool w) !! uuid = Some r →
  t_worker r = Some worker → worker ≠ "" →
  (stopTopology uuid w).1 = Fail e None ∧
  qtopology_topology (pool (stopTopology uuid w).2) !! uuid = Some (set_enabled 0 r) ∧
  qtopology_message (pool (stopTopology uuid w).2) = qtopology_message (pool w) ∧
  faults (stopTopology uuid w).2 = rest.
Proof.
  intros Hf Hr Hw Hne. remember (stopTopology uuid w) as res eqn:E.
  unfold stopTopology, getTopologyInfo, disableTopology, sendMessageToWorker,
    bind, query, Date_now in E.
  simpl in E. rewrite Hf in E. simpl in E.
  unfold Store.select_topology in E. rewrite Hr in E. simpl in E. rewrite Hw in E.
  destruct worker as [|c s]; [done|]. simpl in E.
  unfold Store.sp_add_topology_history in E. simpl in E.
  rewrite lookup_alter_eq, Hr in E. simpl in E. subst res. simpl.
  by rewrite lookup_alter_eq, Hr.
Qed.

Lemma stopTopology_insert_fails_witness :
  let w := set_faults [None; None; Some (Error "ER_LOCK_DEADLOCK")] example_world in
  (stopTopology "T1" w).1 = Fail (Error "ER_LOCK_DEADLOCK") None ∧
  qtopology_topology (pool (stopTopology "T1" w).2) !! "T1"
    = Some (set_enabled 0 example_T1) ∧
  qtopology_message (pool (stopTopology "T1" w).2) = qtopology_message (pool w) ∧
  faults (stopTopology "T1" w).2 = [].
Proof.
  apply (stopTopology_insert_fails "T1" "w1" example_T1 (Error "ER_LOCK_DEADLOCK") []
           (set_faults [None; None; Some (Error "ER_LOCK_DEADLOCK")] example_world));
    [reflexivity|reflexivity|reflexivity|discriminate].
Defined.

(** ** Keys that are not in the store *)

Lemma set_topologies_id f d :
  f (qtopology_topology d) = qtopology_topology d → set_topologies f d = d.
Proof. intros H. destruct d. unfold set_topologies. simpl in *. by rewrite H. Qed.

Lemma set_workers_id f d :
  f (qtopology_worker d) = qtopology_worker d → set_workers f d = d.
Proof. intros H. destruct d. unfold set_workers. simpl in *. by rewrite H. Qed.

Lemma update_topology_unknown uuid f ts d :
  qtopology_topology d !! uuid = None → (Store.update_topology uuid f ts d).2 = d.
Proof.
  intros H. unfold Store.update_topology. simpl.
  rewrite set_topologies_id by (by apply alter_id').
  unfold Store.sp_add_topology_history. by rewrite H.
Qed.

Lemma update_worker_unknown name f ts d :
  qtopology_worker d !! name = None → (Store.update_worker name f ts d).2 = d.
Proof.
  intros H. unfold Store.update_worker. simpl.
  rewrite set_workers_id by (by apply alter_id').
  unfold Store.sp_add_worker_history. by rewrite H.
Qed.

(** X6. A uuid that is not in the topology table, on a store that answers
    every query: [getTopologyInfo], [stopTopology] and [clearTopologyError]
    report "Requested topology not found", while [assignTopology],
    [setTopologyStatus], [enableTopology], [disableTopology] and
    [deleteTopology] report success; none of them changes the store. *)
Theorem unknown_topology (uuid : string) (w : world) :
  faults w = [] → qtopology_topology (pool w) !! uuid = None →
  let not_found := Error ("Requested topology not found: " +:+ uuid) in
  (getTopologyInfo uuid w).1 = Fail not_found None ∧
  (stopTopology uuid w).1 = Fail not_found None ∧
  (clearTopologyError uuid w).1 = Fail not_found None ∧
  (∀ name, (assignTopology uuid name w).1 = Ok tt ∧
           pool (assignTopology uuid name w).2 = pool w) ∧
  (∀ status error, (setTopologyStatus uuid status error w).1 = Ok tt ∧
                   pool (setTopologyStatus uuid status error w).2 = pool w) ∧
  (enableTopology uuid w).1 = Ok tt ∧ pool (enableTopology uuid w).2 = pool w ∧
  (disableTopology uuid w).1 = Ok tt ∧ pool (disableTopology uuid w).2 = pool w ∧
  (deleteTopology uuid w).1 = Ok tt ∧ pool (deleteTopology uuid w).2 = pool w ∧
  pool (getTopologyInfo uuid w).2 = pool w ∧
  pool (stopTopology uuid w).2 = pool w ∧
  pool (clearTopologyError uuid w).2 = pool w.
Proof.
  intros Hf Hr. cbv zeta.
  assert (Hi : getTopologyInfo uuid w =
               (Fail (Error ("Requested topology not found: " +:+ uuid)) None,
                World (pool w) (next_refresh w) (now w) []
                  (logged w ++ [select_topology_info uuid]))).
  { by rewrite getTopologyInfo_healthy, Hr. }
  assert (Hs : stopTopology uuid w =
               (Fail (Error ("Requested topology not found: " +:+ uuid)) None,
                (getTopologyInfo uuid w).2)).
  { unfold stopTopology. unfold bind at 1. by rewrite Hi. }
  assert (Hc : clearTopologyError uuid w =
               (Fail (Error ("Requested topology not found: " +:+ uuid)) None,
                (getTopologyInfo uuid w).2)).
  { unfold clearTopologyError. unfold bind at 1. by rewrite Hi. }
  rewrite Hs, Hc, Hi. clear Hs Hc Hi. simpl.
  unfold assignTopology, setTopologyStatus, enableTopology, disableTopology,
    deleteTopology, bind, Date_now.
  split_and!; try done; intros; rewrite ?query_healthy by done; simpl;
    try split; try done; try (by apply update_topology_unknown).
  apply set_topologies_id. by apply delete_id.
Qed.

Lemma unknown_topology_witness :
  let w := example_world in
  let uuid := "T9" in
  let not_found := Error ("Requested topology not found: " +:+ uuid) in
  (getTopologyInfo uuid w).1 = Fail not_found None ∧
  (stopTopology uuid w).1 = Fail not_found None ∧
  (clearTopologyError uuid w).1 = Fail not_found None ∧
  (∀ name, (assignTopology uuid name w).1 = Ok tt ∧
           pool (assignTopology uuid name w).2 = pool w) ∧
  (∀ status error, (setTopologyStatus uuid status error w).1 = Ok tt ∧
                   pool (setTopologyStatus uuid status error w).2 = pool w) ∧
  (enableTopology uuid w).1 = Ok tt ∧ pool (enableTopology uuid w).2 = pool w ∧
  (disableTopology uuid w).1 = Ok tt ∧ pool (disableTopology uuid w).2 = pool w ∧
  (deleteTopology uuid w).1 = Ok tt ∧ pool (deleteTopology uuid w).2 = pool w ∧
  pool (getTopologyInfo uuid w).2 = pool w ∧
  pool (stopTopology uuid w).2 = pool w ∧
  pool (clearTopologyError uuid w).2 = pool w.
Proof.
  apply (unknown_topology "T9" example_world); reflexivity.
Defined.

(** ** Leases *)

Lemma assignTopology_healthy uuid name w :
  faults w = [] →
  ∃ w', assignTopology uuid name w = (Ok tt, w') ∧ same_instance w w' ∧
    qtopology_worker (pool w') = qtopology_worker (pool w) ∧
    qtopology_message (pool w') = qtopology_message (pool w) ∧
    qtopology_topology (pool w') =
      alter (λ r, TopologyRow Consts.TopologyStatus.waiting (Some name) (t_weight r)
                    (t_worker_affinity r) (t_error r) (t_enabled r) (t_config r) (now w))
        uuid (qtopology_topology (pool w)).
Proof.
  intros Hf. unfold assignTopology, bind, Date_now.
  rewrite query_healthy by done. eexists; split; [reflexivity|].
  unfold same_instance, Store.update_topology, Store.sp_add_topology_history; simpl.
  destruct (alter _ uuid _ !! uuid); simpl; done.
Qed.

(** X7. An assignment is a lease of 30 seconds.  After [assignTopology] at
    time [t] the topology is waiting for the named worker; the first refresh
    that runs, [d] milliseconds later, leaves it waiting when [d] is at most
    30000, whatever the state of that worker (the call does not even check
    that the worker exists), and otherwise makes it unassigned, with the
    worker column still naming the worker and the error text cleared. *)
Theorem assignTopology_lease (fuel : nat) (uuid name : string) (r : topology_row)
    (d : Z) (w : world) :
  faults w = [] → qtopology_topology (pool w) !! uuid = Some r →
  next_refresh w ≤ now w + d →
  ∃ w1 w2,
    assignTopology uuid name w = (Ok tt, w1) ∧
    refreshStatuses (S (S fuel)) (tick d w1) = (Ok tt, w2) ∧
    qtopology_topology (pool w2) !! uuid =
      Some (if 30 * 1000 <? d
            then TopologyRow Consts.TopologyStatus.unassigned (Some name) (t_weight r)
                   (t_worker_affinity r) None (t_enabled r) (t_config r) (now w + d)
            else TopologyRow Consts.TopologyStatus.waiting (Some name) (t_weight r)
                   (t_worker_affinity r) (t_error r) (t_enabled r) (t_config r) (now w)).
Proof.
  intros Hf Hr Hdue.
  destruct (assignTopology_healthy uuid name w Hf) as (w1 & E1 & (F1 & N1 & D1) & W1 & M1 & T1).
  destruct (refreshStatuses_swept fuel (tick d w1)) as (w2 & E2 & _ & _ & _ & _ & T2 & _);
    [done|simpl; lia|].
  exists w1, w2. split_and!; try done.
  rewrite T2. simpl. rewrite lookup_fmap, T1, lookup_alter_eq, Hr. simpl. f_equal.
  unfold sweep_topology_row, unassigned_row. simpl. rewrite N1.
  destruct (Z.ltb_spec (30 * 1000) d), (Z.ltb_spec (now w) (now w + d - 30 * 1000));
    try lia; done.
Qed.

Lemma assignTopology_lease_witness :
  let w := example_world in
  let r := example_T1 in
  faults w = [] ∧ qtopology_topology (pool w) !! "T1" = Some r ∧
  next_refresh w ≤ now w + 30001 ∧
  ∃ w1 w2,
    assignTopology "T1" "w2" w = (Ok tt, w1) ∧
    refreshStatuses 2 (tick 30001 w1) = (Ok tt, w2) ∧
    qtopology_topology (pool w2) !! "T1" =
      Some (if 30 * 1000 <? 30001
            then TopologyRow Consts.TopologyStatus.unassigned (Some "w2") (t_weight r)
                   (t_worker_affinity r) None (t_enabled r) (t_config r) (now w + 30001)
            else TopologyRow Consts.TopologyStatus.waiting (Some "w2") (t_weight r)
                   (t_worker_affinity r) (t_error r) (t_enabled r) (t_config r) (now w)).
Proof.
  split; [reflexivity|]. split; [reflexivity|]. split; [simpl; lia|].
  apply (assignTopology_lease 0 "T1" "w2" example_T1 30001 example_world);
    [reflexivity|reflexivity|simpl; lia].
Defined.

(** X8. A heartbeat is a lease of 30 seconds on the status and of 10 seconds
    on a leadership claim.  After [setWorkerStatus(name, alive)] at time [t],
    the first refresh that runs, [d] milliseconds later, declares the worker
    dead exactly when [d] exceeds 30000, and resets a leader or candidate to
    normal exactly when [d] exceeds 10000; up to 10000 the row is left as the
    heartbeat wrote it. *)
Theorem setWorkerStatus_lease (fuel : nat) (name : string) (r : worker_row)
    (d : Z) (w : world) :
  faults w = [] → qtopology_worker (pool w) !! name = Some r →
  next_refresh w ≤ now w + d →
  ∃ w1 w2,
    setWorkerStatus name Consts.WorkerStatus.alive w = (Ok tt, w1) ∧
    refreshStatuses (S (S fuel)) (tick d w1) = (Ok tt, w2) ∧
    qtopology_worker (pool w2) !! name =
      Some (if 30 * 1000 <? d
            then WorkerRow Consts.WorkerStatus.dead Consts.WorkerLStatus.normal
                   (Some (now w + d))
            else if (10 * 1000 <? d)
                    && negb (bool_decide (w_lstatus r = Consts.WorkerLStatus.normal))
            then WorkerRow Consts.WorkerStatus.alive Consts.WorkerLStatus.normal
                   (Some (now w + d))
            else WorkerRow Consts.WorkerStatus.alive (w_lstatus r) (Some (now w))).
Proof.
  intros Hf Hr Hdue.
  destruct (setWorkerStatus_healthy name Consts.WorkerStatus.alive w Hf)
    as (w1 & E1 & (F1 & N1 & D1) & T1 & M1 & W1).
  destruct (refreshStatuses_swept fuel (tick d w1)) as (w2 & E2 & _ & _ & _ & W2 & _);
    [done|simpl; lia|].
  exists w1, w2. split_and!; try done.
  rewrite W2. simpl. rewrite lookup_fmap, W1, lookup_alter_eq, Hr. simpl. f_equal.
  unfold sweep_worker_row, single_update, worker_status_of. simpl. rewrite N1.
  destruct (Z.ltb_spec (30 * 1000) d), (Z.ltb_spec (10 * 1000) d),
    (Z.ltb_spec (now w) (now w + d - 30 * 1000)),
    (Z.ltb_spec (now w) (now w + d - 10 * 1000)); try lia;
    destruct (bool_decide (w_lstatus r = Consts.WorkerLStatus.normal)) eqn:El;
    simpl; try done.
  apply bool_decide_eq_true in El. by rewrite El.
Qed.

Lemma setWorkerStatus_lease_witness :
  let w := example_world in
  let r := WorkerRow "alive" "leader" (Some 1000) in
  faults w = [] ∧ qtopology_worker (pool w) !! "w1" = Some r ∧
  next_refresh w ≤ now w + 10001 ∧
  ∃ w1 w2,
    setWorkerStatus "w1" Consts.WorkerStatus.alive w = (Ok tt, w1) ∧
    refreshStatuses 2 (tick 10001 w1) = (Ok tt, w2) ∧
    qtopology_worker (pool w2) !! "w1" =
      Some (if 30 * 1000 <? 10001
            then WorkerRow Consts.WorkerStatus.dead Consts.WorkerLStatus.normal
                   (Some (now w + 10001))
            else if (10 * 1000 <? 10001)
                    && negb (bool_decide (w_lstatus r = Consts.WorkerLStatus.normal))
            then WorkerRow Consts.WorkerStatus.alive Consts.WorkerLStatus.normal
                   (Some (now w + 10001))
            else WorkerRow Consts.WorkerStatus.alive (w_lstatus r) (Some (now w))).
Proof.
  split; [reflexivity|]. split; [reflexivity|]. split; [simpl; lia|].
  apply (setWorkerStatus_lease 0 "w1" (WorkerRow "alive" "leader" (Some 1000)) 10001
           example_world); [reflexivity|reflexivity|simpl; lia].
Defined.

(** X9. Clearing a stale leadership claim counts as a heartbeat.  A worker
    that is alive, holds a claim (leader or candidate) and was last heard of
    between 10 and 30 seconds ago is reset to normal by a refresh at time
    [t], with [last_ping] set to [t]; a second refresh 20 to 30 seconds later
    therefore still finds it alive, although its own last heartbeat is by
    then older than 30 seconds. *)
Theorem demotion_renews_lease (fuel : nat) (name lstatus : string) (p d : Z)
    (w : world) :
  faults w = [] → next_refresh w ≤ now w →
  qtopology_worker (pool w) !! name
    = Some (WorkerRow Consts.WorkerStatus.alive lstatus (Some p)) →
  lstatus ≠ Consts.WorkerLStatus.normal →
  now w - 30 * 1000 ≤ p < now w - 10 * 1000 →
  20 * 1000 ≤ d ≤ 30 * 1000 →
  ∃ w1 w2,
    refreshStatuses (S (S fuel)) w = (Ok tt, w1) ∧
    refreshStatuses (S (S fuel)) (tick d w1) = (Ok tt, w2) ∧
    qtopology_worker (pool w1) !! name
      = Some (WorkerRow Consts.WorkerStatus.alive Consts.WorkerLStatus.normal
                (Some (now w))) ∧
    p < now (tick d w1) - 30 * 1000 ∧
    qtopology_worker (pool w2) !! name
      = Some (WorkerRow Consts.WorkerStatus.alive Consts.WorkerLStatus.normal
                (Some (now w))).
Proof.
  intros Hf Hdue Hr Hl Hp Hd.
  destruct (refreshStatuses_swept fuel w Hf Hdue) as (w1 & E1 & F1 & N1 & D1 & W1 & _).
  assert (H1 : qtopology_worker (pool w1) !! name
               = Some (WorkerRow Consts.WorkerStatus.alive Consts.WorkerLStatus.normal
                         (Some (now w)))).
  { rewrite W1, lookup_fmap, Hr. simpl. f_equal.
    unfold sweep_worker_row, single_update, worker_status_of. simpl.
    rewrite (bool_decide_eq_false_2 _ Hl).
    destruct (Z.ltb_spec p (now w - 30 * 1000)), (Z.ltb_spec p (now w - 10 * 1000));
      try lia; done. }
  destruct (refreshStatuses_swept fuel (tick d w1)) as (w2 & E2 & _ & _ & _ & W2 & _);
    [done|simpl; lia|].
  exists w1, w2. split_and!; try done.
  { simpl. lia. }
  rewrite W2. simpl. rewrite lookup_fmap, H1. simpl. f_equal.
  unfold sweep_worker_row, single_update, worker_status_of. simpl. rewrite N1.
  destruct (Z.ltb_spec (now w) (now w + d - 30 * 1000)); [lia|done].
Qed.

Lemma demotion_renews_lease_witness :
  let w := constructor example_store 21000 in
  faults w = [] ∧ next_refresh w ≤ now w ∧
  qtopology_worker (pool w) !! "w1"
    = Some (WorkerRow Consts.WorkerStatus.alive "leader" (Some 1000)) ∧
  "leader" ≠ Consts.WorkerLStatus.normal ∧
  now w - 30 * 1000 ≤ 1000 < now w - 10 * 1000 ∧
  20 * 1000 ≤ 30000 ≤ 30 * 1000 ∧
  ∃ w1 w2,
    refreshStatuses 2 w = (Ok tt, w1) ∧
    refreshStatuses 2 (tick 30000 w1) = (Ok tt, w2) ∧
    qtopology_worker (pool w1) !! "w1"
      = Some (WorkerRow Consts.WorkerStatus.alive Consts.WorkerLStatus.normal
                (Some (now w))) ∧
    1000 < now (tick 30000 w1) - 30 * 1000 ∧
    qtopology_worker (pool w2) !! "w1"
      = Some (WorkerRow Consts.WorkerStatus.alive Consts.WorkerLStatus.normal
                (Some (now w))).
Proof.
  split; [reflexivity|]. split; [simpl; lia|]. split; [reflexivity|].
  split; [discriminate|]. split; [simpl; lia|]. split; [lia|].
  apply (demotion_renews_lease 0 "w1" "leader" 1000 30000
           (constructor example_store 21000));
    [reflexivity|simpl; lia|reflexivity|discriminate|simpl; lia|lia].
Defined.

(** X10. A worker whose [last_ping] is NULL is read as heard of at the time
    of the sweep: while it is alive, no refresh declares it dead or takes its
    leadership claim away, however late the refresh runs. *)
Theorem never_pinged_worker_kept (fuel : nat) (name lstatus : string) (w : world) :
  faults w = [] →
  qtopology_worker (pool w) !! name
    = Some (WorkerRow Consts.WorkerStatus.alive lstatus None) →
  ∃ w', refreshStatuses (S (S fuel)) w = (Ok tt, w') ∧
    qtopology_worker (pool w') !! name
      = Some (WorkerRow Consts.WorkerStatus.alive lstatus None).
Proof.
  intros Hf Hr.
  destruct (refreshStatuses_tables fuel w Hf) as (w' & E & _ & _ & _ & W & _).
  exists w'. split; [done|].
  rewrite W, refreshed_workers_lookup, Hr. simpl. f_equal.
  destruct (now w <? next_refresh w); [done|].
  unfold sweep_worker_row, single_update, worker_status_of. simpl.
  destruct (Z.ltb_spec (now w) (now w - 30 * 1000)),
    (Z.ltb_spec (now w) (now w - 10 * 1000)); try lia.
  by destruct (bool_decide (lstatus = Consts.WorkerLStatus.normal)).
Qed.

Lemma never_pinged_worker_kept_witness :
  let w := constructor (Db (<["w1" := WorkerRow "alive" "leader" None]> ∅) ∅ ∅ 1 [] [])
             90000 in
  faults w = [] ∧
  qtopology_worker (pool w) !! "w1"
    = Some (WorkerRow Consts.WorkerStatus.alive "leader" None) ∧
  ∃ w', refreshStatuses 2 w = (Ok tt, w') ∧
    qtopology_worker (pool w') !! "w1"
      = Some (WorkerRow Consts.WorkerStatus.alive "leader" None).
Proof.
  split; [reflexivity|]. split; [reflexivity|].
  apply (never_pinged_worker_kept 0 "w1" "leader"
           (constructor (Db (<["w1" := WorkerRow "alive" "leader" None]> ∅) ∅ ∅ 1 [] [])
              90000)); reflexivity.
Defined.

(** ** What a worker is told about its topologies *)

(** X11. The reassignment sweep keeps the worker column of the topologies it
    unassigns, and [getTopologiesForWorker] filters on that column alone: a
    topology that ran on a worker found dead is still listed for that worker
    by the call whose refresh unassigned it, with status unassigned. *)
Theorem getTopologiesForWorker_lists_unassigned (fuel : nat) (name uuid : string)
    (r : topology_row) (rw : worker_row) (w : world) :
  faults w = [] → next_refresh w ≤ now w →
  qtopology_topology (pool w) !! uuid = Some r →
  t_status r = Consts.TopologyStatus.running → t_worker r = Some name →
  qtopology_worker (pool w) !! name = Some rw →
  w_status rw = Consts.WorkerStatus.dead →
  ∃ data w',
    getTopologiesForWorker (S (S fuel)) name w = (Ok data, w') ∧
    topology_status_of uuid (unassigned_row (now w) r) ∈ data.
Proof.
  intros Hf Hdue Hr Hs Hw Hrw Hdead.
  destruct (refreshStatuses_swept fuel w Hf Hdue)
    as (w1 & E1 & F1 & N1 & D1 & W1 & T1 & _).
  destruct (getTopologiesForWorker__healthy (refreshStatuses (S (S fuel))) name w w1 E1 F1)
    as (data & w2 & E2 & _ & Hdata).
  exists data, w2. split; [exact E2|].
  apply Hdata. exists (unassigned_row (now w) r). split_and!; try done.
  simpl. rewrite T1, lookup_fmap, Hr. simpl. f_equal.
  unfold sweep_topology_row. rewrite Hs, Hw. simpl.
  unfold worker_dead. rewrite W1, lookup_fmap, Hrw. simpl.
  assert (Hd : w_status (sweep_worker_row (now w) rw) = Consts.WorkerStatus.dead).
  { unfold sweep_worker_row, single_update, worker_status_of. simpl. rewrite Hdead. simpl.
    by destruct (negb _ && _). }
  by rewrite Hd.
Qed.

Lemma getTopologiesForWorker_lists_unassigned_witness :
  let store :=
    Db (<["w1" := WorkerRow "dead" "normal" (Some 1000)]> ∅)
       (<["T1" := example_T1]> ∅) ∅ 1 [] [] in
  let w := constructor store 40000 in
  faults w = [] ∧ next_refresh w ≤ now w ∧
  qtopology_topology (pool w) !! "T1" = Some example_T1 ∧
  t_status example_T1 = Consts.TopologyStatus.running ∧
  t_worker example_T1 = Some "w1" ∧
  qtopology_worker (pool w) !! "w1" = Some (WorkerRow "dead" "normal" (Some 1000)) ∧
  ∃ data w',
    getTopologiesForWorker 2 "w1" w = (Ok data, w') ∧
    topology_status_of "T1" (unassigned_row (now w) example_T1) ∈ data.
Proof.
  split; [reflexivity|]. split; [simpl; lia|]. split; [reflexivity|].
  split; [reflexivity|]. split; [reflexivity|]. split; [reflexivity|].
  apply (getTopologiesForWorker_lists_unassigned 0 "w1" "T1" example_T1
           (WorkerRow "dead" "normal" (Some 1000))
           (constructor
              (Db (<["w1" := WorkerRow "dead" "normal" (Some 1000)]> ∅)
                 (<["T1" := example_T1]> ∅) ∅ 1 [] []) 40000));
    first [reflexivity | simpl; lia].
Defined.

(** ** A refresh that fails *)

(** X12. The deadline is advanced before the sweeps run.  When the driver
    fails the first statement of a refresh that is due, the caller gets the
    error, the store is as it was, and the deadline has moved all the same:
    a refresh less than one second later is a no-op that reports success
    without having swept anything. *)
Theorem refreshStatuses_failure_keeps_deadline (fuel : nat) (e : js_error)
    (rest : list (option js_error)) (d : Z) (w : world) :
  faults w = Some e :: rest → next_refresh w ≤ now w → 0 ≤ d < 1000 →
  ∃ w1,
    refreshStatuses (S fuel) w = (Fail e None, w1) ∧
    pool w1 = pool w ∧ next_refresh w1 = now w + 1000 ∧
    refreshStatuses (S fuel) (tick d w1) = (Ok tt, tick d w1).
Proof.
  intros Hf Hdue Hd.
  rewrite refreshStatuses_due by lia.
  unfold series, disableDefunctWorkers, getWorkerStatusInternal, bind, query. simpl.
  rewrite Hf. simpl. eexists. split_and!; try reflexivity.
  apply refreshStatuses_throttled. simpl. lia.
Qed.

Lemma refreshStatuses_failure_keeps_deadline_witness :
  let w := set_faults [Some (Error "ER_LOCK_DEADLOCK")] example_world in
  faults w = [Some (Error "ER_LOCK_DEADLOCK")] ∧ next_refresh w ≤ now w ∧
  0 ≤ 999 < 1000 ∧
  ∃ w1,
    refreshStatuses 1 w = (Fail (Error "ER_LOCK_DEADLOCK") None, w1) ∧
    pool w1 = pool w ∧ next_refresh w1 = now w + 1000 ∧
    refreshStatuses 1 (tick 999 w1) = (Ok tt, tick 999 w1).
Proof.
  split; [reflexivity|]. split; [simpl; lia|]. split; [lia|].
  apply (refreshStatuses_failure_keeps_deadline 0 (Error "ER_LOCK_DEADLOCK") [] 999
           (set_faults [Some (Error "ER_LOCK_DEADLOCK")] example_world));
    [reflexivity|simpl; lia|lia].
Defined.

(** ** The deadline is never far away *)

Create HintDb paced.

Lemma paced_ret {A} (a : A) : paced (ret a).
Proof. intros w. simpl. auto. Qed.
Lemma paced_fail {A} e : paced (@fail A e).
Proof. intros w. simpl. auto. Qed.
Lemma paced_throw {A} e : paced (@throw A e).
Proof. intros w. simpl. auto. Qed.
Lemma paced_Date_now : paced Date_now.
Proof. intros w. simpl. auto. Qed.
Lemma paced_get_next_refresh : paced get_next_refresh.
Proof. intros w. simpl. auto. Qed.

Lemma paced_bind {A B} (m : M A) (k : A → M B) :
  paced m → (∀ a, paced (k a)) → paced (bind m k).
Proof.
  intros Hm Hk w. unfold bind. specialize (Hm w).
  destruct (m w) as [[a|e d|e|] w1]; simpl in *; try done.
  destruct Hm as (Hn & Hr). destruct (Hk a w1) as (Hn' & Hr').
  split; [congruence|]. rewrite Hn in Hr'. destruct Hr' as [->| ->]; auto.
Qed.

Lemma paced_query {A} text (run : Z → db → A * db) : paced (query text run).
Proof.
  intros w. unfold query. simpl.
  destruct (faults w) as [|[e|] rest]; simpl;
    try destruct (run (now w) (pool w)); simpl; auto.
Qed.

Lemma paced_each {A} (l : list A) (f : A → M unit) :
  (∀ x, paced (f x)) → paced (each l f).
Proof.
  intros Hf. induction l as [|x l IH]; intros w; simpl; [auto|].
  specialize (Hf x w). destruct (f x w) as [r1 w1]. specialize (IH w1).
  destruct (each l f w1) as [r2 w2]. simpl in *.
  destruct Hf as (Hn & Hr), IH as (Hn' & Hr').
  split; [congruence|]. rewrite Hn in Hr'. destruct Hr' as [->| ->]; auto.
Qed.

Lemma paced_series (l : list (M unit)) : Forall paced l → paced (series l).
Proof.
  induction 1; simpl; [apply paced_ret|]. apply paced_bind; auto.
Qed.

Lemma paced_with_data {A} (a : A) m : paced m → paced (with_data a m).
Proof.
  intros Hm w. unfold with_data. specialize (Hm w).
  by destruct (m w) as [[?|? ?|?|] w1].
Qed.

Lemma paced_eval {A} (r : js_error + A) : paced (eval r).
Proof. destruct r; [apply paced_throw|apply paced_ret]. Qed.

Lemma paced_if {A} (b : bool) (m1 m2 : M A) :
  paced m1 → paced m2 → paced (if b then m1 else m2).
Proof. by destruct b. Qed.

#[global] Hint Resolve paced_ret paced_fail paced_throw paced_Date_now
  paced_get_next_refresh paced_query paced_eval : paced.

Ltac paced_step :=
  match goal with
  | |- paced (bind _ _) => apply paced_bind; [|intros ?]
  | |- paced (series _) =>
      apply paced_series; repeat apply Forall_cons_2; try apply Forall_nil_2
  | |- paced (each _ _) => apply paced_each; intros ?
  | |- paced (with_data _ _) => apply paced_with_data
  | |- paced (if _ then _ else _) => apply paced_if
  | |- paced (match ?x with _ => _ end) => destruct x
  | |- _ => solve [auto with paced]
  end.
Ltac solve_paced := intros; cbv zeta; repeat (paced_step; cbv zeta).

Lemma paced_refreshStatuses fuel : paced (refreshStatuses fuel).
Proof.
  induction fuel as [|fuel IH]; [intros w; simpl; auto|].
  intros w. destruct (decide (now w < next_refresh w)) as [H|H].
  - rewrite refreshStatuses_throttled by done. auto.
  - rewrite refreshStatuses_due by done.
    assert (K : paced (series [disableDefunctWorkers; unassignWaitingTopologies fuel])).
    { unfold unassignWaitingTopologies, disableDefunctWorkers, getWorkerStatusInternal,
        disableDefunctWorkerSingle, setWorkerStatus, setWorkerLStatus,
        unassignWaitingTopologies_, getTopologyStatus_, getTopologyStatusInternal_,
        getWorkerStatusInternal, setTopologyStatus.
      solve_paced. }
    destruct (K (set_next_refresh (now w + 1000) w)) as (Hn & Hr).
    simpl in *. split; [done|]. destruct Hr as [->| ->]; auto.
Qed.
#[global] Hint Resolve paced_refreshStatuses : paced.

Lemma run_call_paced fuel c w :
  next_refresh w ≤ now w + 1000 →
  match c with Wait d => 0 ≤ d | _ => True end →
  next_refresh (run_call fuel c w) ≤ now (run_call fuel c w) + 1000.
Proof.
  intros Hw Hc.
  destruct c; simpl; try (simpl in *; lia);
    match goal with
    | |- next_refresh (?m w).2 ≤ now (?m w).2 + 1000 =>
        assert (K : paced m); [|destruct (K w) as (-> & [-> | ->]); lia]
    end;
    unfold getMessages, getWorkerStatus, getWorkerStatus_, getTopologyStatus,
      getTopologyStatus_, getTopologiesForWorker, getTopologiesForWorker_,
      getTopologyStatusInternal_, getTopologyInfo, getLeadershipStatus,
      getLeadershipStatus_, assignTopology, setTopologyStatus, setWorkerStatus,
      setWorkerLStatus, registerTopology, disableTopology, enableTopology,
      deleteTopology, stopTopology, clearTopologyError, deleteWorker, deleteWorker_,
      getWorkerStatus_, shutDownWorker, sendMessageToWorker, getTopologyHistory,
      getWorkerHistory, getTopologyInfo, disableTopology, setTopologyStatus,
      getWorkerStatusInternal;
    solve_paced.
Qed.

(** X13. The throttle never defers a refresh by more than one second.  In
    every state an instance reaches from its construction, through any calls
    of the interface, driver faults and waits in which the clock does not go
    back, the deadline is at most 1000 ms after the clock reading; so a
    refresh that comes 1000 ms or more after any call is due. *)
Theorem deadline_within_a_second (fuel : nat) (calls : list call) (store : db) (t : Z) :
  0 ≤ t → time_moves_on calls →
  let w := run_calls fuel calls (constructor store t) in
  next_refresh w ≤ now w + 1000 ∧
  ∀ d, 1000 ≤ d → ¬ now (tick d w) < next_refresh (tick d w).
Proof.
  intros Ht Hcalls.
  assert (H : ∀ w, next_refresh w ≤ now w + 1000 →
                next_refresh (run_calls fuel calls w) ≤ now (run_calls fuel calls w) + 1000).
  { induction Hcalls as [|c calls Hc _ IH]; intros w Hw; [done|].
    simpl. apply IH. by apply run_call_paced. }
  specialize (H (constructor store t)). simpl in H.
  split; [apply H; lia|]. intros d Hd. simpl. specialize (H ltac:(lia)). lia.
Qed.

Lemma deadline_within_a_second_witness :
  let calls := [Call_getWorkerStatus; Wait 300; Call_stopTopology "T1"] in
  0 ≤ 40000 ∧ time_moves_on calls ∧
  let w := run_calls 2 calls (constructor example_store 40000) in
  next_refresh w ≤ now w + 1000 ∧
  ∀ d, 1000 ≤ d → ¬ now (tick d w) < next_refresh (tick d w).
Proof.
  split; [lia|]. split; [repeat constructor; lia|].
  apply (deadline_within_a_second 2
           [Call_getWorkerStatus; Wait 300; Call_stopTopology "T1"] example_store 40000);
    [lia|repeat constructor; lia].
Defined.

(** ** The worker affinity, written and read back *)

Lemma rev_app_rev_app s t u :
  String.rev_app (String.rev_app s t) u = String.rev_app t (s +:+ u).
Proof.
  revert t u. induction s as [|a s IH]; intros t u; simpl; [done|].
  by rewrite IH.
Qed.

Lemma string_app_empty_r (s : string) : s +:+ "" = s.
Proof.
  induction s as [|a s IH]; [done|].
  change (String a (s +:+ "") = String a s). by f_equal.
Qed.

Lemma rev_rev_app s : String.rev (String.rev_app s "") = s.
Proof.
  unfold String.rev. rewrite rev_app_rev_app. simpl. apply string_app_empty_r.
Qed.

Lemma split_commas_aux_app s t cur :
  has_comma s = false →
  split_commas_aux (s +:+ t) cur = split_commas_aux t (String.rev_app s cur).
Proof.
  revert cur. induction s as [|a s IH]; intros cur H; [done|].
  change (split_commas_aux (String a (s +:+ t)) cur
          = split_commas_aux t (String.rev_app s (String a cur))).
  simpl in H. apply orb_false_iff in H as [Ha Hs].
  cbn [split_commas_aux]. rewrite Ha. by apply IH.
Qed.

Lemma split_commas_aux_concat n names :
  Forall plain_name (n :: names) →
  split_commas_aux (String.concat "," (n :: names)) "" = n :: names.
Proof.
  revert n. induction names as [|m names IH]; intros n H.
  - apply Forall_cons in H as [[_ Hn] _]. simpl.
    rewrite <- (string_app_empty_r n) at 1.
    rewrite split_commas_aux_app by done. simpl. by rewrite rev_rev_app.
  - apply Forall_cons in H as [[_ Hn] H].
    change (String.concat "," (n :: m :: names))
      with (n +:+ "," +:+ String.concat "," (m :: names)).
    rewrite split_commas_aux_app by done.
    change ("," +:+ String.concat "," (m :: names))
      with (String ","%char (String.concat "," (m :: names))).
    cbn [split_commas_aux]. rewrite bool_decide_eq_true_2 by done.
    rewrite rev_rev_app. f_equal. by apply IH.
Qed.

Lemma split_commas_concat names :
  Forall plain_name names → split_commas (String.concat "," names) = names.
Proof.
  intros H. unfold split_commas. destruct names as [|n names]; [done|].
  rewrite split_commas_aux_concat by done.
  induction H as [|x l [Hx _] _ IH]; [done|]. simpl.
  rewrite bool_decide_eq_false_2 by done. simpl. by rewrite IH.
Qed.

Lemma js_to_string_names names :
  js_to_string (JArr (JStr <$> names)) = String.concat "," names.
Proof.
  simpl. f_equal. induction names as [|n names IH]; [done|].
  rewrite fmap_cons. by f_equal.
Qed.

Lemma refreshed_topologies_lookup w uuid :
  refreshed_topologies w !! uuid =
    (if now w <? next_refresh w then id
     else sweep_topology_row (now w) (refreshed_workers w))
      <$> qtopology_topology (pool w) !! uuid.
Proof.
  unfold refreshed_topologies. destruct (_ <? _).
  - by destruct (_ !! uuid).
  - by rewrite lookup_fmap.
Qed.

Lemma sweep_topology_row_keeps t workers r :
  t_worker (sweep_topology_row t workers r) = t_worker r ∧
  t_weight (sweep_topology_row t workers r) = t_weight r ∧
  t_worker_affinity (sweep_topology_row t workers r) = t_worker_affinity r ∧
  t_enabled (sweep_topology_row t workers r) = t_enabled r ∧
  t_config (sweep_topology_row t workers r) = t_config r.
Proof. unfold sweep_topology_row. by destruct (_ || _). Qed.

(** X14. The worker affinity and the weight, written and read back.  A
    topology registered with the list [names] as [general.worker_affinity],
    every name non-empty and without a comma, is reported by
    [getTopologyStatus] with exactly that list, whether the uuid was known
    before or not; its weight is [general.weight], or 1 when that is missing
    or falsy (a weight of 0 is registered as 1). *)
Theorem worker_affinity_round_trip (fuel : nat) (uuid : string)
    (config general weight : js_value) (names : list string) (w : world) :
  faults w = [] →
  get_prop config "general" = inr general →
  get_prop general "worker_affinity" = inr (Some (JArr (JStr <$> names))) →
  get_prop general "weight" = inr weight →
  Forall plain_name names →
  ∃ w1 data w2 topology,
    registerTopology uuid config w = (Ok tt, w1) ∧
    getTopologyStatus (S (S fuel)) w1 = (Ok data, w2) ∧
    topology ∈ data ∧ ts_uuid topology = uuid ∧
    ts_worker_affinity topology = names ∧
    ts_weight topology = (if truthy weight then default JNull weight else JNum 1).
Proof.
  intros Hf Hg Ha Hw Hnames.
  assert (E1 : ∃ w1 r, registerTopology uuid config w = (Ok tt, w1) ∧ faults w1 = [] ∧
            qtopology_topology (pool w1) !! uuid = Some r ∧
            t_worker_affinity r = Some (String.concat "," names) ∧
            t_weight r = (if truthy weight then default JNull weight else JNum 1)).
  { unfold registerTopology, bind. rewrite Hg. cbn [eval ret]. rewrite Ha.
    cbn [eval ret truthy js_join]. rewrite Hw. cbn [eval ret].
    rewrite query_healthy by done. rewrite js_to_string_names.
    unfold Store.sp_register_topology, set_topologies. simpl.
    destruct (qtopology_topology (pool w) !! uuid);
      eexists _, _; (split; [reflexivity|]); simpl;
      rewrite lookup_insert_eq; done. }
  destruct E1 as (w1 & r & E1 & F1 & Hr & Haff & Hwt).
  destruct (refreshStatuses_tables fuel w1 F1) as (w1' & E & F & _ & _ & _ & T & _).
  destruct (getTopologyStatus__healthy (refreshStatuses (S (S fuel))) w1 w1' E F)
    as (data & w2 & E2 & _ & _ & _ & Hdata).
  set (r' := (if now w1 <? next_refresh w1 then id
              else sweep_topology_row (now w1) (refreshed_workers w1)) r).
  assert (Hr' : qtopology_topology (pool w1') !! uuid = Some r').
  { by rewrite T, refreshed_topologies_lookup, Hr. }
  assert (Hk : t_worker_affinity r' = t_worker_affinity r ∧ t_weight r' = t_weight r).
  { unfold r'. destruct (_ <? _); [done|].
    split; apply sweep_topology_row_keeps. }
  exists w1, data, w2, (topology_status_of uuid r'). split_and!; try done.
  - apply Hdata. exists r'. done.
  - simpl. rewrite (proj1 Hk), Haff. simpl. by apply split_commas_concat.
  - simpl. by rewrite (proj2 Hk).
Qed.

Lemma worker_affinity_round_trip_witness :
  let general :=
    Some (JObj [("worker_affinity", JArr (JStr <$> ["w1"; "w2"])); ("weight", JNum 0)]) in
  let config := Some (JObj [("general", default JNull general)]) in
  let w := example_world in
  faults w = [] ∧
  get_prop config "general" = inr general ∧
  get_prop general "worker_affinity" = inr (Some (JArr (JStr <$> ["w1"; "w2"]))) ∧
  get_prop general "weight" = inr (Some (JNum 0)) ∧
  Forall plain_name ["w1"; "w2"] ∧
  ∃ w1 data w2 topology,
    registerTopology "T7" config w = (Ok tt, w1) ∧
    getTopologyStatus 2 w1 = (Ok data, w2) ∧
    topology ∈ data ∧ ts_uuid topology = "T7" ∧
    ts_worker_affinity topology = ["w1"; "w2"] ∧
    ts_weight topology = (if truthy (Some (JNum 0)) then default JNull (Some (JNum 0))
                          else JNum 1).
Proof.
  split; [reflexivity|]. split; [reflexivity|]. split; [reflexivity|].
  split; [reflexivity|]. split; [repeat constructor; discriminate|].
  apply (worker_affinity_round_trip 0 "T7"
           (Some (JObj [("general",
                         JObj [("worker_affinity", JArr (JStr <$> ["w1"; "w2"]));
                               ("weight", JNum 0)])]))
           (Some (JObj [("worker_affinity", JArr (JStr <$> ["w1"; "w2"]));
                        ("weight", JNum 0)]))
           (Some (JNum 0)) ["w1"; "w2"] example_world);
    first [reflexivity | repeat constructor; discriminate].
Defined.

(** ** The [last_ping] of [getTopologyInfo] *)

Lemma getDate_range ms : 1 ≤ getDate ms ≤ 31.
Proof.
  unfold getDate. cbv zeta.
  set (z := ms `div` 86400000 + 719468).
  set (doe := z - z `div` 146097 * 146097).
  assert (Hdoe : 0 ≤ doe < 146097).
  { unfold doe. pose proof (Z.mod_pos_bound z 146097 ltac:(lia)) as Hm.
    rewrite Z.mod_eq in Hm by lia. lia. }
  set (yoe := (doe - doe `div` 1460 + doe `div` 36524 - doe `div` 146096) `div` 365).
  set (doy := doe - (365 * yoe + yoe `div` 4 - yoe `div` 100)).
  assert (Hdoy : 0 ≤ doy ≤ 365).
  { unfold doy, yoe. clearbody doe. clear -Hdoe.
    Z.to_euclidean_division_equations; lia. }
  clearbody doy. clear -Hdoy.
  Z.to_euclidean_division_equations; lia.
Qed.

(** X15. The [last_ping] that [getTopologyInfo] reports is a day of the
    month: a number from 1 to 31, whatever the time stamp stored in the row;
    the time stamp itself is reported as [last_ping_d]. *)
Theorem getTopologyInfo_last_ping_is_a_day (uuid : string) (r : topology_row)
    (w : world) :
  faults w = [] → qtopology_topology (pool w) !! uuid = Some r →
  ∃ info w',
    getTopologyInfo uuid w = (Ok info, w') ∧
    1 ≤ ti_last_ping info ≤ 31 ∧ ti_last_ping_d info = t_last_ping r.
Proof.
  intros Hf Hr. rewrite (getTopologyInfo_healthy uuid w Hf), Hr.
  eexists _, _. split; [reflexivity|]. simpl. split; [apply getDate_range|done].
Qed.

Lemma getTopologyInfo_last_ping_is_a_day_witness :
  let w := example_world in
  faults w = [] ∧ qtopology_topology (pool w) !! "T1" = Some example_T1 ∧
  ∃ info w',
    getTopologyInfo "T1" w = (Ok info, w') ∧
    1 ≤ ti_last_ping info ≤ 31 ∧ ti_last_ping_d info = t_last_ping example_T1.
Proof.
  split; [reflexivity|]. split; [reflexivity|].
  apply (getTopologyInfo_last_ping_is_a_day "T1" example_T1 example_world); reflexivity.
Defined.

(** ** Announcing a candidacy *)

Lemma sweep_worker_row_no_stale_claim t r :
  w_lstatus (sweep_worker_row t r) ≠ Consts.WorkerLStatus.normal →
  w_status (sweep_worker_row t r) = Consts.WorkerStatus.alive ∧
  t - 10 * 1000 ≤ default t (w_last_ping (sweep_worker_row t r)).
Proof.
  unfold sweep_worker_row, single_update, worker_status_of. simpl.
  destruct (bool_decide (w_lstatus r = Consts.WorkerLStatus.normal)) eqn:El.
  { apply bool_decide_eq_true in El. simpl.
    destruct (_ && _); simpl; intros Hc; by destruct Hc. }
  destruct (bool_decide (w_status r = Consts.WorkerStatus.alive)) eqn:Ea; simpl;
    [|intros Hc; by destruct Hc].
  apply bool_decide_eq_true in Ea.
  destruct (Z.ltb_spec (default t (w_last_ping r)) (t - 10 * 1000)) as [H10|H10]; simpl;
    [intros Hc; by destruct Hc|].
  destruct (Z.ltb_spec (default t (w_last_ping r)) (t - 30 * 1000)) as [H30|H30]; [lia|].
  done.
Qed.

(** X16. [announceLeaderCandidacy] runs the worker liveness sweep itself,
    throttle or not, and only then the candidacy routine: whatever that
    routine does, on a store that answers every query it runs on a worker
    table in which no stale claim is left (every leader or candidate is alive
    and was heard of within the last 10 seconds), it runs once, and the
    refresh deadline is left as it was. *)
Theorem announceLeaderCandidacy_sweeps_first
    (sp_announce_leader_candidacy : string → Z → db → unit * db)
    (name : string) (w : world) :
  faults w = [] →
  ∃ w1 w',
    disableDefunctWorkers w = (Ok tt, w1) ∧
    announceLeaderCandidacy sp_announce_leader_candidacy name w = (Ok tt, w') ∧
    qtopology_worker (pool w1) = sweep_worker_row (now w) <$> qtopology_worker (pool w) ∧
    no_stale_claim (now w) (qtopology_worker (pool w1)) ∧
    pool w' = (sp_announce_leader_candidacy name (now w) (pool w1)).2 ∧
    next_refresh w' = next_refresh w ∧
    logged w' = (logged w1 ++
                 [CALL "qtopology_sp_announce_leader_candidacy" [VStr name]])%list.
Proof.
  intros Hf.
  destruct (disableDefunctWorkers_exact w Hf) as (w1 & E1 & (F1 & N1 & D1) & W1 & _).
  exists w1,
    (World (sp_announce_leader_candidacy name (now w1) (pool w1)).2 (next_refresh w1)
       (now w1) []
       (logged w1 ++ [CALL "qtopology_sp_announce_leader_candidacy" [VStr name]])).
  split; [done|]. split.
  { unfold announceLeaderCandidacy. rewrite (bind_Ok _ _ _ _ _ E1).
    rewrite query_healthy by done.
    by destruct (sp_announce_leader_candidacy name (now w1) (pool w1)).1. }
  simpl. rewrite N1. split_and!; try done.
  intros n r Hr Hl. rewrite W1, lookup_fmap in Hr.
  destruct (qtopology_worker (pool w) !! n) as [r0|]; [|done].
  simpl in Hr. injection Hr as <-. by apply sweep_worker_row_no_stale_claim.
Qed.

Lemma announceLeaderCandidacy_sweeps_first_witness :
  let sp := λ name (_ : Z) d,
    (tt, set_workers (alter (λ r, WorkerRow (w_status r) "candidate" (w_last_ping r)) name) d)
  in
  let w := example_world in
  faults w = [] ∧
  ∃ w1 w',
    disableDefunctWorkers w = (Ok tt, w1) ∧
    announceLeaderCandidacy sp "w2" w = (Ok tt, w') ∧
    qtopology_worker (pool w1) = sweep_worker_row (now w) <$> qtopology_worker (pool w) ∧
    no_stale_claim (now w) (qtopology_worker (pool w1)) ∧
    pool w' = (sp "w2" (now w) (pool w1)).2 ∧
    next_refresh w' = next_refresh w ∧
    logged w' = (logged w1 ++
                 [CALL "qtopology_sp_announce_leader_candidacy" [VStr "w2"]])%list.
Proof.
  split; [reflexivity|].
  apply (announceLeaderCandidacy_sweeps_first
           (λ name (_ : Z) d,
              (tt, set_workers
                     (alter (λ r, WorkerRow (w_status r) "candidate" (w_last_ping r)) name) d))
           "w2" example_world).
  reflexivity.
Defined.

(** ** The mailbox, from sender to receiver *)

Lemma getMessages_healthy name w :
  faults w = [] →
  ∃ w',
    getMessages name w = (Ok (message_of <$> fetched name w), w') ∧
    (∀ id, id ∈ (fetched name w).*1 → qtopology_message (pool w') !! id = None) ∧
    (∀ id, id ∉ (fetched name w).*1 →
       qtopology_message (pool w') !! id = qtopology_message (pool w) !! id).
Proof.
  intros Hf. rewrite getMessages_unfold. unfold bind.
  rewrite query_healthy by done. fold (fetched name w).
  set (w1 := World _ _ _ _ _).
  destruct (each_delete_fetched_healthy ((fetched name w).*1) w1 eq_refl)
    as (w' & E & S & A & D & O).
  exists w'. unfold with_data. rewrite E. done.
Qed.



(** ** Deleting a topology *)

(** X18. [deleteTopology] asks no question: on a store that answers every
    query the row of the uuid is removed whatever its status and its worker,
    no message is queued for the worker that runs the topology, the workers
    and both histories are as before, and from then on [getTopologyInfo]
    reports the topology as not found. *)
Theorem deleteTopology_unconditional (uuid : string) (w : world) :
  faults w = [] →
  ∃ w',
    deleteTopology uuid w = (Ok tt, w') ∧
    qtopology_topology (pool w') = delete uuid (qtopology_topology (pool w)) ∧
    qtopology_worker (pool w') = qtopology_worker (pool w) ∧
    qtopology_message (pool w') = qtopology_message (pool w) ∧
    qtopology_topology_history (pool w') = qtopology_topology_history (pool w) ∧
    qtopology_worker_history (pool w') = qtopology_worker_history (pool w) ∧
    (getTopologyInfo uuid w').1
      = Fail (Error ("Requested topology not found: " +:+ uuid)) None.
Proof.
  intros Hf. unfold deleteTopology. rewrite query_healthy by done.
  eexists. split; [reflexivity|]. simpl. split_and!; try done.
  rewrite getTopologyInfo_healthy by done. simpl. by rewrite lookup_delete_eq.
Qed.

Lemma deleteTopology_unconditional_witness :
  let w := example_world in
  faults w = [] ∧
  ∃ w',
    deleteTopology "T1" w = (Ok tt, w') ∧
    qtopology_topology (pool w') = delete "T1" (qtopology_topology (pool w)) ∧
    qtopology_worker (pool w') = qtopology_worker (pool w) ∧
    qtopology_message (pool w') = qtopology_message (pool w) ∧
    qtopology_topology_history (pool w') = qtopology_topology_history (pool w) ∧
    qtopology_worker_history (pool w') = qtopology_worker_history (pool w) ∧
    (getTopologyInfo "T1" w').1
      = Fail (Error ("Requested topology not found: " +:+ "T1")) None.
Proof.
  split; [reflexivity|]. apply (deleteTopology_unconditional "T1" example_world).
  reflexivity.
Defined.

(** ** A leadership claim, from the setter to the report *)

Lemma getLeadershipStatus_healthy (fuel : nat) (w : world) :
  faults w = [] →
  ∃ report w',
    getLeadershipStatus (S (S fuel)) w = (Ok report, w') ∧
    (has_lstatus (refreshed_workers w) Consts.WorkerLStatus.leader →
     report = Consts.LeadershipStatus.ok) ∧
    (¬ has_lstatus (refreshed_workers w) Consts.WorkerLStatus.leader →
     ¬ has_lstatus (refreshed_workers w) Consts.WorkerLStatus.candidate →
     report = Consts.LeadershipStatus.vacant).
Proof.
  intros Hf.
  destruct (refreshStatuses_tables fuel w Hf) as (w1 & E1 & Hf1 & _ & _ & W1 & _).
  rewrite <- W1.
  pose proof (hits_positive_spec (pool w1) Consts.WorkerLStatus.leader) as Hl.
  pose proof (hits_positive_spec (pool w1) Consts.WorkerLStatus.candidate) as Hc.
  unfold getLeadershipStatus, getLeadershipStatus_.
  rewrite (bind_Ok _ _ _ _ _ E1). unfold bind. rewrite query_healthy by done.
  fold (hits_positive Consts.WorkerLStatus.leader
          (Store.sp_worker_statuses (now w1) (pool w1)).1).
  fold (hits_positive Consts.WorkerLStatus.candidate
          (Store.sp_worker_statuses (now w1) (pool w1)).1).
  change (Store.sp_worker_statuses (now w1) (pool w1))
    with (Store.sp_worker_statuses 0 (pool w1)).
  destruct (hits_positive Consts.WorkerLStatus.leader _).
  { unfold ret; eexists _, _. split; [reflexivity|]. split; [done|].
    intros Hn. destruct Hn. by apply Hl. }
  destruct (hits_positive Consts.WorkerLStatus.candidate _).
  { unfold ret; eexists _, _. split; [reflexivity|]. split.
    - intros H%Hl. done.
    - intros _ Hn. destruct Hn. by apply Hc. }
  unfold ret; eexists _, _. split; [reflexivity|]. split; [|done].
  intros H%Hl. done.
Qed.

(** X19. A leadership claim is a lease of 10 seconds.  When an alive worker
    is made leader with [setWorkerLStatus] at time [t] and every other worker
    is normal, [getLeadershipStatus] with a refresh that is due, [d]
    milliseconds later, reports ok when [d] is at most 10000 and vacant
    otherwise: the claim lapses unless the worker writes its row again. *)
Theorem leadership_lease (fuel : nat) (name : string) (r : worker_row) (d : Z)
    (w : world) :
  faults w = [] → qtopology_worker (pool w) !! name = Some r →
  w_status r = Consts.WorkerStatus.alive →
  (∀ n r', n ≠ name → qtopology_worker (pool w) !! n = Some r' →
     w_lstatus r' = Consts.WorkerLStatus.normal) →
  0 ≤ d → next_refresh w ≤ now w + d →
  ∃ w1 report w2,
    setWorkerLStatus name Consts.WorkerLStatus.leader w = (Ok tt, w1) ∧
    getLeadershipStatus (S (S fuel)) (tick d w1) = (Ok report, w2) ∧
    report = (if 10 * 1000 <? d then Consts.LeadershipStatus.vacant
              else Consts.LeadershipStatus.ok).
Proof.
  intros Hf Hr Ha Hothers Hd Hdue.
  destruct (setWorkerLStatus_healthy name Consts.WorkerLStatus.leader w Hf)
    as (w1 & E1 & (F1 & N1 & D1) & T1 & M1 & W1).
  destruct (getLeadershipStatus_healthy fuel (tick d w1) F1)
    as (report & w2 & E2 & Hok & Hvacant).
  exists w1, report, w2. split_and!; try done.
  assert (Hrows : ∀ n, refreshed_workers (tick d w1) !! n =
            sweep_worker_row (now w + d)
              <$> (if decide (n = name)
                   then Some (WorkerRow (w_status r) Consts.WorkerLStatus.leader
                                (Some (now w)))
                   else qtopology_worker (pool w) !! n)).
  { intros n. rewrite refreshed_workers_lookup. simpl. rewrite N1, D1.
    destruct (Z.ltb_spec (now w + d) (next_refresh w)); [lia|].
    rewrite W1. destruct (decide (n = name)) as [->|Hn].
    - by rewrite lookup_alter_eq, Hr.
    - by rewrite lookup_alter_ne. }
  destruct (Z.ltb_spec (10 * 1000) d) as [Hlate|Hearly].
  - assert (Hnormal : ∀ n r', refreshed_workers (tick d w1) !! n = Some r' →
                        w_lstatus r' = Consts.WorkerLStatus.normal).
    { intros n r' Hn. rewrite Hrows in Hn. destruct (decide (n = name)) as [->|Hne].
      - simpl in Hn. injection Hn as <-.
        unfold sweep_worker_row, single_update, worker_status_of. simpl. rewrite Ha. simpl.
        destruct (Z.ltb_spec (now w) (now w + d - 10 * 1000)); [|lia]. done.
      - destruct (qtopology_worker (pool w) !! n) as [r0|] eqn:Hr0; [|done].
        simpl in Hn. injection Hn as <-.
        pose proof (Hothers n r0 Hne Hr0) as Hl.
        unfold sweep_worker_row, single_update, worker_status_of. simpl. rewrite Hl. simpl.
        by destruct (_ && _). }
    apply Hvacant; intros (n & r' & Hn & Hl); apply Hnormal in Hn;
      rewrite Hn in Hl; discriminate.
  - apply Hok. exists name, (WorkerRow (w_status r) Consts.WorkerLStatus.leader (Some (now w))).
    split; [|done]. rewrite Hrows. rewrite decide_True by done. simpl. f_equal.
    unfold sweep_worker_row, single_update, worker_status_of. simpl. rewrite Ha. simpl.
    destruct (Z.ltb_spec (now w) (now w + d - 30 * 1000)),
      (Z.ltb_spec (now w) (now w + d - 10 * 1000)); try lia. done.
Qed.

Lemma leadership_lease_witness :
  let store := Db (<["w1" := WorkerRow "alive" "normal" (Some 1000)]> ∅) ∅ ∅ 1 [] [] in
  let w := constructor store 2000 in
  let r := WorkerRow "alive" "normal" (Some 1000) in
  faults w = [] ∧ qtopology_worker (pool w) !! "w1" = Some r ∧
  w_status r = Consts.WorkerStatus.alive ∧
  (∀ n r', n ≠ "w1" → qtopology_worker (pool w) !! n = Some r' →
     w_lstatus r' = Consts.WorkerLStatus.normal) ∧
  0 ≤ 10001 ∧ next_refresh w ≤ now w + 10001 ∧
  ∃ w1 report w2,
    setWorkerLStatus "w1" Consts.WorkerLStatus.leader w = (Ok tt, w1) ∧
    getLeadershipStatus 2 (tick 10001 w1) = (Ok report, w2) ∧
    report = (if 10 * 1000 <? 10001 then Consts.LeadershipStatus.vacant
              else Consts.LeadershipStatus.ok).
Proof.
  assert (Hothers : ∀ n r', n ≠ "w1" →
            (<["w1" := WorkerRow "alive" "normal" (Some 1000)]> ∅ : gmap string worker_row)
              !! n = Some r' →
            w_lstatus r' = Consts.WorkerLStatus.normal).
  { intros n r' Hn H. rewrite lookup_insert_ne, lookup_empty in H by done. done. }
  split; [reflexivity|]. split; [reflexivity|]. split; [reflexivity|].
  split; [exact Hothers|]. split; [lia|]. split; [simpl; lia|].
  apply (leadership_lease 0 "w1" (WorkerRow "alive" "normal" (Some 1000)) 10001
           (constructor
              (Db (<["w1" := WorkerRow "alive" "normal" (Some 1000)]> ∅) ∅ ∅ 1 [] []) 2000));
    [reflexivity|reflexivity|reflexivity|exact Hothers|lia|simpl; lia].
Defined.

(** ** The refresh nested in the refresh *)

Create HintDb returns.

Lemma returns_ret {A} (a : A) : returns (ret a).
Proof. by intros w. Qed.
Lemma returns_fail {A} e : returns (@fail A e).
Proof. by intros w. Qed.
Lemma returns_throw {A} e : returns (@throw A e).
Proof. by intros w. Qed.
Lemma returns_Date_now : returns Date_now.
Proof. by intros w. Qed.
Lemma returns_get_next_refresh : returns get_next_refresh.
Proof. by intros w. Qed.
Lemma returns_put_next_refresh t : returns (put_next_refresh t).
Proof. by intros w. Qed.

Lemma returns_bind {A B} (m : M A) (k : A → M B) :
  returns m → (∀ a, returns (k a)) → returns (bind m k).
Proof.
  intros Hm Hk w. unfold bind. specialize (Hm w).
  destruct (m w) as [[a|e d|e|] w1]; simpl in *; try done. apply Hk.
Qed.

Lemma returns_query {A} text (run : Z → db → A * db) : returns (query text run).
Proof.
  intros w. unfold query. simpl.
  destruct (faults w) as [|[e|] rest]; simpl;
    try destruct (run (now w) (pool w)); done.
Qed.

Lemma returns_each {A} (l : list A) (f : A → M unit) :
  (∀ x, returns (f x)) → returns (each l f).
Proof.
  intros Hf. induction l as [|x l IH]; intros w; simpl; [done|].
  specialize (Hf x w). destruct (f x w) as [r1 w1]. specialize (IH w1).
  destruct (each l f w1) as [r2 w2]. simpl in *.
  by destruct r1.
Qed.

Lemma returns_series (l : list (M unit)) : Forall returns l → returns (series l).
Proof.
  induction 1; simpl; [apply returns_ret|]. apply returns_bind; auto.
Qed.

Lemma returns_with_data {A} (a : A) m : returns m → returns (with_data a m).
Proof.
  intros Hm w. unfold with_data. specialize (Hm w).
  by destruct (m w) as [[?|? ?|?|] w1].
Qed.

Lemma returns_eval {A} (r : js_error + A) : returns (eval r).
Proof. destruct r; [apply returns_throw|apply returns_ret]. Qed.

Lemma returns_if {A} (b : bool) (m1 m2 : M A) :
  returns m1 → returns m2 → returns (if b then m1 else m2).
Proof. by destruct b. Qed.

#[global] Hint Resolve returns_ret returns_fail returns_throw returns_Date_now
  returns_get_next_refresh returns_put_next_refresh returns_query returns_eval : returns.

Ltac returns_step :=
  match goal with
  | |- returns (bind _ _) => apply returns_bind; [|intros ?]
  | |- returns (series _) =>
      apply returns_series; repeat apply Forall_cons_2; try apply Forall_nil_2
  | |- returns (each _ _) => apply returns_each; intros ?
  | |- returns (with_data _ _) => apply returns_with_data
  | |- returns (if _ then _ else _) => apply returns_if
  | |- returns (match ?x with _ => _ end) => destruct x
  | |- _ => solve [auto with returns]
  end.
Ltac solve_returns := intros; cbv zeta; repeat (returns_step; cbv zeta).

Lemma bind_ext_at {A B} (m : M A) (k1 k2 : A → M B) w :
  (∀ a w1, m w = (Ok a, w1) → k1 a w1 = k2 a w1) → bind m k1 w = bind m k2 w.
Proof.
  intros H. unfold bind. destruct (m w) as [[a|e d|e|] w1]; try done. by apply H.
Qed.

(** In a state in which the throttle is closed, the refresh that
    [getTopologyStatus] starts inside the sweep does nothing. *)
Lemma unassignWaitingTopologies__nested fuel w :
  now w < next_refresh w →
  unassignWaitingTopologies_ (refreshStatuses (S fuel)) w
  = unassignWaitingTopologies_ (ret tt) w.
Proof.
  intros Hthr. unfold unassignWaitingTopologies_.
  apply bind_ext_at. intros data_workers w1 E.
  destruct (keeps_getWorkerStatusInternal w) as (Hn & Hr & _).
  rewrite E in Hn, Hr. simpl in Hn, Hr.
  assert (Hthr1 : now w1 < next_refresh w1) by (rewrite Hn, Hr; done).
  unfold getTopologyStatus_, getTopologyStatusInternal_.
  unfold bind at 1 5. unfold bind at 1 4.
  by rewrite refreshStatuses_throttled.
Qed.


(** ** A worker affinity that is not a list *)

(** X21. [registerTopology] calls [join] on whatever truthy value it finds
    as [general.worker_affinity].  When that value is not an array (a single
    name given as a string, a number, an object), the call throws a TypeError
    to its caller before any statement is issued: the callback is not
    invoked, nothing is logged and the instance is exactly as it was,
    whatever the state of the driver. *)
Theorem registerTopology_affinity_not_array (uuid : string)
    (config general : js_value) (affinity : json) (w : world) :
  get_prop config "general" = inr general →
  get_prop general "worker_affinity" = inr (Some affinity) →
  truthy (Some affinity) = true →
  (∀ items, affinity ≠ JArr items) →
  registerTopology uuid config w =
    (Throw (TypeError "config.general.worker_affinity.join is not a function"), w).
Proof.
  intros Hg Ha Ht Hn. unfold registerTopology, bind. rewrite Hg. cbn [eval ret].
  rewrite Ha. cbn [eval ret]. rewrite Ht.
  destruct affinity as [|b|z|s|items|fields]; try done.
  by destruct (Hn items).
Qed.

Lemma registerTopology_affinity_not_array_witness :
  let general := Some (JObj [("worker_affinity", JStr "w1")]) in
  let config := Some (JObj [("general", JObj [("worker_affinity", JStr "w1")])]) in
  get_prop config "general" = inr general ∧
  get_prop general "worker_affinity" = inr (Some (JStr "w1")) ∧
  truthy (Some (JStr "w1")) = true ∧
  (∀ items, JStr "w1" ≠ JArr items) ∧
  registerTopology "T7" config example_world =
    (Throw (TypeError "config.general.worker_affinity.join is not a function"),
     example_world).
Proof.
  split; [reflexivity|]. split; [reflexivity|]. split; [reflexivity|].
  split; [discriminate|].
  apply (registerTopology_affinity_not_array "T7"
           (Some (JObj [("general", JObj [("worker_affinity", JStr "w1")])]))
           (Some (JObj [("worker_affinity", JStr "w1")])) (JStr "w1") example_world);
    first [reflexivity | discriminate].
Defined.

(** ** Enabling and disabling *)

Lemma set_enabled_healthy (e : Z) (text : sql) uuid r w :
  faults w = [] → qtopology_topology (pool w) !! uuid = Some r →
  ∃ w', query text (Store.update_topology uuid (set_enabled e)) w = (Ok tt, w') ∧
    faults w' = [] ∧
    qtopology_topology (pool w') = <[uuid := set_enabled e r]> (qtopology_topology (pool w)) ∧
    qtopology_worker (pool w') = qtopology_worker (pool w) ∧
    qtopology_message (pool w') = qtopology_message (pool w).
Proof.
  intros Hf Hr. rewrite query_healthy by done. eexists. split; [reflexivity|].
  unfold Store.update_topology, Store.sp_add_topology_history. simpl.
  rewrite lookup_alter_eq, Hr. simpl. split_and!; try done.
  apply map_eq. intros u. destruct (decide (u = uuid)) as [->|Hu].
  - by rewrite lookup_alter_eq, lookup_insert_eq, Hr.
  - by rewrite lookup_alter_ne, lookup_insert_ne.
Qed.

(** X22. [disableTopology] and [enableTopology] write the [enabled] column
    of the topology and nothing else: status, worker, error text and, unlike
    every other setter, [last_ping] stay as they were, and no message is
    sent.  [getTopologyStatus] then reports the topology with [enabled] false
    after the one and true after the other. *)
Theorem enabled_round_trip (fuel : nat) (uuid : string) (r : topology_row) (w : world) :
  faults w = [] → qtopology_topology (pool w) !! uuid = Some r →
  (∃ w1 data w2 topology,
     disableTopology uuid w = (Ok tt, w1) ∧
     qtopology_topology (pool w1) = <[uuid := set_enabled 0 r]> (qtopology_topology (pool w)) ∧
     qtopology_worker (pool w1) = qtopology_worker (pool w) ∧
     qtopology_message (pool w1) = qtopology_message (pool w) ∧
     getTopologyStatus (S (S fuel)) w1 = (Ok data, w2) ∧
     topology ∈ data ∧ ts_uuid topology = uuid ∧ ts_enabled topology = false) ∧
  (∃ w1 data w2 topology,
     enableTopology uuid w = (Ok tt, w1) ∧
     qtopology_topology (pool w1) = <[uuid := set_enabled 1 r]> (qtopology_topology (pool w)) ∧
     qtopology_worker (pool w1) = qtopology_worker (pool w) ∧
     qtopology_message (pool w1) = qtopology_message (pool w) ∧
     getTopologyStatus (S (S fuel)) w1 = (Ok data, w2) ∧
     topology ∈ data ∧ ts_uuid topology = uuid ∧ ts_enabled topology = true).
Proof.
  intros Hf Hr.
  assert (H : ∀ e text,
    ∃ w1 data w2 topology,
      query text (Store.update_topology uuid (set_enabled e)) w = (Ok tt, w1) ∧
      qtopology_topology (pool w1) = <[uuid := set_enabled e r]> (qtopology_topology (pool w)) ∧
      qtopology_worker (pool w1) = qtopology_worker (pool w) ∧
      qtopology_message (pool w1) = qtopology_message (pool w) ∧
      getTopologyStatus (S (S fuel)) w1 = (Ok data, w2) ∧
      topology ∈ data ∧ ts_uuid topology = uuid ∧ ts_enabled topology = negb (e =? 0)).
  { intros e text.
    destruct (set_enabled_healthy e text uuid r w Hf Hr) as (w1 & E1 & F1 & T1 & W1 & M1).
    destruct (refreshStatuses_tables fuel w1 F1) as (w1' & E & F & _ & _ & _ & T & _).
    destruct (getTopologyStatus__healthy (refreshStatuses (S (S fuel))) w1 w1' E F)
      as (data & w2 & E2 & _ & _ & _ & Hdata).
    set (r' := (if now w1 <? next_refresh w1 then id
                else sweep_topology_row (now w1) (refreshed_workers w1)) (set_enabled e r)).
    assert (Hr' : qtopology_topology (pool w1') !! uuid = Some r').
    { by rewrite T, refreshed_topologies_lookup, T1, lookup_insert_eq. }
    assert (Hk : t_enabled r' = e).
    { unfold r'. destruct (_ <? _); [done|].
      by rewrite (proj1 (proj2 (proj2 (proj2 (sweep_topology_row_keeps _ _ _))))). }
    exists w1, data, w2, (topology_status_of uuid r'). split_and!; try done.
    - apply Hdata. exists r'. done.
    - simpl. by rewrite Hk. }
  split; [apply (H 0)|apply (H 1)].
Qed.

Lemma enabled_round_trip_witness :
  let w := example_world in
  let uuid := "T1" in
  let r := example_T1 in
  faults w = [] ∧ qtopology_topology (pool w) !! uuid = Some r ∧
  (∃ w1 data w2 topology,
     disableTopology uuid w = (Ok tt, w1) ∧
     qtopology_topology (pool w1) = <[uuid := set_enabled 0 r]> (qtopology_topology (pool w)) ∧
     qtopology_worker (pool w1) = qtopology_worker (pool w) ∧
     qtopology_message (pool w1) = qtopology_message (pool w) ∧
     getTopologyStatus 2 w1 = (Ok data, w2) ∧
     topology ∈ data ∧ ts_uuid topology = uuid ∧ ts_enabled topology = false) ∧
  (∃ w1 data w2 topology,
     enableTopology uuid w = (Ok tt, w1) ∧
     qtopology_topology (pool w1) = <[uuid := set_enabled 1 r]> (qtopology_topology (pool w)) ∧
     qtopology_worker (pool w1) = qtopology_worker (pool w) ∧
     qtopology_message (pool w1) = qtopology_message (pool w) ∧
     getTopologyStatus 2 w1 = (Ok data, w2) ∧
     topology ∈ data ∧ ts_uuid topology = uuid ∧ ts_enabled topology = true).
Proof.
  split; [reflexivity|]. split; [reflexivity|].
  apply (enabled_round_trip 0 "T1" example_T1 example_world); reflexivity.
Defined.
